(** * Urgent Jobs backend: application status engine, notifications, registration

    A shallow embedding of the parts of the Express/PostgreSQL backend that
    decide how applications are created, viewed and moved between statuses,
    how notifications are written and marked as read, and how registration
    uses its transaction.

    Tables are lists of rows in storage order.  Controllers are functions in
    a state-and-exception monad over a [World]: the committed database, the
    open transaction of a checked-out client, the value of [NOW()], and a
    fault schedule saying which storage round trips throw.  Calls to the
    logger are not modelled, so a [catch] block that logs and rethrows is the
    identity. *)

From Stdlib Require Import ZArith List Ascii String Bool DecimalString.
From Stdlib Require Import Sorted Permutation Lia.
Import ListNotations.
Open Scope string_scope.
Open Scope Z_scope.

(** ** JavaScript values that cross the HTTP boundary *)

#[local] Unset Elimination Schemes.
Inductive jsval : Type :=
| JUndefined
| JNull
| JBool (b : bool)
| JNum (n : Z)
| JStr (s : string)
| JArr (items : list jsval)
| JObj (fields : list (string * jsval)).
#[local] Set Elimination Schemes.

Fixpoint assoc (k : string) (fs : list (string * jsval)) : jsval :=
  match fs with
  | [] => JUndefined
  | (k', v) :: rest => if String.eqb k k' then v else assoc k rest
  end.

(** Property read [o.k]; a missing property reads as [undefined]. *)
Definition get (k : string) (o : jsval) : jsval :=
  match o with
  | JObj fs => assoc k fs
  | _ => JUndefined
  end.

Fixpoint has_key (k : string) (fs : list (string * jsval)) : bool :=
  match fs with
  | [] => false
  | (k', _) :: rest => String.eqb k k' || has_key k rest
  end.

(** [k in o] *)
Definition has_field (k : string) (o : jsval) : bool :=
  match o with
  | JObj fs => has_key k fs
  | _ => false
  end.

(** [{...o, k: v}] *)
Fixpoint obj_set (k : string) (v : jsval) (fs : list (string * jsval))
  : list (string * jsval) :=
  match fs with
  | [] => [(k, v)]
  | (k', v') :: rest =>
      if String.eqb k k' then (k, v) :: rest else (k', v') :: obj_set k v rest
  end.

Definition spread_with (o : jsval) (k : string) (v : jsval) : jsval :=
  match o with
  | JObj fs => JObj (obj_set k v fs)
  | _ => JObj [(k, v)]
  end.

(** A value interpolated into a template literal.  The modelled templates
    interpolate strings and missing properties; arrays are never
    interpolated. *)
Definition template (v : jsval) : string :=
  match v with
  | JUndefined => "undefined"
  | JNull => "null"
  | JBool true => "true"
  | JBool false => "false"
  | JStr s => s
  | JNum n => NilZero.string_of_int (Z.to_int n)
  | JArr _ => ""
  | JObj _ => "[object Object]"
  end.

(** JavaScript truthiness of a number that may be [undefined]. *)
Definition truthy_id (v : option Z) : bool :=
  match v with
  | Some n => negb (n =? 0)
  | None => false
  end.

(** A JavaScript value bound to an INTEGER parameter; [undefined] and [null]
    are sent as NULL. *)
Definition as_num (v : jsval) : option Z :=
  match v with
  | JNum n => Some n
  | _ => None
  end.

(** [xs.includes(x)] on an array of strings. *)
Definition includes (xs : list string) (x : string) : bool :=
  existsb (String.eqb x) xs.

Definition nullable (s : option string) : jsval :=
  match s with
  | Some x => JStr x
  | None => JNull
  end.

(** ** Rows of setup.sql

    Columns that none of the modelled statements read or write (bio, skills,
    description, category, ...) are left out. *)

Record User := mkUser {
  u_id : Z;
  u_email : string;
  u_password : string;
  u_first_name : string;
  u_last_name : string;
  u_phone : option string;
  u_profile_picture : option string;
  u_role : string;
  u_created_at : Z;
  u_updated_at : Z
}.

Record JobSeekerProfile := mkJobSeekerProfile {
  jsp_id : Z;
  jsp_user_id : Z
}.

Record EmployerProfile := mkEmployerProfile {
  ep_id : Z;
  ep_user_id : Z;
  ep_company_name : string
}.

Record Job := mkJob {
  j_id : Z;
  j_employer_id : Z;
  j_title : string;
  j_pay_amount : option string;
  j_pay_type : option string;
  j_location_address : string;
  j_urgency : option string;
  j_status : string;
  j_updated_at : Z
}.

Record Application := mkApplication {
  a_id : Z;
  a_job_id : Z;
  a_job_seeker_id : Z;
  a_cover_letter : option string;
  a_status : string;
  a_created_at : Z;
  a_updated_at : Z
}.

Record NotificationRow := mkNotification {
  n_id : Z;
  n_user_id : Z;
  n_title : string;
  n_message : string;
  n_is_read : bool;
  n_type : string;
  n_related_id : option Z;
  n_created_at : Z
}.

Record DB := mkDB {
  users : list User;
  job_seeker_profiles : list JobSeekerProfile;
  employer_profiles : list EmployerProfile;
  jobs : list Job;
  job_applications : list Application;
  notifications : list NotificationRow
}.

Definition with_users (l : list User) (d : DB) : DB :=
  mkDB l (job_seeker_profiles d) (employer_profiles d) (jobs d)
       (job_applications d) (notifications d).

Definition with_job_seeker_profiles (l : list JobSeekerProfile) (d : DB) : DB :=
  mkDB (users d) l (employer_profiles d) (jobs d)
       (job_applications d) (notifications d).

Definition with_employer_profiles (l : list EmployerProfile) (d : DB) : DB :=
  mkDB (users d) (job_seeker_profiles d) l (jobs d)
       (job_applications d) (notifications d).

Definition with_jobs (l : list Job) (d : DB) : DB :=
  mkDB (users d) (job_seeker_profiles d) (employer_profiles d) l
       (job_applications d) (notifications d).

Definition with_job_applications (l : list Application) (d : DB) : DB :=
  mkDB (users d) (job_seeker_profiles d) (employer_profiles d) (jobs d)
       l (notifications d).

Definition with_notifications (l : list NotificationRow) (d : DB) : DB :=
  mkDB (users d) (job_seeker_profiles d) (employer_profiles d) (jobs d)
       (job_applications d) l.

(** A SERIAL key.  The sequence of the column hands out a value that no
    stored row carries; which one depends on the inserts and deletions the
    table has seen, which the store does not record.  The model takes one
    more than the largest stored key, and the properties of the handlers
    rely on nothing but the key being new to the table. *)
Definition next_id (ids : list Z) : Z := 1 + fold_right Z.max 0 ids.

(** ** Request values bound to INTEGER and BIGINT parameters

    Ids come in as the request gave them.  PostgreSQL reads a value that is
    compared with an INTEGER column as an int4 and refuses one outside the
    32-bit range with 22003 (numeric value out of range), before it looks
    at any row. *)
Definition int4 (v : Z) : bool :=
  ((-2147483648 <=? v) && (v <=? 2147483647))%bool.

(** Whether a request value bound to an INTEGER column is accepted.
    [column] lists the keys that the column stores.  PostgreSQL stores int4
    values only, so a value that equals a stored key is in range; the rows
    of the model carry their keys as [Z], and the second test extends that
    fact to every store the model can express.  On a store whose keys are
    int4 values the test is the range test alone. *)
Definition int4_param (v : Z) (column : list Z) : bool :=
  (int4 v || existsb (Z.eqb v) column)%bool.

(** A JavaScript number bound to a BIGINT parameter (LIMIT, OFFSET).  The
    driver sends the number as JavaScript prints it, which from 10^21 on is
    exponent notation that PostgreSQL cannot read as a bigint (22P02); a
    value outside the 64-bit range is refused with 22003. *)
Definition int8_refused (v : Z) : option string :=
  if 1000000000000000000000 <=? Z.abs v then Some "22P02"
  else if ((v <? -9223372036854775808) || (9223372036854775807 <? v))%bool
       then Some "22003"
  else None.

(** [Number.MAX_SAFE_INTEGER]: JavaScript arithmetic on integers is exact
    while operands and result stay within this bound. *)
Definition MAX_SAFE_INTEGER : Z := 9007199254740991.

(** The row object that [RETURNING *] / [SELECT *] yields for
    job_applications. *)
Definition application_row (a : Application) : jsval :=
  JObj [ ("id", JNum (a_id a));
         ("job_id", JNum (a_job_id a));
         ("job_seeker_id", JNum (a_job_seeker_id a));
         ("cover_letter", nullable (a_cover_letter a));
         ("status", JStr (a_status a));
         ("created_at", JNum (a_created_at a));
         ("updated_at", JNum (a_updated_at a)) ].

(** ** Worlds, exceptions and the controller monad *)

Inductive Exn : Type :=
| ApiError (statusCode : Z) (message : string)
| PgError (sqlstate : string)
| TypeError (message : string).

Record World := mkWorld {
  db : DB;                              (* committed rows *)
  tx : option DB;                       (* working copy of the client's open transaction *)
  now : Z;                              (* NOW() *)
  nq : nat;                             (* storage round trips made so far *)
  storage_fault : nat -> option string  (* round trip n throws with this SQLSTATE *)
}.

Definition tick (w : World) : World :=
  mkWorld (db w) (tx w) (now w) (S (nq w)) (storage_fault w).

Definition set_db (d : DB) (w : World) : World :=
  mkWorld d (tx w) (now w) (nq w) (storage_fault w).

Definition set_tx (t : option DB) (w : World) : World :=
  mkWorld (db w) t (now w) (nq w) (storage_fault w).

(** No storage round trip fails. *)
Definition healthy (w : World) : Prop := forall n, storage_fault w n = None.

Inductive res (A : Type) : Type :=
| Ok (a : A)
| Throw (e : Exn).
Arguments Ok {A} a.
Arguments Throw {A} e.

Definition M (A : Type) : Type := World -> res A * World.

Definition ret {A} (a : A) : M A := fun w => (Ok a, w).

Definition throw {A} (e : Exn) : M A := fun w => (Throw e, w).

Definition bind {A B} (m : M A) (k : A -> M B) : M B :=
  fun w =>
    match m w with
    | (Ok a, w') => k a w'
    | (Throw e, w') => (Throw e, w')
    end.

Notation "x <- m ;; k" := (bind m (fun x => k))
  (at level 61, m at next level, right associativity).
Notation "m ;;; k" := (bind m (fun _ => k))
  (at level 61, right associativity).

(** [try { m } catch (e) { h e }] *)
Definition try_catch {A} (m : M A) (h : Exn -> M A) : M A :=
  fun w =>
    match m w with
    | (Ok a, w') => (Ok a, w')
    | (Throw e, w') => h e w'
    end.

(** [try { m } finally { f }] *)
Definition finally {A} (m : M A) (f : M unit) : M A :=
  fun w =>
    match m w with
    | (r, w') =>
        match f w' with
        | (Ok _, w'') => (r, w'')
        | (Throw e, w'') => (Throw e, w'')
        end
    end.

(** What a handler hands back to Express: a success envelope, or an error
    passed to [next]. *)
Inductive Reply : Type :=
| Success (statusCode : Z) (message : string) (data : jsval)
| Next (err : Exn).

Definition successResponse (statusCode : Z) (message : string) (data : jsval)
  : M Reply :=
  ret (Success statusCode message data).

Definition next (e : Exn) : M Reply := ret (Next e).

(** The outermost [try { ... } catch (error) { return next(error) }] of every
    handler. *)
Definition handler (body : M Reply) : M Reply :=
  try_catch body (fun e => next e).

(** Status code written by errorHandler.js. *)
Definition errorHandler (e : Exn) : Z :=
  match e with
  | ApiError c _ => c
  | PgError st =>
      if (String.eqb st "23505" || String.eqb st "23503")%bool then 400 else 500
  | TypeError _ => 500
  end.

Definition http_status (r : Reply) : Z :=
  match r with
  | Success c _ _ => c
  | Next e => errorHandler e
  end.

(** ** Statements and the two ways of running them *)

Inductive PgResult (A : Type) : Type :=
| Rows (rows : A) (d : DB)
| SqlError (sqlstate : string).
Arguments Rows {A} rows d.
Arguments SqlError {A} sqlstate.

(** A statement reads the rows it runs against and [NOW()]. *)
Definition Stmt (A : Type) : Type := DB -> Z -> PgResult A.

(** db/connection.js [query]: one autocommitted statement on the pool. *)
Definition query {A} (s : Stmt A) : M A :=
  fun w =>
    match storage_fault w (nq w) with
    | Some st => (Throw (PgError st), tick w)
    | None =>
        match s (db w) (now w) with
        | Rows a d => (Ok a, set_db d (tick w))
        | SqlError st => (Throw (PgError st), tick w)
        end
    end.

(** [client.query] on a checked-out client: inside BEGIN ... COMMIT the
    statement runs against the working copy. *)
Definition client_query {A} (s : Stmt A) : M A :=
  fun w =>
    match storage_fault w (nq w) with
    | Some st => (Throw (PgError st), tick w)
    | None =>
        match tx w with
        | Some d =>
            match s d (now w) with
            | Rows a d' => (Ok a, set_tx (Some d') (tick w))
            | SqlError st => (Throw (PgError st), tick w)
            end
        | None =>
            match s (db w) (now w) with
            | Rows a d => (Ok a, set_db d (tick w))
            | SqlError st => (Throw (PgError st), tick w)
            end
        end
    end.

Definition client_begin : M unit :=
  fun w =>
    match storage_fault w (nq w) with
    | Some st => (Throw (PgError st), tick w)
    | None => (Ok tt, set_tx (Some (db w)) (tick w))
    end.

Definition client_commit : M unit :=
  fun w =>
    match storage_fault w (nq w) with
    | Some st => (Throw (PgError st), tick w)
    | None =>
        match tx w with
        | Some d => (Ok tt, set_tx None (set_db d (tick w)))
        | None => (Ok tt, tick w)
        end
    end.

Definition client_rollback : M unit :=
  fun w =>
    match storage_fault w (nq w) with
    | Some st => (Throw (PgError st), tick w)
    | None => (Ok tt, set_tx None (tick w))
    end.

(** [client.release()]: the handle is given up; whatever was not committed
    stays uncommitted. *)
Definition client_release : M unit :=
  fun w => (Ok tt, set_tx None w).

(** ** Query texts *)

Definition newline : string := String (Ascii.ascii_of_nat 10) EmptyString.

(** How many times the character [$], which starts a placeholder, occurs. *)
Fixpoint dollar_count (s : string) : nat :=
  match s with
  | EmptyString => O
  | String c rest =>
      (if Ascii.eqb c "$"%char then 1 else 0) + dollar_count rest
  end%nat.

Record Filters := mkFilters {
  f_status : option string;
  f_sortBy : option string;
  f_sortOrder : option string
}.

(** [delete o.k] *)
Fixpoint obj_delete (k : string) (fs : list (string * jsval))
  : list (string * jsval) :=
  match fs with
  | [] => []
  | (k', v) :: rest =>
      if String.eqb k k' then obj_delete k rest else (k', v) :: obj_delete k rest
  end.

(** ** models/application.model.js *)

(** A row handed back by [findById]: the job_applications columns, plus the
    joined columns when [includeDetails] was set. *)
Record JoinedColumns := mkJoined {
  job_title : string;
  pay_amount : option string;
  pay_type : option string;
  urgency : option string;
  job_location : string;
  company_name : string;
  employer_first_name : string;
  employer_last_name : string;
  seeker_first_name : string;
  seeker_last_name : string;
  seeker_profile_picture : option string
}.

Record ApplicationView := mkView {
  v_application : Application;
  v_joined : option JoinedColumns
}.

Definition joined_fields (c : JoinedColumns) : list (string * jsval) :=
  [ ("job_title", JStr (job_title c));
    ("pay_amount", nullable (pay_amount c));
    ("pay_type", nullable (pay_type c));
    ("urgency", nullable (urgency c));
    ("job_location", JStr (job_location c));
    ("company_name", JStr (company_name c));
    ("employer_first_name", JStr (employer_first_name c));
    ("employer_last_name", JStr (employer_last_name c));
    ("seeker_first_name", JStr (seeker_first_name c));
    ("seeker_last_name", JStr (seeker_last_name c));
    ("seeker_profile_picture", nullable (seeker_profile_picture c)) ].

Definition view_row (v : ApplicationView) : jsval :=
  match application_row (v_application v), v_joined v with
  | JObj fs, Some c => JObj (fs ++ joined_fields c)
  | r, _ => r
  end.

Module JobApplication.

(** INSERT INTO job_applications (job_id, job_seeker_id, cover_letter,
    status) VALUES ($1, $2, $3, 'pending') RETURNING *.
    Both foreign keys are checked (SQLSTATE 23503). *)
Definition insert_application (jobId jobSeekerId : Z)
           (coverLetter : option string) : Stmt Application :=
  fun d t =>
    if (existsb (fun j => j_id j =? jobId) (jobs d)
        && existsb (fun p => jsp_id p =? jobSeekerId) (job_seeker_profiles d))%bool
    then
      let a := mkApplication (next_id (map a_id (job_applications d)))
                             jobId jobSeekerId coverLetter "pending" t t in
      Rows a (with_job_applications (job_applications d ++ [a]) d)
    else SqlError "23503".

Definition create (coverLetter : option string) (jobSeekerId jobId : Z)
  : M Application :=
  query (insert_application jobId jobSeekerId coverLetter).

(** SELECT * FROM job_applications WHERE id = $1 *)
Definition select_by_id (id : Z) : Stmt (list ApplicationView) :=
  fun d _ =>
    if int4_param id (map a_id (job_applications d))
    then Rows (map (fun a => mkView a None)
                   (filter (fun a => a_id a =? id) (job_applications d))) d
    else SqlError "22003".

(** The six-table inner join of [findById(id, true)]. *)
Definition select_details_by_id (id : Z) : Stmt (list ApplicationView) :=
  fun d _ =>
    if negb (int4_param id (map a_id (job_applications d)))
    then SqlError "22003"
    else
    Rows
      (flat_map (fun a =>
       flat_map (fun j =>
       flat_map (fun ep =>
       flat_map (fun ue =>
       flat_map (fun jsp =>
       map (fun us =>
              mkView a (Some (mkJoined (j_title j) (j_pay_amount j)
                                       (j_pay_type j) (j_urgency j)
                                       (j_location_address j)
                                       (ep_company_name ep)
                                       (u_first_name ue) (u_last_name ue)
                                       (u_first_name us) (u_last_name us)
                                       (u_profile_picture us))))
           (filter (fun u => u_id u =? jsp_user_id jsp) (users d)))
         (filter (fun p => jsp_id p =? a_job_seeker_id a) (job_seeker_profiles d)))
         (filter (fun u => u_id u =? ep_user_id ep) (users d)))
         (filter (fun e => ep_id e =? j_employer_id j) (employer_profiles d)))
         (filter (fun j => j_id j =? a_job_id a) (jobs d)))
         (filter (fun a => a_id a =? id) (job_applications d)))
      d.

(** [result.rows[0] || null] *)
Definition findById (id : Z) (includeDetails : bool)
  : M (option ApplicationView) :=
  rows <- query (if includeDetails then select_details_by_id id
                 else select_by_id id) ;;
  ret (hd_error rows).

(** The CHECK constraint on job_applications.status. *)
Definition status_check : list string :=
  ["pending"; "accepted"; "rejected"; "withdrawn"].

(** UPDATE job_applications SET status = $1, updated_at = NOW()
    WHERE id = $2 RETURNING *.  The CHECK constraint is tested on the rows
    the statement changes: a status outside it is refused (23514) when a
    row has the id, and goes unnoticed when none has. *)
Definition set_status (id : Z) (status : string) (t : Z) (a : Application)
  : Application :=
  if a_id a =? id
  then mkApplication (a_id a) (a_job_id a) (a_job_seeker_id a)
                     (a_cover_letter a) status (a_created_at a) t
  else a.

Definition update_status (id : Z) (status : string)
  : Stmt (list Application) :=
  fun d t =>
    if negb (int4_param id (map a_id (job_applications d)))
    then SqlError "22003"
    else if (existsb (fun a => a_id a =? id) (job_applications d)
             && negb (includes status_check status))%bool
    then SqlError "23514"
    else
      let rows := map (set_status id status t) (job_applications d) in
      Rows (filter (fun a => a_id a =? id) rows) (with_job_applications rows d).

(** [result.rows[0]], which is [undefined] when no row matched. *)
Definition updateStatus (id : Z) (status : string) : M (option Application) :=
  rows <- query (update_status id status) ;;
  ret (hd_error rows).

(** SELECT * FROM job_applications WHERE job_seeker_id = $1 AND job_id = $2 *)
Definition select_by_pair (jobSeekerId jobId : Z) : Stmt (list Application) :=
  fun d _ =>
    Rows (filter (fun a => (a_job_seeker_id a =? jobSeekerId)
                           && (a_job_id a =? jobId))%bool
                 (job_applications d)) d.

(** [result.rows.length > 0] *)
Definition hasApplied (jobSeekerId jobId : Z) : M bool :=
  rows <- query (select_by_pair jobSeekerId jobId) ;;
  ret (Nat.ltb 0 (List.length rows)).

(** [filters] of [findByJob] and [findByJobSeeker]. *)
Definition truthy_string (s : option string) : bool :=
  match s with
  | Some x => negb (String.eqb x "")
  | None => false
  end.

(** The text and the values that [findByJob] hands to [query].  The
    template literals interpolate the parameter counter itself. *)
Definition findByJob_base : string :=
  String.concat newline
    [ "";
      "        SELECT ja.*,";
      "        u.first_name, u.last_name, u.profile_picture,";
      "        jsp.skills, jsp.experience_years, jsp.education";
      "        FROM job_applications ja";
      "        JOIN job_seeker_profiles jsp ON ja.job_seeker_id = jsp.id";
      "        JOIN users u ON jsp.user_id = u.id";
      "        WHERE ja.job_id = $1";
      "      " ].

Definition findByJob_queryText (filters : Filters) : string :=
  let queryText := findByJob_base in
  let paramCounter := 2 in
  let '(queryText, paramCounter) :=
    if truthy_string (f_status filters)
    then (queryText ++ " AND ja.status = " ++ template (JNum paramCounter),
          paramCounter + 1)
    else (queryText, paramCounter) in
  let sortField :=
    if truthy_string (f_sortBy filters)
    then match f_sortBy filters with Some s => s | None => "" end
    else "created_at" in
  let sortOrder :=
    match f_sortOrder filters with
    | Some s => if String.eqb s "asc" then "ASC" else "DESC"
    | None => "DESC"
    end in
  let queryText := queryText ++ " ORDER BY ja." ++ sortField ++ " " ++ sortOrder in
  queryText ++ " LIMIT " ++ template (JNum paramCounter)
            ++ " OFFSET " ++ template (JNum (paramCounter + 1)).

Definition findByJob_queryParams (jobId : Z) (filters : Filters) (page limit : Z)
  : list jsval :=
  let offset := (page - 1) * limit in
  let queryParams := [JNum jobId] in
  let queryParams :=
    if truthy_string (f_status filters)
    then (queryParams ++ [nullable (f_status filters)])%list
    else queryParams in
  (queryParams ++ [JNum limit; JNum offset])%list.

Definition findByJobSeeker_base : string :=
  String.concat newline
    [ "";
      "        SELECT ja.*,";
      "        j.title as job_title, j.description, j.pay_amount, j.pay_type,";
      "        j.location_address as job_location, j.urgency,";
      "        ep.company_name, ep.company_logo";
      "        FROM job_applications ja";
      "        JOIN jobs j ON ja.job_id = j.id";
      "        JOIN employer_profiles ep ON j.employer_id = ep.id";
      "        WHERE ja.job_seeker_id = $1";
      "      " ].

Definition findByJobSeeker_queryText (filters : Filters) : string :=
  let queryText := findByJobSeeker_base in
  let paramCounter := 2 in
  let '(queryText, paramCounter) :=
    if truthy_string (f_status filters)
    then (queryText ++ " AND ja.status = " ++ template (JNum paramCounter),
          paramCounter + 1)
    else (queryText, paramCounter) in
  let sortField :=
    if truthy_string (f_sortBy filters)
    then match f_sortBy filters with Some s => s | None => "" end
    else "ja.created_at" in
  let sortOrder :=
    match f_sortOrder filters with
    | Some s => if String.eqb s "asc" then "ASC" else "DESC"
    | None => "DESC"
    end in
  let queryText := queryText ++ " ORDER BY " ++ sortField ++ " " ++ sortOrder in
  queryText ++ " LIMIT " ++ template (JNum paramCounter)
            ++ " OFFSET " ++ template (JNum (paramCounter + 1)).

Definition findByJobSeeker_queryParams (jobSeekerId : Z) (filters : Filters)
           (page limit : Z) : list jsval :=
  let offset := (page - 1) * limit in
  let queryParams := [JNum jobSeekerId] in
  let queryParams :=
    if truthy_string (f_status filters)
    then (queryParams ++ [nullable (f_status filters)])%list
    else queryParams in
  (queryParams ++ [JNum limit; JNum offset])%list.

End JobApplication.

(** ** Pagination metadata *)

(** [Math.ceil(total / limit)] on integers.  A zero limit divides by zero:
    the quotient is Infinity or NaN, which JSON writes as null. *)
Definition ceil_ratio (total limit : Z) : option Z :=
  if limit =? 0 then None
  else Some (- ((- total) / limit)).

Record Pagination := mkPagination {
  pg_total : Z;
  pg_page : Z;
  pg_limit : Z;
  pg_pages : option Z
}.

(** [parseInt(x) || dflt]: [parsed] is what [parseInt] returned, [None] for
    NaN; NaN and 0 are falsy. *)
Definition or_default (parsed : option Z) (dflt : Z) : Z :=
  match parsed with
  | Some n => if n =? 0 then dflt else n
  | None => dflt
  end.

(** A success envelope that carries a page of rows and its [meta]. *)
Inductive PageReply : Type :=
| PageSuccess (statusCode : Z) (message : string) (data : list jsval)
              (meta : Pagination)
| PageNext (err : Exn).

(** ** models/notification.model.js *)

Module Notification.

(** INSERT INTO notifications (user_id, title, message, type, related_id)
    VALUES (...) RETURNING *; user_id references users(id). *)
Definition insert_notification (userId : Z) (title message type : string)
           (relatedId : option Z) : Stmt NotificationRow :=
  fun d t =>
    if existsb (fun u => u_id u =? userId) (users d)
    then
      let n := mkNotification (next_id (map n_id (notifications d)))
                              userId title message false type relatedId t in
      Rows n (with_notifications (notifications d ++ [n]) d)
    else SqlError "23503".

Definition create (userId : Z) (title message type : string)
           (relatedId : option Z) : M NotificationRow :=
  query (insert_notification userId title message type relatedId).

(** UPDATE notifications SET is_read = true
    WHERE user_id = $1 AND is_read = false RETURNING id *)
Definition unread_of (userId : Z) (n : NotificationRow) : bool :=
  ((n_user_id n =? userId) && negb (n_is_read n))%bool.

Definition mark_read (n : NotificationRow) : NotificationRow :=
  mkNotification (n_id n) (n_user_id n) (n_title n) (n_message n) true
                 (n_type n) (n_related_id n) (n_created_at n).

Definition update_all_read (userId : Z) : Stmt (list NotificationRow) :=
  fun d _ =>
    Rows (map mark_read (filter (unread_of userId) (notifications d)))
         (with_notifications
            (map (fun n => if unread_of userId n then mark_read n else n)
                 (notifications d)) d).

(** [result.rows.map(row => row.id)] *)
Definition markAllAsRead (userId : Z) : M (list Z) :=
  rows <- query (update_all_read userId) ;;
  ret (map n_id rows).

(** SELECT count FROM notifications WHERE user_id = $1 AND is_read = false *)
Definition count_unread (userId : Z) : Stmt Z :=
  fun d _ =>
    Rows (Z.of_nat (List.length (filter (unread_of userId) (notifications d)))) d.

(** [parseInt(result.rows[0].count)] *)
Definition getUnreadCount (userId : Z) : M Z :=
  query (count_unread userId).

Definition createApplicationStatusNotification
           (application : jsval) (newStatus : string) (targetUserId : Z)
  : M NotificationRow :=
  let '(title, message) :=
    if String.eqb newStatus "accepted" then
      ("Application Accepted",
       "Your application for " ++ template (get "job_title" application)
         ++ " has been accepted!")
    else if String.eqb newStatus "rejected" then
      ("Application Rejected",
       "Your application for " ++ template (get "job_title" application)
         ++ " was not accepted.")
    else if String.eqb newStatus "withdrawn" then
      ("Application Withdrawn",
       "An application for " ++ template (get "job_title" application)
         ++ " has been withdrawn.")
    else
      ("Application Status Updated",
       "Your application status has been updated to " ++ newStatus ++ ".")
  in
  create targetUserId title message "application_status"
         (as_num (get "id" application)).

Definition createNewApplicationNotification
           (application job jobSeeker : jsval) (employerId : Z)
  : M NotificationRow :=
  let title := "New Job Application" in
  let message :=
    template (get "first_name" jobSeeker) ++ " "
      ++ template (get "last_name" jobSeeker)
      ++ " has applied for your job: " ++ template (get "title" job) in
  create employerId title message "new_application"
         (as_num (get "id" application)).

(** SELECT * FROM notifications WHERE id = $1 *)
Definition select_by_id (id : Z) : Stmt (list NotificationRow) :=
  fun d _ =>
    if int4_param id (map n_id (notifications d))
    then Rows (filter (fun n => n_id n =? id) (notifications d)) d
    else SqlError "22003".

(** [result.rows[0] || null] *)
Definition findById (id : Z) : M (option NotificationRow) :=
  rows <- query (select_by_id id) ;;
  ret (hd_error rows).

(** UPDATE notifications SET is_read = true WHERE id = $1 RETURNING * *)
Definition update_read (id : Z) : Stmt (list NotificationRow) :=
  fun d _ =>
    let rows := map (fun n => if n_id n =? id then mark_read n else n)
                    (notifications d) in
    Rows (filter (fun n => n_id n =? id) rows) (with_notifications rows d).

Definition markAsRead (id : Z) : M (option NotificationRow) :=
  rows <- query (update_read id) ;;
  ret (hd_error rows).

(** DELETE FROM notifications WHERE id = $1 *)
Definition delete_by_id (id : Z) : Stmt unit :=
  fun d _ =>
    Rows tt (with_notifications
               (filter (fun n => negb (n_id n =? id)) (notifications d)) d).

Definition delete (id : Z) : M bool :=
  query (delete_by_id id) ;;; ret true.

(** ORDER BY created_at DESC, as an insertion sort that keeps rows with equal
    timestamps in storage order. *)
Fixpoint insert_newest (n : NotificationRow) (l : list NotificationRow)
  : list NotificationRow :=
  match l with
  | [] => [n]
  | m :: rest =>
      if n_created_at m <? n_created_at n
      then n :: m :: rest
      else m :: insert_newest n rest
  end.

Definition newest_first (l : list NotificationRow) : list NotificationRow :=
  fold_right insert_newest [] l.

(** WHERE user_id = $1 [AND is_read = false] *)
Definition listed (userId : Z) (onlyUnread : bool) (n : NotificationRow) : bool :=
  ((n_user_id n =? userId) && (if onlyUnread then negb (n_is_read n) else true))%bool.

(** SELECT * FROM notifications WHERE user_id = $1 [AND is_read = false]
    ORDER BY created_at DESC LIMIT $2 OFFSET $3.  The two numbers are read
    as bigints when the parameters are bound, LIMIT first; the executor
    then refuses a negative OFFSET (2201X) and a negative LIMIT (2201W). *)
Definition select_page (userId : Z) (onlyUnread : bool) (limit offset : Z)
  : Stmt (list NotificationRow) :=
  fun d _ =>
    match int8_refused limit, int8_refused offset with
    | Some sqlstate, _ => SqlError sqlstate
    | None, Some sqlstate => SqlError sqlstate
    | None, None =>
        if offset <? 0 then SqlError "2201X"
        else if limit <? 0 then SqlError "2201W"
        else
          Rows (firstn (Z.to_nat limit)
                  (skipn (Z.to_nat offset)
                     (newest_first (filter (listed userId onlyUnread)
                                           (notifications d)))))
               d
    end.

(** SELECT count FROM notifications WHERE user_id = $1 [AND is_read = false] *)
Definition count_listed (userId : Z) (onlyUnread : bool) : Stmt Z :=
  fun d _ =>
    Rows (Z.of_nat (List.length (filter (listed userId onlyUnread)
                                        (notifications d)))) d.

(** [page] and [limit] are JavaScript numbers with integer values; the
    offset is computed in floating point, which is exact as long as the
    numbers involved are safe integers. *)
Definition findByUser (userId : Z) (onlyUnread : bool) (page limit : Z)
  : M (list NotificationRow * Pagination) :=
  let offset := (page - 1) * limit in
  rows <- query (select_page userId onlyUnread limit offset) ;;
  totalCount <- query (count_listed userId onlyUnread) ;;
  ret (rows, mkPagination totalCount page limit (ceil_ratio totalCount limit)).

(** [review] is the row returned by the review model; only its [rating] and
    [id] are read. *)
Definition createReviewNotification (review : jsval) (targetUserId : Z)
  : M NotificationRow :=
  let title := "New Review Received" in
  let message :=
    "You have received a " ++ template (get "rating" review) ++ "-star review." in
  create targetUserId title message "new_review" (as_num (get "id" review)).

End Notification.

(** ** controllers/application.controller.js *)

(** [req.user], as resolved by the [protect] middleware. *)
Record Principal := mkPrincipal {
  p_id : Z;
  p_role : string
}.

(** One row of the join that the status handler reads before notifying. *)
Record StatusDetails := mkStatusDetails {
  sd_application : Application;
  sd_job_title : string;
  sd_job_seeker_user_id : Z;
  sd_employer_user_id : Z
}.

Definition status_details_row (r : StatusDetails) : jsval :=
  match application_row (sd_application r) with
  | JObj fs =>
      JObj (fs ++ [ ("job_title", JStr (sd_job_title r));
                    ("job_seeker_user_id", JNum (sd_job_seeker_user_id r));
                    ("employer_user_id", JNum (sd_employer_user_id r)) ])
  | r' => r'
  end.

Module ApplicationController.

(** SELECT id FROM job_seeker_profiles WHERE user_id = $1 *)
Definition select_profile_of_user (userId : Z) : Stmt (list Z) :=
  fun d _ =>
    Rows (map jsp_id
              (filter (fun p => jsp_user_id p =? userId) (job_seeker_profiles d)))
         d.

(** SELECT * FROM jobs WHERE id = $1 AND status = $2 *)
Definition select_job_with_status (jobId : Z) (status : string)
  : Stmt (list Job) :=
  fun d _ =>
    if int4_param jobId (map j_id (jobs d))
    then
      Rows (filter (fun j => (j_id j =? jobId) && String.eqb (j_status j) status)%bool
                   (jobs d)) d
    else SqlError "22003".

(** SELECT u.id, j.title FROM jobs j JOIN employer_profiles ep ... JOIN
    users u ... WHERE j.id = $1 *)
Definition select_employer_of_job (jobId : Z) : Stmt (list (Z * string)) :=
  fun d _ =>
    Rows
      (flat_map (fun j =>
       flat_map (fun ep =>
       map (fun u => (u_id u, j_title j))
           (filter (fun u => u_id u =? ep_user_id ep) (users d)))
         (filter (fun e => ep_id e =? j_employer_id j) (employer_profiles d)))
         (filter (fun j => j_id j =? jobId) (jobs d)))
      d.

(** SELECT u.first_name, u.last_name FROM users u JOIN job_seeker_profiles
    jsp ON u.id = jsp.user_id WHERE jsp.id = $1 *)
Definition select_seeker_names (jobSeekerId : Z)
  : Stmt (list (string * string)) :=
  fun d _ =>
    Rows
      (flat_map (fun u =>
       map (fun _ => (u_first_name u, u_last_name u))
           (filter (fun p => (jsp_user_id p =? u_id u) && (jsp_id p =? jobSeekerId))%bool
                   (job_seeker_profiles d)))
         (users d))
      d.

(** SELECT jsp.id FROM job_seeker_profiles jsp
    WHERE jsp.user_id = $1 AND jsp.id = $2 *)
Definition select_own_profile (userId jobSeekerId : Z) : Stmt (list Z) :=
  fun d _ =>
    Rows (map jsp_id
              (filter (fun p => (jsp_user_id p =? userId)
                                && (jsp_id p =? jobSeekerId))%bool
                      (job_seeker_profiles d)))
         d.

(** SELECT j.id FROM jobs j JOIN employer_profiles ep
    ON j.employer_id = ep.id WHERE ep.user_id = $1 AND j.id = $2 *)
Definition select_own_job (userId jobId : Z) : Stmt (list Z) :=
  fun d _ =>
    Rows
      (flat_map (fun j =>
       map (fun _ => j_id j)
           (filter (fun e => (ep_id e =? j_employer_id j)
                             && (ep_user_id e =? userId))%bool
                   (employer_profiles d)))
         (filter (fun j => j_id j =? jobId) (jobs d)))
      d.

(** SELECT ja.*, j.title as job_title, jsp.user_id as job_seeker_user_id,
    ep.user_id as employer_user_id FROM job_applications ja JOIN jobs j
    ... JOIN job_seeker_profiles jsp ... JOIN employer_profiles ep ...
    WHERE ja.id = $1 *)
Definition select_status_details (applicationId : Z)
  : Stmt (list StatusDetails) :=
  fun d _ =>
    Rows
      (flat_map (fun a =>
       flat_map (fun j =>
       flat_map (fun jsp =>
       map (fun ep =>
              mkStatusDetails a (j_title j) (jsp_user_id jsp) (ep_user_id ep))
           (filter (fun e => ep_id e =? j_employer_id j) (employer_profiles d)))
         (filter (fun p => jsp_id p =? a_job_seeker_id a) (job_seeker_profiles d)))
         (filter (fun j => j_id j =? a_job_id a) (jobs d)))
         (filter (fun a => a_id a =? applicationId) (job_applications d)))
      d.

(** POST /api/applications.  The handler is a sequence of autocommitted
    statements; it is modelled as running from its first statement to its
    last without a statement of another request in between. *)
Definition applyForJob (user : Principal) (jobId : Z)
           (coverLetter : option string) : M Reply :=
  handler (
    jobSeekerResult <- query (select_profile_of_user (p_id user)) ;;
    match jobSeekerResult with
    | [] => next (ApiError 404 "Job seeker profile not found")
    | jobSeekerId :: _ =>
        jobResult <- query (select_job_with_status jobId "active") ;;
        match jobResult with
        | [] => next (ApiError 404 "Job not found or not active")
        | job :: _ =>
            hasApplied <- JobApplication.hasApplied jobSeekerId jobId ;;
            if (hasApplied : bool)
            then next (ApiError 400 "You have already applied for this job")
            else
              application <- JobApplication.create coverLetter jobSeekerId jobId ;;
              employerResult <- query (select_employer_of_job jobId) ;;
              jobSeekerInfoResult <- query (select_seeker_names jobSeekerId) ;;
              (if (Nat.ltb 0 (List.length employerResult)
                   && Nat.ltb 0 (List.length jobSeekerResult))%bool
               then
                 match employerResult with
                 | (employerId, title) :: _ =>
                     (* jobSeeker is the row of jobSeekerResult, which
                        carries only the profile id *)
                     Notification.createNewApplicationNotification
                       (application_row application)
                       (JObj [("title", JStr title)])
                       (JObj [("id", JNum jobSeekerId)])
                       employerId ;;;
                     ret tt
                 | [] => ret tt
                 end
               else ret tt) ;;;
              successResponse 201 "Application submitted successfully"
                (spread_with (application_row application) "job"
                   (JObj [ ("title", JStr (j_title job));
                           ("urgency", nullable (j_urgency job));
                           ("payAmount", nullable (j_pay_amount job));
                           ("payType", nullable (j_pay_type job)) ]))
        end
    end).

(** The same handler in the two parts that a statement of another request
    can come between: the statements up to the duplicate check, which
    either settle the reply or clear the application for the insert, and
    the statements from the insert on.  Nothing locks the (job, job seeker)
    pair between the two, and the table has no UNIQUE constraint on it. *)
Definition applyForJob_checks (user : Principal) (jobId : Z)
  : M (Reply + (Z * list Z * Job)) :=
  try_catch (
    jobSeekerResult <- query (select_profile_of_user (p_id user)) ;;
    match jobSeekerResult with
    | [] => ret (inl (Next (ApiError 404 "Job seeker profile not found")))
    | jobSeekerId :: rest =>
        jobResult <- query (select_job_with_status jobId "active") ;;
        match jobResult with
        | [] => ret (inl (Next (ApiError 404 "Job not found or not active")))
        | job :: _ =>
            hasApplied <- JobApplication.hasApplied jobSeekerId jobId ;;
            if (hasApplied : bool)
            then ret (inl (Next (ApiError 400
                                   "You have already applied for this job")))
            else ret (inr (jobSeekerId, rest, job))
        end
    end)
    (fun e => ret (inl (Next e))).

Definition applyForJob_writes (jobId : Z) (coverLetter : option string)
           (cleared : Z * list Z * Job) : M Reply :=
  let '(jobSeekerId, rest, job) := cleared in
  let jobSeekerResult := jobSeekerId :: rest in
  handler (
    application <- JobApplication.create coverLetter jobSeekerId jobId ;;
    employerResult <- query (select_employer_of_job jobId) ;;
    jobSeekerInfoResult <- query (select_seeker_names jobSeekerId) ;;
    (if (Nat.ltb 0 (List.length employerResult)
         && Nat.ltb 0 (List.length jobSeekerResult))%bool
     then
       match employerResult with
       | (employerId, title) :: _ =>
           Notification.createNewApplicationNotification
             (application_row application)
             (JObj [("title", JStr title)])
             (JObj [("id", JNum jobSeekerId)])
             employerId ;;;
           ret tt
       | [] => ret tt
       end
     else ret tt) ;;;
    successResponse 201 "Application submitted successfully"
      (spread_with (application_row application) "job"
         (JObj [ ("title", JStr (j_title job));
                 ("urgency", nullable (j_urgency job));
                 ("payAmount", nullable (j_pay_amount job));
                 ("payType", nullable (j_pay_type job)) ]))).

(** Two requests whose statements overlap: both pass their checks before
    either inserts. *)
Definition applyForJob_overlapping
           (user1 : Principal) (jobId1 : Z) (coverLetter1 : option string)
           (user2 : Principal) (jobId2 : Z) (coverLetter2 : option string)
  : M (Reply * Reply) :=
  checked1 <- applyForJob_checks user1 jobId1 ;;
  checked2 <- applyForJob_checks user2 jobId2 ;;
  reply1 <- match checked1 with
            | inl reply => ret reply
            | inr cleared => applyForJob_writes jobId1 coverLetter1 cleared
            end ;;
  reply2 <- match checked2 with
            | inl reply => ret reply
            | inr cleared => applyForJob_writes jobId2 coverLetter2 cleared
            end ;;
  ret (reply1, reply2).

(** GET /api/applications/:id *)
Definition getApplicationById (user : Principal) (applicationId : Z)
  : M Reply :=
  handler (
    application <- JobApplication.findById applicationId true ;;
    match application with
    | None => next (ApiError 404 "Application not found")
    | Some app =>
        authorized <-
          (if String.eqb (p_role user) "job_seeker" then
             jobSeekerResult <-
               query (select_own_profile (p_id user)
                        (a_job_seeker_id (v_application app))) ;;
             ret (Nat.ltb 0 (List.length jobSeekerResult))
           else if String.eqb (p_role user) "employer" then
             employerResult <-
               query (select_own_job (p_id user)
                        (a_job_id (v_application app))) ;;
             ret (Nat.ltb 0 (List.length employerResult))
           else ret false) ;;
        if (negb authorized && negb (String.eqb (p_role user) "admin"))%bool
        then next (ApiError 403 "You are not authorized to view this application")
        else successResponse 200 "Application retrieved successfully"
                             (view_row app)
    end).

Definition validStatusValues : list string :=
  ["pending"; "accepted"; "rejected"; "withdrawn"].

(** The [try] block that writes the status-change notification. *)
Definition notifyStatusChange (user : Principal) (applicationId : Z)
           (status : string) : M unit :=
  applicationDetailsResult <- query (select_status_details applicationId) ;;
  match applicationDetailsResult with
  | applicationDetails :: _ =>
      let targetUserId :=
        if (String.eqb (p_role user) "employer"
            && includes ["accepted"; "rejected"] status)%bool
        then Some (sd_job_seeker_user_id applicationDetails)
        else if (String.eqb (p_role user) "job_seeker"
                 && String.eqb status "withdrawn")%bool
        then Some (sd_employer_user_id applicationDetails)
        else None in
      match targetUserId with
      | Some target =>
          if truthy_id targetUserId
          then Notification.createApplicationStatusNotification
                 (status_details_row applicationDetails) status target ;;;
               ret tt
          else ret tt
      | None => ret tt
      end
  | [] => ret tt
  end.

(** PATCH /api/applications/:id/status *)
Definition updateApplicationStatus (user : Principal) (applicationId : Z)
           (status : string) : M Reply :=
  handler (
    if negb (includes validStatusValues status)
    then next (ApiError 400 ("Status must be one of: "
                               ++ String.concat ", " validStatusValues))
    else
      application <- JobApplication.findById applicationId false ;;
      match application with
      | None => next (ApiError 404 "Application not found")
      | Some app =>
          checked <-
            (if String.eqb (p_role user) "employer" then
               if negb (includes ["accepted"; "rejected"] status)
               then ret (inl (Next (ApiError 400
                      "Employers can only accept or reject applications")))
               else
                 employerResult <-
                   query (select_own_job (p_id user)
                            (a_job_id (v_application app))) ;;
                 ret (inr (Nat.ltb 0 (List.length employerResult)))
             else if String.eqb (p_role user) "job_seeker" then
               if negb (String.eqb status "withdrawn")
               then ret (inl (Next (ApiError 400
                      "Job seekers can only withdraw their applications")))
               else
                 jobSeekerResult <-
                   query (select_own_profile (p_id user)
                            (a_job_seeker_id (v_application app))) ;;
                 ret (inr (Nat.ltb 0 (List.length jobSeekerResult)))
             else ret (inr false)) ;;
          match checked with
          | inl early => ret early
          | inr authorized =>
              if (negb authorized && negb (String.eqb (p_role user) "admin"))%bool
              then next (ApiError 403
                           "You are not authorized to update this application")
              else
                updatedApplication <-
                  JobApplication.updateStatus applicationId status ;;
                try_catch (notifyStatusChange user applicationId status)
                          (fun notificationError => ret tt) ;;;
                successResponse 200 "Application status updated successfully"
                  (match updatedApplication with
                   | Some a => application_row a
                   | None => JUndefined
                   end)
          end
      end).

Section Listings.

(** [JobApplication.findByJob] and [JobApplication.findByJobSeeker], taken
    as they behave: the handlers below only pass their result on. *)
Variable findByJob : Z -> Filters -> Z -> Z -> M (list jsval * Pagination).
Variable findByJobSeeker : Z -> Filters -> Z -> Z -> M (list jsval * Pagination).

(** SELECT j.* FROM jobs j JOIN employer_profiles ep
    ON j.employer_id = ep.id WHERE j.id = $1 AND ep.user_id = $2 *)
Definition select_job_owned_by (jobId userId : Z) : Stmt (list Job) :=
  fun d _ =>
    if negb (int4_param jobId (map j_id (jobs d)))
    then SqlError "22003"
    else
    Rows
      (flat_map (fun j =>
         map (fun _ => j)
             (filter (fun e => (ep_id e =? j_employer_id j)
                               && (ep_user_id e =? userId))%bool
                     (employer_profiles d)))
         (filter (fun j => j_id j =? jobId) (jobs d)))
      d.

(** GET /api/applications/job/:jobId *)
Definition getJobApplications (user : Principal) (jobId : Z)
           (filters : Filters) (page limit : option Z) : M PageReply :=
  try_catch
    (jobCheck <- query (select_job_owned_by jobId (p_id user)) ;;
     match jobCheck with
     | [] =>
         ret (PageNext (ApiError 404
           "Job not found or you are not authorized to view its applications"))
     | _ :: _ =>
         let page := or_default page 1 in
         let limit := or_default limit 10 in
         result <- findByJob jobId filters page limit ;;
         ret (PageSuccess 200 "Job applications retrieved successfully"
                          (fst result) (snd result))
     end)
    (fun e => ret (PageNext e)).

(** GET /api/applications/me *)
Definition getMyApplications (user : Principal) (filters : Filters)
           (page limit : option Z) : M PageReply :=
  try_catch
    (jobSeekerResult <- query (select_profile_of_user (p_id user)) ;;
     match jobSeekerResult with
     | [] => ret (PageNext (ApiError 404 "Job seeker profile not found"))
     | jobSeekerId :: _ =>
         let page := or_default page 1 in
         let limit := or_default limit 10 in
         result <- findByJobSeeker jobSeekerId filters page limit ;;
         ret (PageSuccess 200 "Your applications retrieved successfully"
                          (fst result) (snd result))
     end)
    (fun e => ret (PageNext e)).

End Listings.

End ApplicationController.

(** ** controllers/admin/application.controller.js *)

Module AdminApplicationController.

(** middlewares/adminAuth.middleware.js, mounted before every admin route *)
Definition ensureAdmin (user : Principal) (k : M Reply) : M Reply :=
  if negb (String.eqb (p_role user) "admin")
  then next (ApiError 403 "Access denied. Admin privileges required.")
  else k.

(** SELECT id, job_id FROM job_applications WHERE id = $1 *)
Definition select_id_job (applicationId : Z) : Stmt (list (Z * Z)) :=
  fun d _ =>
    if int4_param applicationId (map a_id (job_applications d))
    then
      Rows (map (fun a => (a_id a, a_job_id a))
                (filter (fun a => a_id a =? applicationId) (job_applications d)))
           d
    else SqlError "22003".

(** UPDATE job_applications SET status = $1, updated_at = NOW()
    WHERE id = $2 RETURNING id, job_id, status *)
Definition update_status_returning (status : string) (applicationId : Z)
  : Stmt (list jsval) :=
  fun d t =>
    let rows := map (JobApplication.set_status applicationId status t)
                    (job_applications d) in
    Rows (map (fun a => JObj [ ("id", JNum (a_id a));
                               ("job_id", JNum (a_job_id a));
                               ("status", JStr (a_status a)) ])
              (filter (fun a => a_id a =? applicationId) rows))
         (with_job_applications rows d).

(** UPDATE job_applications SET status = 'rejected', updated_at = NOW()
    WHERE job_id = $1 AND id != $2 AND status = 'pending' *)
Definition reject_sibling (jobId applicationId : Z) (t : Z) (a : Application)
  : Application :=
  if ((a_job_id a =? jobId) && negb (a_id a =? applicationId)
      && String.eqb (a_status a) "pending")%bool
  then mkApplication (a_id a) (a_job_id a) (a_job_seeker_id a)
                     (a_cover_letter a) "rejected" (a_created_at a) t
  else a.

Definition reject_other_pending (jobId applicationId : Z) : Stmt unit :=
  fun d t =>
    Rows tt (with_job_applications
               (map (reject_sibling jobId applicationId t) (job_applications d))
               d).

(** UPDATE jobs SET status = $1, updated_at = NOW() WHERE id = $2 *)
Definition set_job_status (status : string) (jobId : Z) (t : Z) (j : Job) : Job :=
  if j_id j =? jobId
  then mkJob (j_id j) (j_employer_id j) (j_title j) (j_pay_amount j)
             (j_pay_type j) (j_location_address j) (j_urgency j) status t
  else j.

Definition update_job_status (status : string) (jobId : Z) : Stmt unit :=
  fun d t =>
    Rows tt (with_jobs (map (set_job_status status jobId t) (jobs d)) d).

Definition validStatuses : list string :=
  ["pending"; "accepted"; "rejected"; "withdrawn"].

(** PATCH /api/admin/applications/:id/status *)
Definition updateApplicationStatus (applicationId : Z) (status : string)
  : M Reply :=
  handler (
    if negb (includes validStatuses status)
    then next (ApiError 400 ("Status must be one of: "
                               ++ String.concat ", " validStatuses))
    else
      applicationCheck <- query (select_id_job applicationId) ;;
      match applicationCheck with
      | [] => next (ApiError 404 "Application not found")
      | (_, jobId) :: _ =>
          result <- query (update_status_returning status applicationId) ;;
          (if String.eqb status "accepted" then
             query (reject_other_pending jobId applicationId) ;;;
             query (update_job_status "filled" jobId)
           else ret tt) ;;;
          successResponse 200
            ("Application status updated to " ++ status ++ " successfully")
            (hd JUndefined result)
      end).

(** The route as mounted: [protect], [ensureAdmin], then the handler. *)
Definition route_updateApplicationStatus (user : Principal)
           (applicationId : Z) (status : string) : M Reply :=
  ensureAdmin user (updateApplicationStatus applicationId status).

End AdminApplicationController.

(** The row object of a notification. *)
Definition notification_row (n : NotificationRow) : jsval :=
  JObj [ ("id", JNum (n_id n));
         ("user_id", JNum (n_user_id n));
         ("title", JStr (n_title n));
         ("message", JStr (n_message n));
         ("is_read", JBool (n_is_read n));
         ("type", JStr (n_type n));
         ("related_id", match n_related_id n with
                        | Some r => JNum r
                        | None => JNull
                        end);
         ("created_at", JNum (n_created_at n)) ].

(** ** controllers/admin/job.controller.js *)

Module AdminJobController.

Definition validStatuses : list string :=
  ["active"; "filled"; "expired"; "draft"].

(** SELECT id FROM jobs WHERE id = $1 *)
Definition select_job_id (jobId : Z) : Stmt (list Z) :=
  fun d _ =>
    if int4_param jobId (map j_id (jobs d))
    then Rows (map j_id (filter (fun j => j_id j =? jobId) (jobs d))) d
    else SqlError "22003".

(** UPDATE jobs SET status = $1, updated_at = NOW() WHERE id = $2
    RETURNING id, title, status *)
Definition update_status_returning (status : string) (jobId : Z)
  : Stmt (list jsval) :=
  fun d t =>
    let rows := map (AdminApplicationController.set_job_status status jobId t)
                    (jobs d) in
    Rows (map (fun j => JObj [ ("id", JNum (j_id j));
                               ("title", JStr (j_title j));
                               ("status", JStr (j_status j)) ])
              (filter (fun j => j_id j =? jobId) rows))
         (with_jobs rows d).

(** UPDATE job_applications SET status = 'rejected', updated_at = NOW()
    WHERE job_id = $1 AND status = 'pending' *)
Definition reject_if_pending (jobId : Z) (t : Z) (a : Application)
  : Application :=
  if ((a_job_id a =? jobId) && String.eqb (a_status a) "pending")%bool
  then mkApplication (a_id a) (a_job_id a) (a_job_seeker_id a)
                     (a_cover_letter a) "rejected" (a_created_at a) t
  else a.

Definition reject_pending (jobId : Z) : Stmt unit :=
  fun d t =>
    Rows tt (with_job_applications
               (map (reject_if_pending jobId t) (job_applications d)) d).

(** PATCH /api/admin/jobs/:id/status *)
Definition updateJobStatus (jobId : Z) (status : string) : M Reply :=
  handler (
    if negb (includes validStatuses status)
    then next (ApiError 400 ("Status must be one of: "
                               ++ String.concat ", " validStatuses))
    else
      jobCheck <- query (select_job_id jobId) ;;
      match jobCheck with
      | [] => next (ApiError 404 "Job not found")
      | _ :: _ =>
          result <- query (update_status_returning status jobId) ;;
          (if (String.eqb status "filled" || String.eqb status "expired")%bool
           then query (reject_pending jobId)
           else ret tt) ;;;
          successResponse 200
            ("Job status updated to " ++ status ++ " successfully")
            (hd JUndefined result)
      end).

(** DELETE FROM jobs WHERE id = $1.  job_applications.job_id is declared
    ON DELETE CASCADE, so the applications of the job go with it. *)
Definition delete_job (jobId : Z) : Stmt unit :=
  fun d _ =>
    Rows tt (with_job_applications
               (filter (fun a => negb (a_job_id a =? jobId)) (job_applications d))
               (with_jobs (filter (fun j => negb (j_id j =? jobId)) (jobs d)) d)).

(** DELETE /api/admin/jobs/:id *)
Definition deleteJob (jobId : Z) : M Reply :=
  handler (
    jobCheck <- query (select_job_id jobId) ;;
    match jobCheck with
    | [] => next (ApiError 404 "Job not found")
    | _ :: _ =>
        query (delete_job jobId) ;;;
        successResponse 200 "Job deleted successfully" JNull
    end).

End AdminJobController.

(** ** controllers/notification.controller.js *)

Module NotificationController.

(** GET /api/notifications/count *)
Definition getUnreadCount (user : Principal) : M Reply :=
  handler (
    count <- Notification.getUnreadCount (p_id user) ;;
    successResponse 200 "Unread count retrieved successfully"
                    (JObj [("count", JNum count)])).

(** PATCH /api/notifications/read-all *)
Definition markAllAsRead (user : Principal) : M Reply :=
  handler (
    updatedIds <- Notification.markAllAsRead (p_id user) ;;
    successResponse 200 "All notifications marked as read"
                    (JObj [("updatedIds", JArr (map JNum updatedIds))])).

(** GET /api/notifications.  [unread] is the raw query parameter; [page] and
    [limit] are what [parseInt] made of theirs. *)
Definition getUserNotifications (user : Principal) (unread : option string)
           (page limit : option Z) : M PageReply :=
  try_catch
    (let onlyUnread :=
       match unread with
       | Some s => String.eqb s "true"
       | None => false
       end in
     let page := or_default page 1 in
     let limit := or_default limit 10 in
     result <- Notification.findByUser (p_id user) onlyUnread page limit ;;
     ret (PageSuccess 200 "Notifications retrieved successfully"
                      (map notification_row (fst result)) (snd result)))
    (fun e => ret (PageNext e)).

(** PATCH /api/notifications/:id/read *)
Definition markAsRead (user : Principal) (notificationId : Z) : M Reply :=
  handler (
    notification <- Notification.findById notificationId ;;
    match notification with
    | None => next (ApiError 404 "Notification not found")
    | Some n =>
        if negb (n_user_id n =? p_id user)
        then next (ApiError 403 "Not authorized to access this notification")
        else
          updatedNotification <- Notification.markAsRead notificationId ;;
          successResponse 200 "Notification marked as read"
            (match updatedNotification with
             | Some u => notification_row u
             | None => JUndefined
             end)
    end).

(** DELETE /api/notifications/:id *)
Definition deleteNotification (user : Principal) (notificationId : Z)
  : M Reply :=
  handler (
    notification <- Notification.findById notificationId ;;
    match notification with
    | None => next (ApiError 404 "Notification not found")
    | Some n =>
        if negb (n_user_id n =? p_id user)
        then next (ApiError 403 "Not authorized to delete this notification")
        else
          Notification.delete notificationId ;;;
          successResponse 200 "Notification deleted successfully" JNull
    end).

End NotificationController.

(** ** controllers/auth.controller.js *)

Record RegisterBody := mkRegisterBody {
  rb_email : string;
  rb_password : string;
  rb_firstName : string;
  rb_lastName : string;
  rb_phone : option string;
  rb_role : string;
  rb_companyName : jsval
}.

Module AuthController.

(** SELECT * FROM users WHERE email = $1 *)
Definition select_user_by_email (email : string) : Stmt (list User) :=
  fun d _ => Rows (filter (fun u => String.eqb (u_email u) email) (users d)) d.

(** INSERT INTO users (email, password, first_name, last_name, phone, role)
    VALUES (...) RETURNING id, email, first_name, last_name, role.
    email is UNIQUE (23505); role has a CHECK (23514); created_at and
    updated_at default to CURRENT_TIMESTAMP. *)
Definition insert_user (email hashedPassword firstName lastName : string)
           (phone : option string) (role : string) : Stmt User :=
  fun d t =>
    if existsb (fun u => String.eqb (u_email u) email) (users d)
    then SqlError "23505"
    else if negb (includes ["job_seeker"; "employer"; "admin"] role)
    then SqlError "23514"
    else
      let u := mkUser (next_id (map u_id (users d))) email hashedPassword
                      firstName lastName phone None role t t in
      Rows u (with_users (users d ++ [u]) d).

(** INSERT INTO job_seeker_profiles (user_id) VALUES ($1) *)
Definition insert_job_seeker_profile (userId : Z) : Stmt unit :=
  fun d _ =>
    if existsb (fun u => u_id u =? userId) (users d)
    then
      Rows tt (with_job_seeker_profiles
                 (job_seeker_profiles d
                    ++ [mkJobSeekerProfile
                          (next_id (map jsp_id (job_seeker_profiles d))) userId])
                 d)
    else SqlError "23503".

(** INSERT INTO employer_profiles (user_id, company_name) VALUES ($1, $2);
    company_name is NOT NULL (23502). *)
Definition insert_employer_profile (userId : Z) (companyName : jsval)
  : Stmt unit :=
  fun d _ =>
    match companyName with
    | JUndefined | JNull => SqlError "23502"
    | _ =>
        if existsb (fun u => u_id u =? userId) (users d)
        then
          Rows tt (with_employer_profiles
                     (employer_profiles d
                        ++ [mkEmployerProfile
                              (next_id (map ep_id (employer_profiles d)))
                              userId (template companyName)])
                     d)
        else SqlError "23503"
    end.

Definition user_row (u : User) : jsval :=
  JObj [ ("id", JNum (u_id u));
         ("email", JStr (u_email u));
         ("first_name", JStr (u_first_name u));
         ("last_name", JStr (u_last_name u));
         ("role", JStr (u_role u)) ].

Section Register.

(** bcrypt and jsonwebtoken are used as black boxes. *)
Variable bcrypt_hash : string -> string.
Variable generateToken : Z -> string -> string.

(** POST /api/auth/register.  [pool] is what the expression [query.pool]
    evaluates to: the handler calls [query.pool.connect()], which throws
    a TypeError when that property is undefined. *)
Definition register_with (pool : option unit) (body : RegisterBody)
  : M Reply :=
  handler (
    if negb (includes ["job_seeker"; "employer"] (rb_role body))
    then next (ApiError 400 "Invalid role. Must be job_seeker or employer")
    else
      userExists <- query (select_user_by_email (rb_email body)) ;;
      if Nat.ltb 0 (List.length userExists)
      then next (ApiError 400 "User with this email already exists")
      else
        let hashedPassword := bcrypt_hash (rb_password body) in
        match pool with
        | None =>
            throw (TypeError
              "Cannot read properties of undefined (reading 'connect')")
        | Some _ =>
            finally
              (try_catch
                 (client_begin ;;;
                  user <- client_query
                            (insert_user (rb_email body) hashedPassword
                                         (rb_firstName body) (rb_lastName body)
                                         (rb_phone body) (rb_role body)) ;;
                  (if String.eqb (rb_role body) "job_seeker" then
                     client_query (insert_job_seeker_profile (u_id user))
                   else if String.eqb (rb_role body) "employer" then
                     let companyName :=
                       match rb_companyName body with
                       | JUndefined => JStr ""
                       | v => v
                       end in
                     client_query
                       (insert_employer_profile (u_id user) companyName)
                   else ret tt) ;;;
                  client_commit ;;;
                  let token := generateToken (u_id user) (u_role user) in
                  successResponse 201 "User registered successfully"
                    (JObj [ ("user", user_row user);
                            ("token", JStr token) ]))
                 (fun error => client_rollback ;;; next error))
              client_release
        end).

(** db/connection.js exports [{ query, connect, pool }]: the pool sits
    beside [query] in the module object and is never attached to the
    [query] function, so [query.pool] is [undefined]. *)
Definition query_pool : option unit := None.

Definition register (body : RegisterBody) : M Reply :=
  register_with query_pool body.

End Register.

Section Sessions.

(** bcrypt and jsonwebtoken are used as black boxes. *)
Variable bcrypt_hash : string -> string.
Variable bcrypt_compare : string -> string -> bool.
Variable generateToken : Z -> string -> string.

(** SELECT u.id, u.email, u.password, u.first_name, u.last_name, u.role,
    CASE WHEN u.role = 'employer' THEN ep.company_name ELSE NULL END
    AS company_name FROM users u LEFT JOIN employer_profiles ep
    ON u.id = ep.user_id WHERE u.email = $1 *)
Definition select_login_rows (email : string)
  : Stmt (list (User * option string)) :=
  fun d _ =>
    Rows
      (flat_map (fun u =>
         match filter (fun e => ep_user_id e =? u_id u) (employer_profiles d) with
         | [] => [(u, None)]
         | eps =>
             map (fun e => (u, if String.eqb (u_role u) "employer"
                               then Some (ep_company_name e) else None))
                 eps
         end)
         (filter (fun u => String.eqb (u_email u) email) (users d)))
      d.

Definition login_row (r : User * option string) : list (string * jsval) :=
  [ ("id", JNum (u_id (fst r)));
    ("email", JStr (u_email (fst r)));
    ("password", JStr (u_password (fst r)));
    ("first_name", JStr (u_first_name (fst r)));
    ("last_name", JStr (u_last_name (fst r)));
    ("role", JStr (u_role (fst r)));
    ("company_name", nullable (snd r)) ].

(** POST /api/auth/login *)
Definition login (email password : string) : M Reply :=
  handler (
    result <- query (select_login_rows email) ;;
    match result with
    | [] => next (ApiError 401 "Invalid credentials")
    | user :: _ =>
        let isMatch := bcrypt_compare password (u_password (fst user)) in
        if negb isMatch
        then next (ApiError 401 "Invalid credentials")
        else
          let stripped := obj_delete "password" (login_row user) in
          let token := generateToken (u_id (fst user)) (u_role (fst user)) in
          successResponse 200 "Login successful"
            (JObj [ ("user", JObj stripped); ("token", JStr token) ])
    end).

(** SELECT password FROM users WHERE id = $1 *)
Definition select_password (userId : Z) : Stmt (list string) :=
  fun d _ =>
    Rows (map u_password (filter (fun u => u_id u =? userId) (users d))) d.

(** UPDATE users SET password = $1, updated_at = NOW() WHERE id = $2 *)
Definition set_password (hashed : string) (userId : Z) (t : Z) (u : User)
  : User :=
  if u_id u =? userId
  then mkUser (u_id u) (u_email u) hashed (u_first_name u) (u_last_name u)
              (u_phone u) (u_profile_picture u) (u_role u)
              (u_created_at u) t
  else u.

Definition update_password (hashed : string) (userId : Z) : Stmt unit :=
  fun d t =>
    Rows tt (with_users (map (set_password hashed userId t) (users d)) d).

(** PUT /api/auth/password *)
Definition updatePassword (user : Principal) (currentPassword newPassword : string)
  : M Reply :=
  handler (
    result <- query (select_password (p_id user)) ;;
    match result with
    | [] => next (ApiError 404 "User not found")
    | stored :: _ =>
        let isMatch := bcrypt_compare currentPassword stored in
        if negb isMatch
        then next (ApiError 401 "Current password is incorrect")
        else
          let hashedPassword := bcrypt_hash newPassword in
          query (update_password hashedPassword (p_id user)) ;;;
          successResponse 200 "Password updated successfully" JNull
    end).

End Sessions.

End AuthController.

(** ** The authorization gate, in the words of the specification

    An application is visible to the job seeker who submitted it, to the
    employer who posted the parent job, and to any admin. *)

Definition is_applicant (d : DB) (user : Principal) (a : Application) : bool :=
  (String.eqb (p_role user) "job_seeker"
   && existsb (fun p => (jsp_user_id p =? p_id user)
                        && (jsp_id p =? a_job_seeker_id a))
              (job_seeker_profiles d))%bool.

Definition is_job_owner (d : DB) (user : Principal) (a : Application) : bool :=
  (String.eqb (p_role user) "employer"
   && existsb (fun j => (j_id j =? a_job_id a)
                        && existsb (fun e => (ep_id e =? j_employer_id j)
                                             && (ep_user_id e =? p_id user))
                                   (employer_profiles d))
              (jobs d))%bool.

Definition canView (d : DB) (user : Principal) (a : Application) : bool :=
  (is_applicant d user a || is_job_owner d user a
   || String.eqb (p_role user) "admin")%bool.

(** The foreign keys declared in setup.sql all resolve. *)
Definition foreign_keys_ok (d : DB) : bool :=
  (forallb (fun a => existsb (fun j => j_id j =? a_job_id a) (jobs d)
                     && existsb (fun p => jsp_id p =? a_job_seeker_id a)
                                (job_seeker_profiles d))
           (job_applications d)
   && forallb (fun j => existsb (fun e => ep_id e =? j_employer_id j)
                                (employer_profiles d))
              (jobs d)
   && forallb (fun e => existsb (fun u => u_id u =? ep_user_id e) (users d))
              (employer_profiles d)
   && forallb (fun p => existsb (fun u => u_id u =? jsp_user_id p) (users d))
              (job_seeker_profiles d))%bool.

(** The application with a given id (the first one in storage order). *)
Definition application_with_id (id : Z) (d : DB) : option Application :=
  find (fun a => a_id a =? id) (job_applications d).

(** The (job, job seeker) pairs of the stored applications. *)
Definition application_pairs (d : DB) : list (Z * Z) :=
  map (fun a => (a_job_id a, a_job_seeker_id a)) (job_applications d).

(** A world with the same rows and clock in which storage never fails. *)
Definition heal (w : World) : World :=
  mkWorld (db w) (tx w) (now w) (nq w) (fun _ => None).

(** ** A small marketplace used to run the handlers

    One employer (user 1, profile 20) with one active job (30); three job
    seekers (users 2, 3, 5; profiles 10, 11, 12); one admin (user 4). *)

Definition demo_users : list User :=
  [ mkUser 1 "eve@acme.test" "x" "Eve" "Employer" None None "employer" 1 1;
    mkUser 2 "sam@mail.test" "x" "Sam" "Seeker" None None "job_seeker" 1 1;
    mkUser 3 "sue@mail.test" "x" "Sue" "Seeker" None None "job_seeker" 1 1;
    mkUser 4 "ada@site.test" "x" "Ada" "Admin" None None "admin" 1 1;
    mkUser 5 "sid@mail.test" "x" "Sid" "Seeker" None None "job_seeker" 1 1;
    mkUser 6 "oto@other.test" "x" "Oto" "Other" None None "employer" 1 1 ].

Definition demo_job (status : string) : Job :=
  mkJob 30 20 "Mover" (Some "25.00") (Some "hourly") "1 Main St"
        (Some "today") status 0.

(** Four applications on job 30: the one to be accepted (40) and three
    siblings, one pending, one rejected, one withdrawn. *)
Definition demo_applications : list Application :=
  [ mkApplication 40 30 10 None "pending" 5 5;
    mkApplication 41 30 11 (Some "hi") "pending" 6 6;
    mkApplication 42 30 12 None "rejected" 7 7;
    mkApplication 43 30 13 None "withdrawn" 8 8 ].

Definition demo_notifications : list NotificationRow :=
  [ mkNotification 1 2 "t1" "m1" false "application_status" (Some 40) 1;
    mkNotification 2 2 "t2" "m2" true "application_status" (Some 40) 2;
    mkNotification 3 3 "t3" "m3" false "application_status" (Some 41) 3;
    mkNotification 4 2 "t4" "m4" false "new_review" None 4;
    mkNotification 5 2 "t5" "m5" false "application_status" (Some 40) 5 ].

Definition demo_db (jobStatus : string) : DB :=
  mkDB demo_users
       [ mkJobSeekerProfile 10 2; mkJobSeekerProfile 11 3;
         mkJobSeekerProfile 12 5; mkJobSeekerProfile 13 5 ]
       [ mkEmployerProfile 20 1 "Acme"; mkEmployerProfile 21 6 "Other" ]
       [ demo_job jobStatus ]
       demo_applications
       demo_notifications.

Definition demo_world : World :=
  mkWorld (demo_db "active") None 100 0 (fun _ => None).

Definition eve : Principal := mkPrincipal 1 "employer".
Definition sam : Principal := mkPrincipal 2 "job_seeker".
Definition sue : Principal := mkPrincipal 3 "job_seeker".
Definition ada : Principal := mkPrincipal 4 "admin".
Definition oto : Principal := mkPrincipal 6 "employer".

(** ** Registration outcomes *)

Definition registered_reply (generateToken : Z -> string -> string) (u : User)
  : Reply :=
  Success 201 "User registered successfully"
          (JObj [ ("user", AuthController.user_row u);
                  ("token", JStr (generateToken (u_id u) (u_role u))) ]).

(** Either the handler fails and the committed rows are those it started
    from, or it succeeds and exactly one user row and one profile row, in the
    table of the user's role and pointing at that user, have been added. *)
Definition all_or_nothing (generateToken : Z -> string -> string)
           (body : RegisterBody) (d : DB) (r : res Reply) (d' : DB) : Prop :=
  (exists e, r = Ok (Next e) /\ d' = d)
  \/ (exists u,
        r = Ok (registered_reply generateToken u)
        /\ u_email u = rb_email body
        /\ u_role u = rb_role body
        /\ users d' = (users d ++ [u])%list
        /\ ((rb_role body = "job_seeker"
             /\ job_seeker_profiles d'
                = (job_seeker_profiles d
                     ++ [mkJobSeekerProfile
                           (next_id (map jsp_id (job_seeker_profiles d)))
                           (u_id u)])%list
             /\ employer_profiles d' = employer_profiles d)
            \/ (rb_role body = "employer"
                /\ (exists name,
                       employer_profiles d'
                       = (employer_profiles d
                            ++ [mkEmployerProfile
                                  (next_id (map ep_id (employer_profiles d)))
                                  (u_id u) name])%list)
                /\ job_seeker_profiles d' = job_seeker_profiles d))
        /\ jobs d' = jobs d
        /\ job_applications d' = job_applications d
        /\ notifications d' = notifications d).


Definition is_admin (u : User) : bool := String.eqb (u_role u) "admin".

(** Bodies used to exercise registration. *)
Definition new_seeker : RegisterBody :=
  mkRegisterBody "new@mail.test" "secret" "Nia" "New" None "job_seeker" JUndefined.

Definition new_employer_null_company : RegisterBody :=
  mkRegisterBody "boss@corp.test" "secret" "Bo" "Boss" None "employer" JNull.

Definition wants_admin : RegisterBody :=
  mkRegisterBody "root@site.test" "secret" "Ro" "Root" None "admin" JUndefined.

(** The user insert succeeds and the profile insert is the round trip that
    fails. *)
Definition profile_insert_fails : World :=
  mkWorld (demo_db "active") None 100 0
          (fun n => if Nat.eqb n 3 then Some "57014" else None).

(** ** Status transitions, in the words of the specification *)


(** The role policy refuses the requested status outright. *)
Definition transition_refused (role status : string) : bool :=
  ((String.eqb role "employer" && negb (includes ["accepted"; "rejected"] status))
   || (String.eqb role "job_seeker" && negb (String.eqb status "withdrawn")))%bool.

(** The job seeker profile that [applyForJob] acts for: the first profile of
    the user. *)
Definition profile_of_user (userId : Z) (d : DB) : option Z :=
  hd_error (map jsp_id (filter (fun p => jsp_user_id p =? userId)
                               (job_seeker_profiles d))).

Definition job_is_active (jobId : Z) (d : DB) : bool :=
  existsb (fun j => (j_id j =? jobId) && String.eqb (j_status j) "active")%bool
          (jobs d).

(** Job 30 has no applications yet, and the seventh round trip, the insert
    of the notification in [applyForJob], fails with a connection error. *)
Definition notification_insert_fails : World :=
  mkWorld (with_job_applications [] (demo_db "active")) None 100 0
          (fun n => if Nat.eqb n 6 then Some "08006" else None).

(** The same marketplace after job 30 has been filled. *)
Definition filled_world : World :=
  mkWorld (demo_db "filled") None 100 0 (fun _ => None).

(** ** The role policy of the status engine, as one predicate *)

(** The actor may move the application to the requested status: an employer
    who owns the job may accept or reject, the applicant may withdraw, an
    admin may do anything. *)
Definition may_update (d : DB) (user : Principal) (a : Application)
           (status : string) : bool :=
  ((String.eqb (p_role user) "employer"
    && includes ["accepted"; "rejected"] status
    && is_job_owner d user a)
   || (String.eqb (p_role user) "job_seeker"
       && String.eqb status "withdrawn"
       && is_applicant d user a)
   || String.eqb (p_role user) "admin")%bool.

(** Title and message of a status-change notification. *)
Definition status_notification_text (status jobTitle : string)
  : string * string :=
  if String.eqb status "accepted" then
    ("Application Accepted",
     "Your application for " ++ jobTitle ++ " has been accepted!")
  else if String.eqb status "rejected" then
    ("Application Rejected",
     "Your application for " ++ jobTitle ++ " was not accepted.")
  else if String.eqb status "withdrawn" then
    ("Application Withdrawn",
     "An application for " ++ jobTitle ++ " has been withdrawn.")
  else
    ("Application Status Updated",
     "Your application status has been updated to " ++ status ++ ".").

(** Whom a status change is told to: the applicant when an employer
    decided, the employer when the applicant withdrew, nobody otherwise. *)
Definition status_notification_target (role : string)
           (applicantUser employerUser : Z) : option Z :=
  if String.eqb role "employer" then Some applicantUser
  else if String.eqb role "job_seeker" then Some employerUser
  else None.

(** ** Listing applications *)

(** The user owns the job: an employer profile of theirs posted it. *)
Definition owns_job (d : DB) (userId jobId : Z) : bool :=
  existsb (fun j =>
             (j_id j =? jobId)
             && existsb (fun e => (ep_id e =? j_employer_id j)
                                  && (ep_user_id e =? userId))
                        (employer_profiles d))
          (jobs d).

(** The marketplace with a connection that is lost after three round
    trips. *)
Definition connection_lost_world : World :=
  mkWorld (demo_db "active") None 100 0
          (fun n => if Nat.leb 3 n then Some "08006" else None).

(** ** models/job.model.js and controllers/job.controller.js *)

Module JobModel.

(** [Job.delete]: DELETE FROM jobs WHERE id = $1, with the applications of
    the job removed by the ON DELETE CASCADE of their foreign key. *)
Definition delete (id : Z) : M bool :=
  try_catch (query (AdminJobController.delete_job id) ;;; ret true)
            (fun error => throw error).

End JobModel.

Module JobController.

(** DELETE /api/jobs/:id *)
Definition deleteJob (user : Principal) (jobId : Z) : M Reply :=
  handler (
    jobCheck <- query (ApplicationController.select_job_owned_by
                         jobId (p_id user)) ;;
    match jobCheck with
    | [] => next (ApiError 404
                    "Job not found or you are not authorized to delete it")
    | _ :: _ =>
        JobModel.delete jobId ;;;
        successResponse 200 "Job deleted successfully" JNull
    end).

End JobController.
(** * Properties *)

(** ** Running statements *)

Lemma query_ok {A} (s : Stmt A) (w : World) :
  storage_fault w (nq w) = None ->
  query s w =
  match s (db w) (now w) with
  | Rows a d => (Ok a, set_db d (tick w))
  | SqlError st => (Throw (PgError st), tick w)
  end.
Proof. intros H. unfold query. now rewrite H. Qed.

(** ** INTEGER parameters *)

Lemma int4_param_stored (v : Z) (column : list Z) :
  In v column -> int4_param v column = true.
Proof.
  intros Hin. unfold int4_param. apply orb_true_iff. right.
  apply existsb_exists. exists v. split; [exact Hin|apply Z.eqb_refl].
Qed.

Lemma int4_param_in_range (v : Z) (column : list Z) :
  int4 v = true -> int4_param v column = true.
Proof. intros H. unfold int4_param. now rewrite H. Qed.

Lemma int4_param_absent (v : Z) (column : list Z) :
  ~ In v column -> int4_param v column = int4 v.
Proof.
  intros Hnot. unfold int4_param.
  destruct (existsb (Z.eqb v) column) eqn:E; [|apply orb_false_r].
  apply existsb_exists in E as [x [Hx E]]. apply Z.eqb_eq in E. now subst x.
Qed.

(** On a store whose keys are int4 values the test is the range test. *)
Lemma int4_param_typed (v : Z) (column : list Z) :
  Forall (fun k => int4 k = true) column ->
  int4_param v column = int4 v.
Proof.
  intros Hall. unfold int4_param.
  destruct (int4 v) eqn:E; [reflexivity|]. cbn [orb].
  destruct (existsb (Z.eqb v) column) eqn:X; [|reflexivity].
  apply existsb_exists in X as [x [Hx X]]. apply Z.eqb_eq in X. subst x.
  rewrite Forall_forall in Hall. rewrite (Hall v Hx) in E. discriminate.
Qed.

Lemma find_in_column {A} (key : A -> Z) (id : Z) (l : list A) (a : A) :
  find (fun x => key x =? id) l = Some a -> In id (map key l).
Proof.
  intros H. apply find_some in H as [Hin Hid]. apply Z.eqb_eq in Hid.
  subst id. now apply in_map.
Qed.

Lemma find_none_column {A} (key : A -> Z) (id : Z) (l : list A) :
  find (fun x => key x =? id) l = None -> ~ In id (map key l).
Proof.
  intros H Hin. apply in_map_iff in Hin as [x [Hx Hin]].
  apply (find_none _ _ H) in Hin. cbn beta in Hin.
  rewrite Hx, Z.eqb_refl in Hin. discriminate.
Qed.

(** ** Fresh keys *)

Lemma max_bound (l : list Z) (x : Z) : In x l -> x <= fold_right Z.max 0 l.
Proof.
  induction l as [|y l IH]; cbn [In fold_right]; [tauto|].
  intros [->|H]; [lia|]. specialize (IH H). lia.
Qed.

Lemma next_id_fresh (l : list Z) : ~ In (next_id l) l.
Proof.
  unfold next_id. intros H. apply max_bound in H. lia.
Qed.

(** ** Lists of rows *)

Lemma ltb_length_filter {A} (p : A -> bool) (l : list A) :
  Nat.ltb 0 (List.length (filter p l)) = existsb p l.
Proof.
  induction l as [|x l IH]; simpl; [reflexivity|].
  destruct (p x); simpl; [reflexivity|exact IH].
Qed.

Lemma ltb_length_map {A B} (f : A -> B) (l : list A) :
  Nat.ltb 0 (List.length (map f l)) = Nat.ltb 0 (List.length l).
Proof. now rewrite length_map. Qed.

Lemma ltb_length_app {A} (l1 l2 : list A) :
  Nat.ltb 0 (List.length (l1 ++ l2)%list)
  = (Nat.ltb 0 (List.length l1) || Nat.ltb 0 (List.length l2))%bool.
Proof. destruct l1; simpl; [reflexivity|reflexivity]. Qed.

Lemma ltb_length_flat_map {A B} (f : A -> list B) (l : list A) :
  Nat.ltb 0 (List.length (flat_map f l))
  = existsb (fun x => Nat.ltb 0 (List.length (f x))) l.
Proof.
  induction l as [|x l IH]; simpl; [reflexivity|].
  now rewrite ltb_length_app, IH.
Qed.

Lemma existsb_filter {A} (p q : A -> bool) (l : list A) :
  existsb q (filter p l) = existsb (fun x => (p x && q x)%bool) l.
Proof.
  induction l as [|x l IH]; simpl; [reflexivity|].
  destruct (p x); simpl; now rewrite IH.
Qed.

(** ** Notifications: mark-all-as-read (C8) *)

Lemma unread_after_update_all (userId : Z) (l : list NotificationRow) :
  filter (Notification.unread_of userId)
         (map (fun n => if Notification.unread_of userId n
                        then Notification.mark_read n else n) l) = [].
Proof.
  induction l as [|n l IH]; simpl; [reflexivity|].
  destruct (Notification.unread_of userId n) eqn:E.
  - unfold Notification.unread_of at 1. simpl.
    rewrite andb_false_r. exact IH.
  - rewrite E. exact IH.
Qed.

Lemma ids_of_marked (l : list NotificationRow) :
  map n_id (map Notification.mark_read l) = map n_id l.
Proof. rewrite map_map. reflexivity. Qed.

(** C8.  For every user, when storage is healthy, [markAllAsRead] returns
    exactly the ids of that user's notifications that were unread at the time
    of the call, in storage order; every row that was already read or that
    belongs to another user is left as it was, the rows that were unread
    differ only in [is_read]; and the unread count queried afterwards is 0. *)
Theorem markAllAsRead_returns_unread_then_count_zero
        (userId : Z) (w : World) :
  healthy w ->
  exists w',
    Notification.markAllAsRead userId w
    = (Ok (map n_id (filter (Notification.unread_of userId)
                            (notifications (db w)))), w')
    /\ (forall i n, nth_error (notifications (db w)) i = Some n ->
          nth_error (notifications (db w')) i
          = Some (if Notification.unread_of userId n
                  then mkNotification (n_id n) (n_user_id n) (n_title n)
                                      (n_message n) true (n_type n)
                                      (n_related_id n) (n_created_at n)
                  else n))
    /\ List.length (notifications (db w')) = List.length (notifications (db w))
    /\ fst (Notification.getUnreadCount userId w') = Ok 0.
Proof.
  intros H.
  unfold Notification.markAllAsRead, bind.
  rewrite query_ok by apply H.
  cbn [Notification.update_all_read ret].
  rewrite ids_of_marked.
  eexists. split; [reflexivity|].
  cbn [db set_db with_notifications notifications].
  split; [|split].
  - intros i n Hn.
    rewrite nth_error_map, Hn. reflexivity.
  - apply length_map.
  - unfold Notification.getUnreadCount.
    rewrite query_ok by apply H.
    cbn [Notification.count_unread fst db set_db tick with_notifications notifications].
    now rewrite unread_after_update_all.
Qed.

Lemma markAllAsRead_witness :
  healthy demo_world /\
  exists w',
    Notification.markAllAsRead 2 demo_world = (Ok [1; 4; 5], w')
    /\ fst (Notification.getUnreadCount 2 w') = Ok 0.
Proof.
  split; [intros n; reflexivity|].
  destruct (markAllAsRead_returns_unread_then_count_zero 2 demo_world)
    as [w' [Hr [_ [_ Hc]]]]; [intros n; reflexivity|].
  exists w'. split; [exact Hr|exact Hc].
Defined.

Example markAllAsRead_handler_on_demo :
  let run := NotificationController.markAllAsRead sam demo_world in
  fst run
  = Ok (Success 200 "All notifications marked as read"
          (JObj [("updatedIds", JArr [JNum 1; JNum 4; JNum 5])]))
  /\ fst (NotificationController.getUnreadCount sam (snd run))
     = Ok (Success 200 "Unread count retrieved successfully"
             (JObj [("count", JNum 0)])).
Proof. vm_compute. split; reflexivity. Qed.

(** ** The model-level status update (C10) *)

Lemma set_status_other (id : Z) (status : string) (t : Z) (a : Application) :
  a_id a <> id -> JobApplication.set_status id status t a = a.
Proof.
  intros H. unfold JobApplication.set_status.
  destruct (Z.eqb_spec (a_id a) id); [contradiction|reflexivity].
Qed.

Lemma set_status_fields (id : Z) (status : string) (t : Z) (a : Application) :
  let a' := JobApplication.set_status id status t a in
  a_id a' = a_id a /\ a_job_id a' = a_job_id a
  /\ a_job_seeker_id a' = a_job_seeker_id a
  /\ a_cover_letter a' = a_cover_letter a
  /\ a_created_at a' = a_created_at a.
Proof.
  unfold JobApplication.set_status.
  destruct (a_id a =? id); simpl; repeat split; reflexivity.
Qed.

Lemma set_status_target (id : Z) (status : string) (t : Z) (a : Application) :
  a_id a = id ->
  a_status (JobApplication.set_status id status t a) = status
  /\ a_updated_at (JobApplication.set_status id status t a) = t.
Proof.
  intros H. unfold JobApplication.set_status.
  rewrite (proj2 (Z.eqb_eq _ _) H). simpl. split; reflexivity.
Qed.

Lemma nth_error_column {A} (key : A -> Z) (l : list A) (i : nat) (a : A) :
  nth_error l i = Some a -> In (key a) (map key l).
Proof. intros H. apply in_map. exact (nth_error_In _ _ H). Qed.

(** C10.  [JobApplication.updateStatus] changes nothing but [status] and
    [updated_at] of the targeted row: every stored application keeps its
    position and its id, job_id, job_seeker_id, cover_letter and created_at;
    a row with another id is not modified at all; the table keeps its
    length and the other five tables are untouched.  When the round trip
    succeeds, the targeted row carries the new status and [NOW()] if the
    status is one of the four that the CHECK constraint of the column
    admits, and is left as it was if it is not. *)
Theorem updateStatus_frame
        (id : Z) (status : string) (w : World) (i : nat) (a : Application) :
  nth_error (job_applications (db w)) i = Some a ->
  let w' := snd (JobApplication.updateStatus id status w) in
  (exists a',
      nth_error (job_applications (db w')) i = Some a'
      /\ a_id a' = a_id a
      /\ a_job_id a' = a_job_id a
      /\ a_job_seeker_id a' = a_job_seeker_id a
      /\ a_cover_letter a' = a_cover_letter a
      /\ a_created_at a' = a_created_at a
      /\ (a_id a <> id -> a' = a)
      /\ (a_id a = id -> storage_fault w (nq w) = None ->
          if includes JobApplication.status_check status
          then a_status a' = status /\ a_updated_at a' = now w
          else a' = a))
  /\ List.length (job_applications (db w')) = List.length (job_applications (db w))
  /\ users (db w') = users (db w)
  /\ job_seeker_profiles (db w') = job_seeker_profiles (db w)
  /\ employer_profiles (db w') = employer_profiles (db w)
  /\ jobs (db w') = jobs (db w)
  /\ notifications (db w') = notifications (db w).
Proof.
  intros Hi w'. subst w'.
  assert (Hcol : a_id a = id ->
                 int4_param id (map a_id (job_applications (db w))) = true).
  { intros <-. apply int4_param_stored. exact (nth_error_column a_id _ i a Hi). }
  assert (Hex : a_id a = id ->
                existsb (fun b => a_id b =? id) (job_applications (db w)) = true).
  { intros E. apply existsb_exists. exists a.
    split; [exact (nth_error_In _ _ Hi)|now apply Z.eqb_eq]. }
  unfold JobApplication.updateStatus, bind, query, JobApplication.update_status.
  destruct (storage_fault w (nq w)) as [st|] eqn:Hf; cbn [fst snd].
  { split; [|repeat split; reflexivity].
    exists a. repeat split; auto.
    intros _ F. congruence. }
  destruct (int4_param id _) eqn:Hguard; cbn [negb].
  2:{ split; [|repeat split; reflexivity].
      exists a. repeat split; auto.
      intros E _. discriminate (Hcol E). }
  destruct (includes JobApplication.status_check status) eqn:Hcheck;
    cbn [negb]; rewrite ?andb_false_r, ?andb_true_r.
  - cbn [ret fst snd db set_db tick job_applications with_job_applications
         users job_seeker_profiles employer_profiles jobs notifications].
    split; [|repeat split; try reflexivity; apply length_map].
    exists (JobApplication.set_status id status (now w) a).
    rewrite nth_error_map, Hi.
    destruct (set_status_fields id status (now w) a) as (F1 & F2 & F3 & F4 & F5).
    repeat split; auto.
    + intros Hne. now apply set_status_other.
    + now apply set_status_target.
    + now apply set_status_target.
  - destruct (existsb _ (job_applications (db w))) eqn:Hany;
      cbn [ret fst snd db set_db tick job_applications with_job_applications
         users job_seeker_profiles employer_profiles jobs notifications].
    + split; [|repeat split; reflexivity].
      exists a. repeat split; auto.
    + split; [|repeat split; try reflexivity; apply length_map].
      exists (JobApplication.set_status id status (now w) a).
      rewrite nth_error_map, Hi.
      destruct (set_status_fields id status (now w) a) as (F1 & F2 & F3 & F4 & F5).
      repeat split; auto.
      * intros Hne. now apply set_status_other.
      * intros E _. discriminate (Hex E).
Qed.

Lemma updateStatus_frame_witness :
  nth_error (job_applications (db demo_world)) 1
  = Some (mkApplication 41 30 11 (Some "hi") "pending" 6 6)
  /\ (exists a',
        nth_error (job_applications
                     (db (snd (JobApplication.updateStatus
                                 40 "accepted" demo_world)))) 1
        = Some a'
        /\ a' = mkApplication 41 30 11 (Some "hi") "pending" 6 6)
  /\ (exists a',
        nth_error (job_applications
                     (db (snd (JobApplication.updateStatus
                                 41 "bogus" demo_world)))) 1
        = Some a'
        /\ a' = mkApplication 41 30 11 (Some "hi") "pending" 6 6).
Proof.
  split; [reflexivity|]. split.
  - destruct (updateStatus_frame 40 "accepted" demo_world 1
                (mkApplication 41 30 11 (Some "hi") "pending" 6 6) eq_refl)
      as [[a' (Hn & _ & _ & _ & _ & _ & Hother & _)] _].
    exists a'. split; [exact Hn|]. apply Hother. discriminate.
  - destruct (updateStatus_frame 41 "bogus" demo_world 1
                (mkApplication 41 30 11 (Some "hi") "pending" 6 6) eq_refl)
      as [[a' (Hn & _ & _ & _ & _ & _ & _ & Htarget)] _].
    exists a'. split; [exact Hn|]. exact (Htarget eq_refl eq_refl).
Defined.

(** ** Stepping through a handler

    [run] simplifies the world after each round trip and splits on the
    innermost undecided test: a fault of the schedule, a constraint check of
    a statement, a branch of the handler. *)

Ltac wsimpl :=
  cbn [storage_fault nq tick set_db set_tx db tx now fst snd
       users job_seeker_profiles employer_profiles jobs job_applications
       notifications with_users with_job_seeker_profiles
       with_employer_profiles with_jobs with_job_applications
       with_notifications] in *.

Ltac break_match :=
  match goal with
  | |- context [match ?x with _ => _ end] =>
      lazymatch x with
      | context [match _ with _ => _ end] => fail
      | _ => destruct x eqn:?
      end
  end.

Ltac run := repeat (wsimpl; cbn beta iota; try break_match).

Ltac fails_unchanged := solve [left; eexists; split; reflexivity].

Lemma includes_two (a b x : string) :
  includes [a; b] x = true -> x = a \/ x = b.
Proof.
  unfold includes. simpl. rewrite orb_false_r.
  intros H. apply orb_true_iff in H.
  destruct H as [H|H]; apply String.eqb_eq in H; auto.
Qed.

Lemma includes_two_false (a b x : string) :
  x <> a -> x <> b -> includes [a; b] x = false.
Proof.
  intros Ha Hb. unfold includes. simpl.
  apply String.eqb_neq in Ha. apply String.eqb_neq in Hb.
  now rewrite Ha, Hb.
Qed.

(** ** Registration (C7, C9) *)

Ltac unfold_register :=
  unfold AuthController.register_with, handler, successResponse, next,
    try_catch, finally, bind, ret, throw, query, client_begin, client_query,
    client_commit, client_rollback, client_release,
    AuthController.select_user_by_email, AuthController.insert_user,
    AuthController.insert_job_seeker_profile,
    AuthController.insert_employer_profile.

Lemma register_with_outcome
      (bcrypt_hash : string -> string) (generateToken : Z -> string -> string)
      (pool : option unit) (body : RegisterBody) (w : World) :
  all_or_nothing generateToken body (db w)
    (fst (AuthController.register_with bcrypt_hash generateToken pool body w))
    (db (snd (AuthController.register_with bcrypt_hash generateToken pool body w))).
Proof.
  unfold all_or_nothing, registered_reply. unfold_register.
  destruct (includes ["job_seeker"; "employer"] (rb_role body)) eqn:Hrole;
    cbn [negb]; [|fails_unchanged].
  apply includes_two in Hrole.
  run; try fails_unchanged.
  all: right; eexists; split; [reflexivity|].
  all: wsimpl; cbn [u_email u_role u_id].
  all: repeat split; try reflexivity.
  all: try (left; split; [now apply String.eqb_eq|split; reflexivity]).
  all: try (right; split;
            [now apply String.eqb_eq|split; [eexists; reflexivity|reflexivity]]).
  all: exfalso; destruct Hrole as [E|E]; rewrite E in *; discriminate.
Qed.

(** A storage failure while the user row or the profile row is being created
    makes the handler fail. *)
Lemma register_with_fails_on_fault
      (bcrypt_hash : string -> string) (generateToken : Z -> string -> string)
      (pool : option unit) (body : RegisterBody) (w : World) :
  storage_fault w (S (S (nq w))) <> None
  \/ storage_fault w (S (S (S (nq w)))) <> None ->
  exists e,
    fst (AuthController.register_with bcrypt_hash generateToken pool body w)
    = Ok (Next e).
Proof.
  intros Hfault. unfold_register.
  destruct (includes ["job_seeker"; "employer"] (rb_role body)) eqn:Hrole;
    cbn [negb]; [|eexists; reflexivity].
  apply includes_two in Hrole.
  run; try solve [eexists; reflexivity].
  all: try solve [destruct Hfault as [F|F]; congruence].
  all: exfalso; destruct Hrole as [E|E]; rewrite E in *; discriminate.
Qed.

(** The transaction block, given a pool to take the client from, is all or
    nothing whichever round trips fail: either the handler fails and the
    committed rows are exactly those it started from, or it answers 201 and
    the committed rows have gained exactly one user and one profile of that
    user's role pointing at it.  A storage failure on the user insert or on
    the profile insert always ends in the first case. *)
Lemma register_all_or_nothing
        (bcrypt_hash : string -> string) (generateToken : Z -> string -> string)
        (pool : option unit) (body : RegisterBody) (w : World) :
  let r := fst (AuthController.register_with bcrypt_hash generateToken pool body w) in
  let w' := snd (AuthController.register_with bcrypt_hash generateToken pool body w) in
  all_or_nothing generateToken body (db w) r (db w')
  /\ (storage_fault w (S (S (nq w))) <> None
      \/ storage_fault w (S (S (S (nq w)))) <> None ->
      exists e, r = Ok (Next e) /\ db w' = db w).
Proof.
  intros r w'.
  pose proof (register_with_outcome bcrypt_hash generateToken pool body w) as Hout.
  fold r w' in Hout.
  split; [exact Hout|].
  intros Hfault.
  destruct (register_with_fails_on_fault bcrypt_hash generateToken pool body w Hfault)
    as [e He].
  fold r in He.
  exists e. split; [exact He|].
  destruct Hout as [[e' [_ Hdb]]|[u [Hr _]]]; [exact Hdb|].
  rewrite He in Hr. discriminate.
Qed.

(** With a pool at hand, a profile insert that fails rolls the user row
    back. *)
Example register_rolls_back_user_row :
  let run := AuthController.register_with (fun p => p) (fun _ r => r) (Some tt)
               new_seeker profile_insert_fails in
  fst run = Ok (Next (PgError "57014"))
  /\ db (snd run) = demo_db "active".
Proof. vm_compute. split; reflexivity. Qed.

Example register_null_company_rolls_back :
  let run := AuthController.register_with (fun p => p) (fun _ r => r) (Some tt)
               new_employer_null_company demo_world in
  fst run = Ok (Next (PgError "23502"))
  /\ db (snd run) = demo_db "active".
Proof. vm_compute. split; reflexivity. Qed.

(** As db/connection.js stands, [query.pool] is undefined and the handler
    stops at [query.pool.connect()], before BEGIN: whatever the request and
    whatever the storage does, [register] never answers with a success and
    never changes a committed row. *)
Lemma register_as_written_never_succeeds
      (bcrypt_hash : string -> string) (generateToken : Z -> string -> string)
      (body : RegisterBody) (w : World) :
  db (snd (AuthController.register bcrypt_hash generateToken body w)) = db w
  /\ forall c m data,
      fst (AuthController.register bcrypt_hash generateToken body w)
      <> Ok (Success c m data).
Proof.
  unfold AuthController.register, AuthController.query_pool. unfold_register.
  run.
  all: split; [try reflexivity; destruct (db w); reflexivity|].
  all: intros c m data; discriminate.
Qed.

(** C7, at a failing input.  A job seeker registers with an email that is
    not taken, on storage that does not fail.  The handler takes its client
    from [query.pool], which is undefined: it throws at
    [query.pool.connect()], the request is answered 500, and neither the
    user row nor the profile row is created.  With the pool that
    db/connection.js exports beside [query], the same request is answered
    201 and commits one user row and one profile row. *)
Theorem register_as_written_creates_no_rows :
  let run := AuthController.register (fun p => p) (fun _ r => r)
               new_seeker demo_world in
  let meant := AuthController.register_with (fun p => p) (fun _ r => r) (Some tt)
                 new_seeker demo_world in
  fst run = Ok (Next (TypeError
              "Cannot read properties of undefined (reading 'connect')"))
  /\ http_status (Next (TypeError
        "Cannot read properties of undefined (reading 'connect')")) = 500
  /\ users (db (snd run)) = demo_users
  /\ job_seeker_profiles (db (snd run)) = job_seeker_profiles (demo_db "active")
  /\ http_status (match fst meant with Ok r => r | Throw e => Next e end) = 201
  /\ map u_email (users (db (snd meant)))
     = (map u_email demo_users ++ ["new@mail.test"])%list
  /\ List.length (job_seeker_profiles (db (snd meant)))
     = S (List.length (job_seeker_profiles (demo_db "active"))).
Proof. vm_compute. repeat split; reflexivity. Qed.

(** C9.  A registration whose role is neither 'job_seeker' nor 'employer'
    is answered with 400 before any storage round trip: the world is left
    exactly as it was.  Consequently no registration, whatever its body,
    changes the set of admin users. *)
Theorem register_rejects_other_roles
        (bcrypt_hash : string -> string) (generateToken : Z -> string -> string)
        (pool : option unit) (body : RegisterBody) (w : World) :
  rb_role body <> "job_seeker" ->
  rb_role body <> "employer" ->
  AuthController.register_with bcrypt_hash generateToken pool body w
  = (Ok (Next (ApiError 400 "Invalid role. Must be job_seeker or employer")), w)
  /\ http_status (Next (ApiError 400 "Invalid role. Must be job_seeker or employer"))
     = 400
  /\ forall body0 w0,
      filter is_admin
             (users (db (snd (AuthController.register_with
                                bcrypt_hash generateToken pool body0 w0))))
      = filter is_admin (users (db w0)).
Proof.
  intros Hs He. split; [|split; [reflexivity|]].
  - unfold AuthController.register_with, handler, try_catch, next, ret.
    rewrite (includes_two_false _ _ _ Hs He). reflexivity.
  - intros body0 w0.
    destruct (register_with_outcome bcrypt_hash generateToken pool body0 w0)
      as [[e [_ Hdb]]|[u (_ & _ & Hrole & Hu & Hprof & _)]].
    + now rewrite Hdb.
    + rewrite Hu, filter_app. simpl. unfold is_admin at 2. rewrite Hrole.
      destruct Hprof as [[E _]|[E _]]; rewrite E; simpl; apply app_nil_r.
Qed.

Lemma register_rejects_other_roles_witness :
  rb_role wants_admin <> "job_seeker"
  /\ rb_role wants_admin <> "employer"
  /\ AuthController.register (fun p => p) (fun _ r => r) wants_admin demo_world
     = (Ok (Next (ApiError 400 "Invalid role. Must be job_seeker or employer")),
        demo_world).
Proof.
  assert (H1 : rb_role wants_admin <> "job_seeker") by discriminate.
  assert (H2 : rb_role wants_admin <> "employer") by discriminate.
  split; [exact H1|split; [exact H2|]].
  exact (proj1 (register_rejects_other_roles (fun p => p) (fun _ r => r)
                  AuthController.query_pool wants_admin demo_world H1 H2)).
Defined.

(** ** Viewing an application (C6) *)

Lemma find_filter_head {A} (p : A -> bool) (l : list A) (a : A) :
  find p l = Some a -> exists rest, filter p l = a :: rest.
Proof.
  induction l as [|x l IH]; simpl; [discriminate|].
  destruct (p x) eqn:E.
  - intros H. injection H as ->. eexists. reflexivity.
  - exact IH.
Qed.

Lemma find_none_filter {A} (p : A -> bool) (l : list A) :
  find p l = None -> filter p l = [].
Proof.
  induction l as [|x l IH]; simpl; [reflexivity|].
  destruct (p x); [discriminate|exact IH].
Qed.

Lemma fk_chain (d : DB) (a : Application) :
  foreign_keys_ok d = true ->
  In a (job_applications d) ->
  existsb (fun j =>
    (j_id j =? a_job_id a)
    && existsb (fun e =>
         (ep_id e =? j_employer_id j)
         && existsb (fun ue =>
              (u_id ue =? ep_user_id e)
              && existsb (fun p =>
                   (jsp_id p =? a_job_seeker_id a)
                   && existsb (fun us => u_id us =? jsp_user_id p) (users d))
                   (job_seeker_profiles d))
              (users d))
         (employer_profiles d))
    (jobs d) = true.
Proof.
  unfold foreign_keys_ok. intros Hfk Ha.
  apply andb_true_iff in Hfk as [Hfk Hp].
  apply andb_true_iff in Hfk as [Hfk He].
  apply andb_true_iff in Hfk as [Happ Hj].
  rewrite forallb_forall in Happ, Hj, He, Hp.
  specialize (Happ a Ha). apply andb_true_iff in Happ as [Haj Hap].
  apply existsb_exists in Haj as [j [Hjin Hjid]].
  apply existsb_exists in Hap as [p [Hpin Hpid]].
  pose proof (Hj j Hjin) as Hje. apply existsb_exists in Hje as [e [Hein Heid]].
  pose proof (He e Hein) as Heu. apply existsb_exists in Heu as [ue [Huein Hueid]].
  pose proof (Hp p Hpin) as Hpu. apply existsb_exists in Hpu as [us [Husin Husid]].
  apply existsb_exists. exists j. split; [exact Hjin|].
  rewrite Hjid. simpl.
  apply existsb_exists. exists e. split; [exact Hein|].
  rewrite Heid. simpl.
  apply existsb_exists. exists ue. split; [exact Huein|].
  rewrite Hueid. simpl.
  apply existsb_exists. exists p. split; [exact Hpin|].
  rewrite Hpid. simpl.
  apply existsb_exists. exists us. split; [exact Husin|exact Husid].
Qed.

Lemma existsb_ext_in {A} (p q : A -> bool) (l : list A) :
  (forall x, p x = q x) -> existsb p l = existsb q l.
Proof.
  intros H. induction l as [|x l IH]; simpl; [reflexivity|].
  now rewrite H, IH.
Qed.

Lemma select_details_head (id : Z) (d : DB) (t : Z) (a : Application) :
  foreign_keys_ok d = true ->
  application_with_id id d = Some a ->
  exists v rest,
    JobApplication.select_details_by_id id d t = Rows (v :: rest) d
    /\ v_application v = a.
Proof.
  intros Hfk Hfind. unfold application_with_id in Hfind.
  assert (Ha : In a (job_applications d)) by (apply find_some in Hfind; tauto).
  destruct (find_filter_head _ _ _ Hfind) as [rest Hrest].
  unfold JobApplication.select_details_by_id.
  rewrite (int4_param_stored _ _ (find_in_column a_id _ _ _ Hfind)).
  cbn [negb]. rewrite Hrest.
  cbn [flat_map].
  match goal with
  | |- context [Rows (?fa ++ ?more)%list d] =>
      assert (Hne : Nat.ltb 0 (List.length fa) = true);
      [|assert (Hall : forall v, In v fa -> v_application v = a);
        [|destruct fa as [|v l]; [discriminate|];
          exists v, (l ++ more)%list; split; [reflexivity|];
          apply Hall; left; reflexivity]]
  end.
  - rewrite ltb_length_flat_map, existsb_filter.
    rewrite <- (fk_chain d a Hfk Ha).
    apply existsb_ext_in. intros j. f_equal.
    rewrite ltb_length_flat_map, existsb_filter.
    apply existsb_ext_in. intros e. f_equal.
    rewrite ltb_length_flat_map, existsb_filter.
    apply existsb_ext_in. intros ue. f_equal.
    rewrite ltb_length_flat_map, existsb_filter.
    apply existsb_ext_in. intros p. f_equal.
    rewrite ltb_length_map, ltb_length_filter. reflexivity.
  - intros v Hv.
    repeat (apply in_flat_map in Hv; destruct Hv as [? [_ Hv]]).
    apply in_map_iff in Hv. destruct Hv as [? [Hv _]].
    rewrite <- Hv. reflexivity.
Qed.

Lemma select_details_none (id : Z) (d : DB) (t : Z) :
  application_with_id id d = None ->
  JobApplication.select_details_by_id id d t
  = if int4 id then Rows [] d else SqlError "22003".
Proof.
  intros Hfind. unfold JobApplication.select_details_by_id.
  unfold application_with_id in Hfind.
  rewrite (int4_param_absent _ _ (find_none_column a_id _ _ Hfind)).
  destruct (int4 id); cbn [negb]; [|reflexivity].
  now rewrite (find_none_filter _ _ Hfind).
Qed.

Lemma own_profile_rows (userId jobSeekerId : Z) (d : DB) (t : Z) :
  exists rows,
    ApplicationController.select_own_profile userId jobSeekerId d t = Rows rows d
    /\ Nat.ltb 0 (List.length rows)
       = existsb (fun p => (jsp_user_id p =? userId) && (jsp_id p =? jobSeekerId))%bool
                 (job_seeker_profiles d).
Proof.
  eexists. split; [reflexivity|].
  now rewrite ltb_length_map, ltb_length_filter.
Qed.

Lemma own_job_rows (userId jobId : Z) (d : DB) (t : Z) :
  exists rows,
    ApplicationController.select_own_job userId jobId d t = Rows rows d
    /\ Nat.ltb 0 (List.length rows)
       = existsb (fun j => (j_id j =? jobId)
                           && existsb (fun e => (ep_id e =? j_employer_id j)
                                                && (ep_user_id e =? userId))
                                      (employer_profiles d))%bool
                 (jobs d).
Proof.
  eexists. split; [reflexivity|].
  rewrite ltb_length_flat_map, existsb_filter.
  apply existsb_ext_in. intros j. f_equal.
  now rewrite ltb_length_map, ltb_length_filter.
Qed.

(** C6, as the code has it.  With healthy storage and resolving foreign
    keys, viewing an application answers 200 with that application's row
    exactly when the actor is the job seeker who submitted it, the employer
    who posted its job, or an admin, and 403 for every other actor.  When no
    application has the id, the answer is 404 if the id is within the range
    of the INTEGER column; an id outside it is refused by PostgreSQL
    (22003) and the handler passes that error on.  Nothing is written. *)
Theorem getApplicationById_visibility
        (user : Principal) (id : Z) (w : World) :
  healthy w ->
  foreign_keys_ok (db w) = true ->
  let r := fst (ApplicationController.getApplicationById user id w) in
  let w' := snd (ApplicationController.getApplicationById user id w) in
  match application_with_id id (db w) with
  | None =>
      r = Ok (Next (if int4 id then ApiError 404 "Application not found"
                    else PgError "22003"))
  | Some a =>
      if canView (db w) user a
      then exists v,
          v_application v = a
          /\ r = Ok (Success 200 "Application retrieved successfully" (view_row v))
      else r = Ok (Next (ApiError 403
                      "You are not authorized to view this application"))
  end
  /\ db w' = db w.
Proof.
  intros Hh Hfk r w'. subst r w'.
  unfold ApplicationController.getApplicationById, handler, try_catch,
    JobApplication.findById, bind.
  rewrite query_ok by apply Hh.
  destruct (application_with_id id (db w)) as [a|] eqn:Hfind.
  - destruct (select_details_head id (db w) (now w) a Hfk Hfind)
      as (v & rest & Hrows & Hv).
    rewrite Hrows. cbn [ret hd_error]. subst a.
    unfold canView, is_applicant, is_job_owner.
    destruct (String.eqb (p_role user) "job_seeker") eqn:Ejs.
    + rewrite query_ok by apply Hh. wsimpl.
      destruct (own_profile_rows (p_id user) (a_job_seeker_id (v_application v))
                                 (db w) (now w)) as (rows & Hq & Hlen).
      rewrite Hq, Hlen. cbn [ret].
      apply String.eqb_eq in Ejs. rewrite Ejs. cbn [String.eqb Ascii.eqb Bool.eqb andb orb negb].
      rewrite orb_false_r, andb_true_r.
      destruct (existsb _ (job_seeker_profiles (db w))); cbn -[view_row].
      * split; [exists v; auto|reflexivity].
      * split; reflexivity.
    + destruct (String.eqb (p_role user) "employer") eqn:Eem.
      * rewrite query_ok by apply Hh. wsimpl.
        destruct (own_job_rows (p_id user) (a_job_id (v_application v))
                               (db w) (now w)) as (rows & Hq & Hlen).
        rewrite Hq, Hlen. cbn [ret].
        apply String.eqb_eq in Eem. rewrite Eem. cbn [String.eqb Ascii.eqb Bool.eqb andb orb negb].
        rewrite orb_false_r, andb_true_r.
        destruct (existsb _ (jobs (db w))); cbn -[view_row].
        -- split; [exists v; auto|reflexivity].
        -- split; reflexivity.
      * cbn [ret negb andb orb].
        destruct (String.eqb (p_role user) "admin"); cbn -[view_row].
        -- split; [exists v; auto|reflexivity].
        -- split; reflexivity.
  - rewrite (select_details_none id (db w) (now w) Hfind).
    destruct (int4 id); cbn -[view_row]; split; reflexivity.
Qed.

Lemma getApplicationById_visibility_witness :
  healthy demo_world
  /\ foreign_keys_ok (db demo_world) = true
  /\ fst (ApplicationController.getApplicationById sam 41 demo_world)
     = Ok (Next (ApiError 403 "You are not authorized to view this application"))
  /\ fst (ApplicationController.getApplicationById sam 99 demo_world)
     = Ok (Next (ApiError 404 "Application not found"))
  /\ exists v,
      v_application v = mkApplication 40 30 10 None "pending" 5 5
      /\ fst (ApplicationController.getApplicationById eve 40 demo_world)
         = Ok (Success 200 "Application retrieved successfully" (view_row v)).
Proof.
  assert (Hh : healthy demo_world) by (intros n; reflexivity).
  split; [exact Hh|]. split; [reflexivity|]. split; [|split].
  - exact (proj1 (getApplicationById_visibility sam 41 demo_world Hh eq_refl)).
  - exact (proj1 (getApplicationById_visibility sam 99 demo_world Hh eq_refl)).
  - exact (proj1 (getApplicationById_visibility eve 40 demo_world Hh eq_refl)).
Defined.

(** C6: the claim as worded promises NotFound (404) whenever the
    application does not exist.  The id of the request is bound to the
    INTEGER column as it came: 2147483648, which no application can have,
    is refused by PostgreSQL and answered 500. *)
Lemma getApplicationById_out_of_range_is_500 :
  application_with_id 2147483648 (db demo_world) = None
  /\ fst (ApplicationController.getApplicationById sam 2147483648 demo_world)
     = Ok (Next (PgError "22003"))
  /\ http_status (Next (PgError "22003")) = 500
  /\ ~ (forall (user : Principal) (id : Z) (w : World),
          healthy w ->
          foreign_keys_ok (db w) = true ->
          application_with_id id (db w) = None ->
          exists msg,
            fst (ApplicationController.getApplicationById user id w)
            = Ok (Next (ApiError 404 msg))).
Proof.
  split; [reflexivity|]. split; [reflexivity|]. split; [reflexivity|].
  intros H.
  destruct (H sam 2147483648 demo_world) as [msg Hmsg];
    [intros n; reflexivity|reflexivity|reflexivity|].
  vm_compute in Hmsg. discriminate.
Qed.

(** ** The status engine: role policy (C3) *)

Lemma select_by_id_found (id : Z) (d : DB) (t : Z) (a : Application) :
  application_with_id id d = Some a ->
  exists rest,
    JobApplication.select_by_id id d t = Rows (mkView a None :: rest) d.
Proof.
  intros H. destruct (find_filter_head _ _ _ H) as [rest Hrest].
  unfold JobApplication.select_by_id.
  rewrite (int4_param_stored _ _ (find_in_column a_id _ _ _ H)), Hrest.
  eexists. reflexivity.
Qed.

Lemma select_by_id_missing (id : Z) (d : DB) (t : Z) :
  application_with_id id d = None ->
  JobApplication.select_by_id id d t
  = if int4 id then Rows [] d else SqlError "22003".
Proof.
  intros H. unfold JobApplication.select_by_id.
  unfold application_with_id in H.
  rewrite (int4_param_absent _ _ (find_none_column a_id _ _ H)).
  now rewrite (find_none_filter _ _ H).
Qed.

(** X28.  An id that no application has is settled by the first round trip,
    before the role policy is looked at and without a write: the answer is
    404 when the id is within the range of the INTEGER column, and the
    error of PostgreSQL (22003, answered 500) when it is not. *)
Lemma status_update_missing_application
      (user : Principal) (id : Z) (status : string) (w : World) :
  healthy w ->
  includes ApplicationController.validStatusValues status = true ->
  application_with_id id (db w) = None ->
  ApplicationController.updateApplicationStatus user id status w
  = (Ok (Next (if int4 id then ApiError 404 "Application not found"
               else PgError "22003")),
     tick w).
Proof.
  intros Hh Hvalid Hfind.
  unfold ApplicationController.updateApplicationStatus, handler, try_catch,
    JobApplication.findById, bind.
  rewrite Hvalid. cbn [negb].
  rewrite query_ok by apply Hh.
  rewrite (select_by_id_missing id (db w) (now w) Hfind).
  destruct (int4 id); reflexivity.
Qed.




(** ** Creating an application (C4) *)

Lemma unique_pairs_snoc (apps : list Application) (jobId jobSeekerId : Z)
      (a : Application) :
  NoDup (map (fun a => (a_job_id a, a_job_seeker_id a)) apps) ->
  Nat.ltb 0 (List.length
               (filter (fun a => (a_job_seeker_id a =? jobSeekerId)
                                 && (a_job_id a =? jobId))%bool apps)) = false ->
  a_job_id a = jobId ->
  a_job_seeker_id a = jobSeekerId ->
  NoDup (map (fun a => (a_job_id a, a_job_seeker_id a)) (apps ++ [a])%list).
Proof.
  intros Hnd Hnone Hj Hs.
  rewrite map_app. cbn [map].
  pose proof (Add_app (a_job_id a, a_job_seeker_id a)
                      (map (fun a => (a_job_id a, a_job_seeker_id a)) apps) [])
    as Hadd.
  rewrite app_nil_r in Hadd.
  apply (NoDup_Add Hadd).
  split; [exact Hnd|].
  {
    rewrite ltb_length_filter in Hnone.
    intros Hin. apply in_map_iff in Hin as [b [Hb Hbin]].
    injection Hb as Hbj Hbs.
    assert (Hex : existsb (fun a => (a_job_seeker_id a =? jobSeekerId)
                                    && (a_job_id a =? jobId))%bool apps = true).
    { apply existsb_exists. exists b. split; [exact Hbin|].
      rewrite Hbj, Hbs, Hj, Hs, !Z.eqb_refl. reflexivity. }
    congruence. }
Qed.

Ltac unfold_apply :=
  unfold ApplicationController.applyForJob, JobApplication.hasApplied,
    JobApplication.create, Notification.createNewApplicationNotification,
    Notification.create, handler, successResponse, next, try_catch, bind, ret,
    query, ApplicationController.select_profile_of_user,
    ApplicationController.select_job_with_status,
    ApplicationController.select_employer_of_job,
    ApplicationController.select_seeker_names,
    JobApplication.select_by_pair, JobApplication.insert_application,
    Notification.insert_notification.

Lemma applyForJob_keeps_pairs_unique
      (user : Principal) (jobId : Z) (coverLetter : option string) (w : World) :
  NoDup (application_pairs (db w)) ->
  NoDup (application_pairs
           (db (snd (ApplicationController.applyForJob user jobId coverLetter w)))).
Proof.
  intros Hnd. unfold application_pairs in *. unfold_apply.
  run; try exact Hnd.
  all: eapply unique_pairs_snoc; eauto.
Qed.

Lemma pair_present (jobId jobSeekerId : Z) (d : DB) :
  In (jobId, jobSeekerId) (application_pairs d) ->
  Nat.ltb 0 (List.length
               (filter (fun a => (a_job_seeker_id a =? jobSeekerId)
                                 && (a_job_id a =? jobId))%bool
                       (job_applications d))) = true.
Proof.
  unfold application_pairs. intros Hin.
  apply in_map_iff in Hin as [b [Hb Hbin]]. injection Hb as Hj Hs.
  rewrite ltb_length_filter. apply existsb_exists.
  exists b. split; [exact Hbin|].
  rewrite Hj, Hs, !Z.eqb_refl. reflexivity.
Qed.

Lemma pair_job_on_file (jobId jobSeekerId : Z) (d : DB) :
  foreign_keys_ok d = true ->
  In (jobId, jobSeekerId) (application_pairs d) ->
  In jobId (map j_id (jobs d)).
Proof.
  unfold foreign_keys_ok, application_pairs. intros Hfk Hin.
  apply in_map_iff in Hin as [a [Ha Hain]]. injection Ha as Hj _.
  apply andb_true_iff in Hfk as [Hfk _].
  apply andb_true_iff in Hfk as [Hfk _].
  apply andb_true_iff in Hfk as [Happ _].
  rewrite forallb_forall in Happ. specialize (Happ a Hain).
  apply andb_true_iff in Happ as [Hjob _].
  apply existsb_exists in Hjob as [j [Hjin Hjid]].
  apply Z.eqb_eq in Hjid. apply in_map_iff. exists j. split; [lia|exact Hjin].
Qed.

(** C4, as the code has it.  In a store whose foreign keys resolve, when
    the actor's profile already has an application row on the job, of
    whatever status, [applyForJob] fails and writes nothing: with 400
    "already applied" if the job is still active, and with 404 if it is no
    longer active, since that check comes first.  And a call of
    [applyForJob] that runs from its first statement to its last without a
    statement of another request in between, whatever fails during it,
    never leaves two rows with the same (job, job seeker) pair in a table
    that had none. *)
Theorem applyForJob_duplicate_blocked
        (user : Principal) (jobId : Z) (coverLetter : option string)
        (w : World) (jobSeekerId : Z) :
  healthy w ->
  foreign_keys_ok (db w) = true ->
  profile_of_user (p_id user) (db w) = Some jobSeekerId ->
  In (jobId, jobSeekerId) (application_pairs (db w)) ->
  let r := fst (ApplicationController.applyForJob user jobId coverLetter w) in
  let w' := snd (ApplicationController.applyForJob user jobId coverLetter w) in
  db w' = db w
  /\ r = Ok (Next (if job_is_active jobId (db w)
                   then ApiError 400 "You have already applied for this job"
                   else ApiError 404 "Job not found or not active"))
  /\ forall user0 jobId0 coverLetter0 w0,
      NoDup (application_pairs (db w0)) ->
      NoDup (application_pairs
               (db (snd (ApplicationController.applyForJob
                           user0 jobId0 coverLetter0 w0)))).
Proof.
  intros Hh Hfk Hprof Hin r w'. subst r w'.
  pose proof (int4_param_stored _ _ (pair_job_on_file _ _ _ Hfk Hin)) as Hcol.
  split; [|split; [|intros; now apply applyForJob_keeps_pairs_unique]].
  all: unfold ApplicationController.applyForJob, handler, try_catch, bind.
  all: rewrite query_ok by apply Hh.
  all: unfold profile_of_user in Hprof.
  all: cbn [ApplicationController.select_profile_of_user].
  all: destruct (map jsp_id _) as [|z l]; [discriminate|].
  all: injection Hprof as ->.
  all: rewrite query_ok by apply Hh.
  all: unfold job_is_active; try rewrite <- ltb_length_filter.
  all: unfold ApplicationController.select_job_with_status.
  all: wsimpl; rewrite Hcol.
  all: destruct (filter _ (jobs _)) as [|j js]; [reflexivity|].
  all: unfold JobApplication.hasApplied, bind.
  all: rewrite query_ok by apply Hh.
  all: cbn [JobApplication.select_by_pair ret].
  all: wsimpl.
  all: rewrite (pair_present jobId jobSeekerId (db w) Hin).
  all: reflexivity.
Qed.

(** The handler is its two parts run back to back. *)
Lemma applyForJob_two_parts
      (user : Principal) (jobId : Z) (coverLetter : option string) (w : World) :
  ApplicationController.applyForJob user jobId coverLetter w
  = (checked <- ApplicationController.applyForJob_checks user jobId ;;
     match checked with
     | inl reply => ret reply
     | inr cleared =>
         ApplicationController.applyForJob_writes jobId coverLetter cleared
     end) w.
Proof.
  unfold ApplicationController.applyForJob_checks,
    ApplicationController.applyForJob_writes.
  unfold_apply.
  run; reflexivity.
Qed.

(** The restriction to calls that do not overlap is needed.  Sue sends the
    same application twice, and both requests pass the duplicate check
    before either inserts: both are answered 201 and the table holds two
    rows for the same (job, job seeker) pair. *)
Example overlapping_applications_both_insert :
  let run := ApplicationController.applyForJob_overlapping
               sue 30 None sue 30 (Some "again")
               (heal notification_insert_fails) in
  application_pairs (db (heal notification_insert_fails)) = []
  /\ (exists data1 data2,
         fst run = Ok (Success 201 "Application submitted successfully" data1,
                       Success 201 "Application submitted successfully" data2))
  /\ application_pairs (db (snd run)) = [(30, 11); (30, 11)].
Proof.
  vm_compute. split; [reflexivity|]. split; [|reflexivity].
  do 2 eexists. reflexivity.
Qed.

Lemma applyForJob_duplicate_blocked_witness :
  healthy demo_world
  /\ foreign_keys_ok (db demo_world) = true
  /\ profile_of_user (p_id sue) (db demo_world) = Some 11
  /\ In (30, 11) (application_pairs (db demo_world))
  /\ fst (ApplicationController.applyForJob sue 30 None demo_world)
     = Ok (Next (ApiError 400 "You have already applied for this job"))
  /\ db (snd (ApplicationController.applyForJob sue 30 None demo_world))
     = db demo_world.
Proof.
  assert (Hh : healthy demo_world) by (intros n; reflexivity).
  assert (Hin : In (30, 11) (application_pairs (db demo_world)))
    by (right; left; reflexivity).
  split; [exact Hh|]. split; [reflexivity|]. split; [reflexivity|].
  split; [exact Hin|].
  destruct (applyForJob_duplicate_blocked sue 30 None demo_world 11
              Hh eq_refl eq_refl Hin) as (Hdb & Hr & _).
  split; [exact Hr|exact Hdb].
Defined.

(** C4: the claim as worded promises Conflict (400) for every second attempt.
    Once the job has been filled, the same attempt is answered 404 by the
    earlier check for an active job. *)
Lemma applyForJob_duplicate_on_filled_job_is_404 :
  profile_of_user (p_id sue) (db filled_world) = Some 11
  /\ In (30, 11) (application_pairs (db filled_world))
  /\ fst (ApplicationController.applyForJob sue 30 None filled_world)
     = Ok (Next (ApiError 404 "Job not found or not active"))
  /\ http_status (Next (ApiError 404 "Job not found or not active")) = 404
  /\ ~ (forall (user : Principal) (jobId : Z) (coverLetter : option string)
               (w0 : World) (jobSeekerId : Z),
          healthy w0 ->
          profile_of_user (p_id user) (db w0) = Some jobSeekerId ->
          In (jobId, jobSeekerId) (application_pairs (db w0)) ->
          exists msg,
            fst (ApplicationController.applyForJob user jobId coverLetter w0)
            = Ok (Next (ApiError 400 msg))).
Proof.
  split; [reflexivity|]. split; [right; left; reflexivity|].
  split; [reflexivity|]. split; [reflexivity|].
  intros H.
  destruct (H sue 30 None filled_world 11) as [msg Hmsg];
    [intros n; reflexivity|reflexivity|right; left; reflexivity|].
  vm_compute in Hmsg. discriminate.
Qed.

(** ** The status engine: what a successful update returns (C5) *)

Lemma hd_filter_find {A} (p : A -> bool) (l : list A) :
  hd_error (filter p l) = find p l.
Proof.
  induction l as [|x l IH]; simpl; [reflexivity|].
  destruct (p x); [reflexivity|exact IH].
Qed.

Lemma hd_error_map {A B} (f : A -> B) (l : list A) :
  hd_error (map f l) = option_map f (hd_error l).
Proof. destruct l; reflexivity. Qed.

Lemma find_set_status (id : Z) (status : string) (t : Z)
      (apps : list Application) :
  find (fun a => a_id a =? id) (map (JobApplication.set_status id status t) apps)
  = option_map (JobApplication.set_status id status t)
               (find (fun a => a_id a =? id) apps).
Proof.
  induction apps as [|a apps IH]; simpl; [reflexivity|].
  destruct (set_status_fields id status t a) as [Hid _].
  cbv zeta in Hid. rewrite Hid.
  destruct (a_id a =? id); [reflexivity|exact IH].
Qed.

Lemma set_status_of_target (id : Z) (status : string) (t : Z)
      (apps : list Application) (a : Application) :
  find (fun a => a_id a =? id) apps = Some a ->
  JobApplication.set_status id status t a
  = mkApplication (a_id a) (a_job_id a) (a_job_seeker_id a) (a_cover_letter a)
                  status (a_created_at a) t.
Proof.
  intros H. apply find_some in H as [_ H].
  unfold JobApplication.set_status. now rewrite H.
Qed.

Ltac unfold_status_update :=
  unfold ApplicationController.updateApplicationStatus,
    ApplicationController.notifyStatusChange,
    JobApplication.findById, JobApplication.updateStatus,
    Notification.createApplicationStatusNotification, Notification.create,
    handler, successResponse, next, try_catch, bind, ret, query,
    JobApplication.select_by_id, JobApplication.update_status,
    ApplicationController.select_own_job,
    ApplicationController.select_own_profile,
    ApplicationController.select_status_details,
    Notification.insert_notification.

Lemma status_update_reply
      (user : Principal) (id : Z) (status : string) (w : World)
      (c : Z) (m : string) (data : jsval) :
  fst (ApplicationController.updateApplicationStatus user id status w)
  = Ok (Success c m data) ->
  exists a,
    application_with_id id (db w) = Some a
    /\ c = 200
    /\ data = application_row
                (mkApplication (a_id a) (a_job_id a) (a_job_seeker_id a)
                               (a_cover_letter a) status (a_created_at a) (now w)).
Proof.
  unfold application_with_id. unfold_status_update.
  run; intros H; try discriminate.
  all: match goal with
       | Hf : hd_error (map _ (filter _ _)) = Some _ |- _ =>
           rewrite hd_error_map, hd_filter_find in Hf;
           destruct (find (fun a => a_id a =? id) (job_applications (db w)))
             as [a1|] eqn:Hfind; [|discriminate];
           cbn [option_map] in Hf; injection Hf as <-
       end.
  all: match goal with
       | Hu : hd_error (filter _ (map _ _)) = _ |- _ =>
           rewrite hd_filter_find, find_set_status, Hfind in Hu;
           cbn [option_map] in Hu;
           rewrite (set_status_of_target id status (now w) _ a1 Hfind) in Hu
       end.
  all: match goal with
       | Hu : Some _ = Some _ |- _ => injection Hu as <-
       | Hu : Some _ = None |- _ => discriminate
       end.
  all: injection H as <- <- <-.
  all: exists a1; repeat split; reflexivity.
Qed.


(** What the handler of PATCH /api/applications/:id/status can write: the
    status and timestamp of the rows with the given id, and a notification.
    Jobs, users and profiles are never written, and rows of other
    applications are never touched, whatever the new status is. *)
Lemma status_update_tables
      (user : Principal) (id : Z) (status : string) (w : World) :
  let r := fst (ApplicationController.updateApplicationStatus user id status w) in
  let w' := snd (ApplicationController.updateApplicationStatus user id status w) in
  jobs (db w') = jobs (db w)
  /\ users (db w') = users (db w)
  /\ job_seeker_profiles (db w') = job_seeker_profiles (db w)
  /\ employer_profiles (db w') = employer_profiles (db w)
  /\ (job_applications (db w') = job_applications (db w)
      \/ job_applications (db w')
         = map (JobApplication.set_status id status (now w))
               (job_applications (db w)))
  /\ (forall c m data,
         r = Ok (Success c m data) ->
         job_applications (db w')
         = map (JobApplication.set_status id status (now w))
               (job_applications (db w))).
Proof.
  unfold_status_update.
  run.
  all: repeat split; try reflexivity; try (intros; discriminate).
  all: try (left; reflexivity).
  all: right; reflexivity.
Qed.

(** C5, as the code has it.  Every successful call of the status update
    answers 200 with the updated job_applications row alone: the seven
    columns of the stored row, carrying the new status and [NOW()].  The
    row is the one now in storage, and it has no job_title field. *)
Theorem status_update_returns_stored_row
        (user : Principal) (id : Z) (status : string) (w : World)
        (c : Z) (m : string) (data : jsval) :
  fst (ApplicationController.updateApplicationStatus user id status w)
  = Ok (Success c m data) ->
  let w' := snd (ApplicationController.updateApplicationStatus user id status w) in
  exists a,
    application_with_id id (db w) = Some a
    /\ c = 200
    /\ data = application_row
                (mkApplication (a_id a) (a_job_id a) (a_job_seeker_id a)
                               (a_cover_letter a) status (a_created_at a) (now w))
    /\ application_with_id id (db w')
       = Some (mkApplication (a_id a) (a_job_id a) (a_job_seeker_id a)
                             (a_cover_letter a) status (a_created_at a) (now w))
    /\ has_field "job_title" data = false
    /\ get "job_title" data = JUndefined.
Proof.
  intros Hr w'.
  destruct (status_update_reply user id status w c m data Hr)
    as (a & Hfind & Hc & Hdata).
  exists a. split; [exact Hfind|]. split; [exact Hc|]. split; [exact Hdata|].
  split; [|rewrite Hdata; split; reflexivity].
  destruct (status_update_tables user id status w) as (_ & _ & _ & _ & _ & Happs).
  unfold application_with_id in *. subst w'.
  rewrite (Happs c m data Hr), find_set_status, Hfind. cbn [option_map].
  now rewrite (set_status_of_target id status (now w) _ a Hfind).
Qed.

Lemma status_update_returns_stored_row_witness :
  fst (ApplicationController.updateApplicationStatus eve 40 "accepted" demo_world)
  = Ok (Success 200 "Application status updated successfully"
          (application_row (mkApplication 40 30 10 None "accepted" 5 100)))
  /\ exists a,
      application_with_id 40 (db demo_world) = Some a
      /\ application_with_id 40
           (db (snd (ApplicationController.updateApplicationStatus
                       eve 40 "accepted" demo_world)))
         = Some (mkApplication (a_id a) (a_job_id a) (a_job_seeker_id a)
                               (a_cover_letter a) "accepted" (a_created_at a) 100).
Proof.
  assert (Hr : fst (ApplicationController.updateApplicationStatus
                      eve 40 "accepted" demo_world)
               = Ok (Success 200 "Application status updated successfully"
                       (application_row
                          (mkApplication 40 30 10 None "accepted" 5 100))))
    by reflexivity.
  split; [exact Hr|].
  destruct (status_update_returns_stored_row eve 40 "accepted" demo_world
              _ _ _ Hr) as (a & Hfind & _ & _ & Hstored & _).
  exists a. split; [exact Hfind|exact Hstored].
Defined.

(** C5: the claim as worded promises the job title in the returned record.  The
    record returned to an employer who accepts application 40 has none. *)
Lemma status_update_reply_lacks_job_title :
  exists data,
    fst (ApplicationController.updateApplicationStatus eve 40 "accepted" demo_world)
    = Ok (Success 200 "Application status updated successfully" data)
    /\ has_field "job_title" data = false
    /\ get "job_title" data <> JStr "Mover".
Proof.
  eexists. split; [reflexivity|]. split; [reflexivity|]. discriminate.
Qed.

(** ** The cascade on acceptance (C1) *)

Lemma admin_accept_run (id : Z) (w : World) (a : Application) :
  healthy w ->
  application_with_id id (db w) = Some a ->
  let run := AdminApplicationController.updateApplicationStatus id "accepted" w in
  fst run
  = Ok (Success 200 "Application status updated to accepted successfully"
          (JObj [ ("id", JNum (a_id a)); ("job_id", JNum (a_job_id a));
                  ("status", JStr "accepted") ]))
  /\ job_applications (db (snd run))
     = map (AdminApplicationController.reject_sibling (a_job_id a) id (now w))
           (map (JobApplication.set_status id "accepted" (now w))
                (job_applications (db w)))
  /\ jobs (db (snd run))
     = map (AdminApplicationController.set_job_status "filled" (a_job_id a) (now w))
           (jobs (db w)).
Proof.
  intros Hh Hfind run. subst run.
  unfold AdminApplicationController.updateApplicationStatus, handler,
    try_catch, bind.
  cbn [includes existsb AdminApplicationController.validStatuses String.eqb
       Ascii.eqb Bool.eqb orb negb].
  rewrite query_ok by apply Hh.
  unfold application_with_id in Hfind.
  destruct (find_filter_head _ _ _ Hfind) as [rest Hrest].
  unfold AdminApplicationController.select_id_job.
  rewrite (int4_param_stored _ _ (find_in_column a_id _ _ _ Hfind)), Hrest.
  cbn [map].
  rewrite query_ok by apply Hh.
  unfold AdminApplicationController.update_status_returning. wsimpl.
  rewrite query_ok by apply Hh.
  unfold AdminApplicationController.reject_other_pending. wsimpl.
  rewrite query_ok by apply Hh.
  unfold AdminApplicationController.update_job_status. wsimpl.
  cbn [ret successResponse fst snd]. wsimpl.
  split; [|split; reflexivity].
  pose proof (hd_filter_find (fun a => a_id a =? id)
                (map (JobApplication.set_status id "accepted" (now w))
                     (job_applications (db w)))) as Hhd.
  rewrite find_set_status, Hfind in Hhd. cbn [option_map] in Hhd.
  rewrite (set_status_of_target id "accepted" (now w) _ a Hfind) in Hhd.
  destruct (filter _ (map _ _)) as [|b bs]; [discriminate|].
  injection Hhd as ->. reflexivity.
Qed.

(** X7.  On the admin route, accepting an application rejects every other
    pending application of the same job, leaves accepted, rejected and
    withdrawn ones and the applications of other jobs as they were, and
    marks the job filled whatever its status was. *)
Lemma admin_accept_cascades (id : Z) (w : World) (a : Application) :
  healthy w ->
  application_with_id id (db w) = Some a ->
  let w' := snd (AdminApplicationController.updateApplicationStatus
                   id "accepted" w) in
  (forall i b,
      nth_error (job_applications (db w)) i = Some b ->
      exists b',
        nth_error (job_applications (db w')) i = Some b'
        /\ (a_id b = id -> a_status b' = "accepted")
        /\ (a_id b <> id -> a_job_id b = a_job_id a -> a_status b = "pending" ->
            a_status b' = "rejected")
        /\ (a_id b <> id -> a_status b <> "pending" -> b' = b)
        /\ (a_id b <> id -> a_job_id b <> a_job_id a -> b' = b))
  /\ (forall i j,
         nth_error (jobs (db w)) i = Some j ->
         exists j',
           nth_error (jobs (db w')) i = Some j'
           /\ (j_id j = a_job_id a -> j_status j' = "filled")
           /\ (j_id j <> a_job_id a -> j' = j)).
Proof.
  intros Hh Hfind w'.
  destruct (admin_accept_run id w a Hh Hfind) as (_ & Happs & Hjobs).
  fold w' in Happs, Hjobs. rewrite Happs, Hjobs. split.
  - intros i b Hb.
    rewrite !nth_error_map, Hb. cbn [option_map].
    eexists. split; [reflexivity|].
    unfold AdminApplicationController.reject_sibling, JobApplication.set_status.
    repeat split.
    + intros Hid. apply Z.eqb_eq in Hid. rewrite Hid.
      cbn [a_id a_job_id a_status]. rewrite Hid. cbn [negb].
      rewrite andb_false_r. reflexivity.
    + intros Hid Hjob Hst. apply Z.eqb_neq in Hid.
      rewrite !Hid, Hjob, Z.eqb_refl, Hst. reflexivity.
    + intros Hid Hst. apply Z.eqb_neq in Hid.
      apply String.eqb_neq in Hst. rewrite !Hid, Hst, andb_false_r. reflexivity.
    + intros Hid Hjob. apply Z.eqb_neq in Hid. apply Z.eqb_neq in Hjob.
      rewrite !Hid, Hjob. reflexivity.
  - intros i j Hj.
    rewrite nth_error_map, Hj. cbn [option_map].
    eexists. split; [reflexivity|].
    unfold AdminApplicationController.set_job_status. split.
    + intros Hid. rewrite (proj2 (Z.eqb_eq _ _) Hid). reflexivity.
    + intros Hid. rewrite (proj2 (Z.eqb_neq _ _) Hid). reflexivity.
Qed.

Example admin_accept_on_demo :
  let run := AdminApplicationController.route_updateApplicationStatus
               ada 40 "accepted" demo_world in
  http_status (match fst run with Ok r => r | Throw e => Next e end) = 200
  /\ map a_status (job_applications (db (snd run)))
     = ["accepted"; "rejected"; "rejected"; "withdrawn"]
  /\ map j_status (jobs (db (snd run))) = ["filled"].
Proof. vm_compute. repeat split; reflexivity. Qed.

(** C1 at a failing input.  Job 30 is active and has four applications:
    40 and 41 pending, 42 rejected, 43 withdrawn.  The employer who owns the
    job accepts application 40 through PATCH /api/applications/:id/status:
    the answer is 200 and application 40 is accepted, but application 41 is
    still pending and the job is still active.  The same holds when an admin
    uses this route. *)
Theorem accept_on_main_route_does_not_cascade :
  let by_employer :=
    ApplicationController.updateApplicationStatus eve 40 "accepted" demo_world in
  let by_admin :=
    ApplicationController.updateApplicationStatus ada 40 "accepted" demo_world in
  http_status (match fst by_employer with Ok r => r | Throw e => Next e end) = 200
  /\ map a_status (job_applications (db (snd by_employer)))
     = ["accepted"; "pending"; "rejected"; "withdrawn"]
  /\ map j_status (jobs (db (snd by_employer))) = ["active"]
  /\ http_status (match fst by_admin with Ok r => r | Throw e => Next e end) = 200
  /\ map a_status (job_applications (db (snd by_admin)))
     = ["accepted"; "pending"; "rejected"; "withdrawn"]
  /\ map j_status (jobs (db (snd by_admin))) = ["active"].
Proof. vm_compute. repeat split; reflexivity. Qed.

(** X26.  On that route this is so for every call: the jobs table is never
    written and an application with another id is never modified. *)
Lemma main_route_never_cascades
      (user : Principal) (id : Z) (status : string) (w : World) :
  let w' := snd (ApplicationController.updateApplicationStatus user id status w) in
  jobs (db w') = jobs (db w)
  /\ forall i b,
      nth_error (job_applications (db w)) i = Some b ->
      a_id b <> id ->
      nth_error (job_applications (db w')) i = Some b.
Proof.
  intros w'.
  destruct (status_update_tables user id status w)
    as (Hjobs & _ & _ & _ & Happs & _).
  fold w' in Hjobs, Happs. split; [exact Hjobs|].
  intros i b Hb Hid.
  destruct Happs as [E|E]; rewrite E; [exact Hb|].
  rewrite nth_error_map, Hb. cbn [option_map].
  now rewrite set_status_other.
Qed.

(** ** Notification failures (C2) *)

(** X27.  The status update contains them: when the round trips before the
    notification block succeed, the reply and the stored applications are
    those of a run in which storage never fails, whatever happens while the
    notification is read up and written. *)
Lemma status_update_contains_notification_failure
      (user : Principal) (id : Z) (status : string) (w : World) :
  storage_fault w (nq w) = None ->
  storage_fault w (S (nq w)) = None ->
  (p_role user = "employer" \/ p_role user = "job_seeker" ->
   storage_fault w (S (S (nq w))) = None) ->
  fst (ApplicationController.updateApplicationStatus user id status w)
  = fst (ApplicationController.updateApplicationStatus user id status (heal w))
  /\ job_applications
       (db (snd (ApplicationController.updateApplicationStatus user id status w)))
     = job_applications
         (db (snd (ApplicationController.updateApplicationStatus
                     user id status (heal w)))).
Proof.
  intros F0 F1 F2. unfold heal. unfold_status_update.
  run.
  all: try (split; reflexivity).
  all: try congruence.
  all: exfalso.
  all: match goal with
       | E : String.eqb (p_role _) _ = true |- _ =>
           apply String.eqb_eq in E;
           first [ specialize (F2 (or_introl E)) | specialize (F2 (or_intror E)) ];
           congruence
       end.
Qed.

Example status_update_survives_failed_notification :
  let w := mkWorld (demo_db "active") None 100 0
                   (fun n => if Nat.leb 3 n then Some "08006" else None) in
  let run := ApplicationController.updateApplicationStatus eve 40 "accepted" w in
  fst run
  = Ok (Success 200 "Application status updated successfully"
          (application_row (mkApplication 40 30 10 None "accepted" 5 100)))
  /\ notifications (db (snd run)) = demo_notifications.
Proof. vm_compute. split; reflexivity. Qed.

(** C2 at a failing input.  Sue applies for job 30, which has no
    applications yet, and the insert of the employer's notification fails.
    [applyForJob] has no failure containment around that call: the error
    reaches [next] and the request is answered 500, although the
    application row has been stored.  With healthy storage the same request
    is answered 201. *)
Theorem applyForJob_propagates_notification_failure :
  let run := ApplicationController.applyForJob sue 30 None
               notification_insert_fails in
  let clean := ApplicationController.applyForJob sue 30 None
                 (heal notification_insert_fails) in
  fst run = Ok (Next (PgError "08006"))
  /\ http_status (Next (PgError "08006")) = 500
  /\ job_applications (db (snd run))
     = [mkApplication 1 30 11 None "pending" 100 100]
  /\ notifications (db (snd run)) = demo_notifications
  /\ http_status (match fst clean with Ok r => r | Throw e => Next e end) = 201
  /\ job_applications (db (snd clean))
     = [mkApplication 1 30 11 None "pending" 100 100].
Proof. vm_compute. repeat split; reflexivity. Qed.

(** * Further properties of the handlers *)

(** ** Notifications: single rows *)

Lemma notification_findById_ok (id : Z) (w : World) :
  healthy w ->
  Notification.findById id w
  = match find (fun n => n_id n =? id) (notifications (db w)) with
    | Some n => (Ok (Some n), set_db (db w) (tick w))
    | None => if int4 id then (Ok None, set_db (db w) (tick w))
              else (Throw (PgError "22003"), tick w)
    end.
Proof.
  intros Hh. unfold Notification.findById, bind.
  rewrite query_ok by apply Hh.
  unfold Notification.select_by_id.
  destruct (find _ (notifications (db w))) as [n|] eqn:Hfind.
  - rewrite (int4_param_stored _ _ (find_in_column n_id _ _ _ Hfind)).
    cbn [ret]. now rewrite hd_filter_find, Hfind.
  - rewrite (int4_param_absent _ _ (find_none_column n_id _ _ Hfind)).
    destruct (int4 id); [|reflexivity].
    cbn [ret]. now rewrite hd_filter_find, Hfind.
Qed.

Lemma find_mark_read (id : Z) (l : list NotificationRow) :
  find (fun n => n_id n =? id)
       (map (fun n => if n_id n =? id then Notification.mark_read n else n) l)
  = option_map Notification.mark_read (find (fun n => n_id n =? id) l).
Proof.
  induction l as [|m l IH]; simpl; [reflexivity|].
  destruct (n_id m =? id) eqn:E; simpl; rewrite E; [reflexivity|exact IH].
Qed.

(** X1.  Marking a notification as read is open to its owner only.  An id
    that no notification has is answered 404 when it is within the range of
    the INTEGER column and with the error of PostgreSQL (22003, answered
    500) when it is not; a notification of another user is answered 403;
    none of these writes.  For the owner the reply carries the row with
    [is_read] set, every row with that id is marked, every other row stays
    as it was and no other table is written. *)
Theorem markAsRead_owner_only (user : Principal) (id : Z) (w : World) :
  healthy w ->
  let r := fst (NotificationController.markAsRead user id w) in
  let w' := snd (NotificationController.markAsRead user id w) in
  match find (fun n => n_id n =? id) (notifications (db w)) with
  | None =>
      r = Ok (Next (if int4 id then ApiError 404 "Notification not found"
                    else PgError "22003"))
      /\ db w' = db w
  | Some n =>
      if n_user_id n =? p_id user
      then
        r = Ok (Success 200 "Notification marked as read"
                  (notification_row (Notification.mark_read n)))
        /\ (forall i m,
               nth_error (notifications (db w)) i = Some m ->
               exists m',
                 nth_error (notifications (db w')) i = Some m'
                 /\ (n_id m = id -> m' = Notification.mark_read m)
                 /\ (n_id m <> id -> m' = m))
        /\ with_notifications (notifications (db w)) (db w') = db w
      else
        r = Ok (Next (ApiError 403 "Not authorized to access this notification"))
        /\ db w' = db w
  end.
Proof.
  intros Hh r w'. subst r w'.
  unfold NotificationController.markAsRead, handler, try_catch, bind.
  rewrite notification_findById_ok by exact Hh.
  destruct (find _ (notifications (db w))) as [n|] eqn:Hfind.
  - destruct (n_user_id n =? p_id user) eqn:Eown; cbn [negb].
    + unfold Notification.markAsRead, bind.
      rewrite query_ok by apply Hh.
      cbn [Notification.update_read ret].
      rewrite hd_filter_find. wsimpl.
      rewrite find_mark_read, Hfind. cbn [option_map successResponse ret fst snd].
      wsimpl. split; [reflexivity|]. split.
      * intros i m Hm. rewrite nth_error_map, Hm. cbn [option_map].
        eexists. split; [reflexivity|]. split; intros Hid.
        -- now rewrite (proj2 (Z.eqb_eq _ _) Hid).
        -- now rewrite (proj2 (Z.eqb_neq _ _) Hid).
      * destruct (db w); reflexivity.
    + cbn. split; reflexivity.
  - destruct (int4 id); cbn; split; reflexivity.
Qed.

Lemma markAsRead_owner_only_witness :
  healthy demo_world
  /\ fst (NotificationController.markAsRead sue 1 demo_world)
     = Ok (Next (ApiError 403 "Not authorized to access this notification"))
  /\ db (snd (NotificationController.markAsRead sue 1 demo_world)) = db demo_world
  /\ fst (NotificationController.markAsRead sam 99 demo_world)
     = Ok (Next (ApiError 404 "Notification not found"))
  /\ fst (NotificationController.markAsRead sam 2147483648 demo_world)
     = Ok (Next (PgError "22003"))
  /\ fst (NotificationController.markAsRead sam 1 demo_world)
     = Ok (Success 200 "Notification marked as read"
             (notification_row
                (mkNotification 1 2 "t1" "m1" true "application_status"
                                (Some 40) 1))).
Proof.
  assert (Hh : healthy demo_world) by (intros n; reflexivity).
  split; [exact Hh|].
  pose proof (markAsRead_owner_only sue 1 demo_world Hh) as [H1 H2].
  pose proof (markAsRead_owner_only sam 99 demo_world Hh) as [H3 _].
  pose proof (markAsRead_owner_only sam 2147483648 demo_world Hh) as [H4 _].
  pose proof (markAsRead_owner_only sam 1 demo_world Hh) as [H5 _].
  split; [exact H1|]. split; [exact H2|]. split; [exact H3|].
  split; [exact H4|exact H5].
Defined.

(** X2.  Deleting a notification is open to its owner only.  An id that no
    notification has is answered 404 when it is within the range of the
    INTEGER column and with the error of PostgreSQL (22003, answered 500)
    when it is not; a notification of another user is answered 403; none of
    these writes.  For the owner exactly the rows with that id disappear,
    in place, and no other table is written. *)
Theorem deleteNotification_owner_only (user : Principal) (id : Z) (w : World) :
  healthy w ->
  let r := fst (NotificationController.deleteNotification user id w) in
  let w' := snd (NotificationController.deleteNotification user id w) in
  match find (fun n => n_id n =? id) (notifications (db w)) with
  | None =>
      r = Ok (Next (if int4 id then ApiError 404 "Notification not found"
                    else PgError "22003"))
      /\ db w' = db w
  | Some n =>
      if n_user_id n =? p_id user
      then
        r = Ok (Success 200 "Notification deleted successfully" JNull)
        /\ (forall m, In m (notifications (db w'))
                      <-> In m (notifications (db w)) /\ n_id m <> id)
        /\ find (fun n => n_id n =? id) (notifications (db w')) = None
        /\ with_notifications (notifications (db w)) (db w') = db w
      else
        r = Ok (Next (ApiError 403 "Not authorized to delete this notification"))
        /\ db w' = db w
  end.
Proof.
  intros Hh r w'. subst r w'.
  unfold NotificationController.deleteNotification, handler, try_catch, bind.
  rewrite notification_findById_ok by exact Hh.
  destruct (find _ (notifications (db w))) as [n|] eqn:Hfind.
  - destruct (n_user_id n =? p_id user) eqn:Eown; cbn [negb].
    + unfold Notification.delete, bind.
      rewrite query_ok by apply Hh.
      cbn [Notification.delete_by_id ret successResponse fst snd]. wsimpl.
      split; [reflexivity|]. split; [|split].
      * intros m. rewrite filter_In. split.
        -- intros [Hin Hne]. split; [exact Hin|].
           apply negb_true_iff in Hne. now apply Z.eqb_neq.
        -- intros [Hin Hne]. split; [exact Hin|].
           apply negb_true_iff. now apply Z.eqb_neq.
      * destruct (find _ (filter _ _)) as [m|] eqn:Hm; [|reflexivity].
        apply find_some in Hm as [Hin Hid].
        apply filter_In in Hin as [_ Hne].
        rewrite Hid in Hne. discriminate.
      * destruct (db w); reflexivity.
    + cbn. split; reflexivity.
  - destruct (int4 id); cbn; split; reflexivity.
Qed.

Lemma deleteNotification_owner_only_witness :
  healthy demo_world
  /\ fst (NotificationController.deleteNotification sam 3 demo_world)
     = Ok (Next (ApiError 403 "Not authorized to delete this notification"))
  /\ db (snd (NotificationController.deleteNotification sam 3 demo_world))
     = db demo_world
  /\ fst (NotificationController.deleteNotification sam 1 demo_world)
     = Ok (Success 200 "Notification deleted successfully" JNull)
  /\ fst (NotificationController.deleteNotification sam 99 demo_world)
     = Ok (Next (ApiError 404 "Notification not found"))
  /\ fst (NotificationController.deleteNotification sam (-2147483649) demo_world)
     = Ok (Next (PgError "22003")).
Proof.
  assert (Hh : healthy demo_world) by (intros n; reflexivity).
  split; [exact Hh|].
  pose proof (deleteNotification_owner_only sam 3 demo_world Hh) as [H1 H2].
  pose proof (deleteNotification_owner_only sam 1 demo_world Hh) as [H3 _].
  pose proof (deleteNotification_owner_only sam 99 demo_world Hh) as [H4 _].
  pose proof (deleteNotification_owner_only sam (-2147483649) demo_world Hh)
    as [H5 _].
  split; [exact H1|]. split; [exact H2|]. split; [exact H3|].
  split; [exact H4|exact H5].
Defined.

(** ** Notifications: the unread count *)

Lemma map_mark_absent (id : Z) (l : list NotificationRow) :
  ~ In id (map n_id l) ->
  map (fun n => if n_id n =? id then Notification.mark_read n else n) l = l.
Proof.
  induction l as [|m l IH]; simpl; [reflexivity|].
  intros Hnot.
  destruct (Z.eqb_spec (n_id m) id) as [E|E]; [exfalso; auto|].
  rewrite IH; auto.
Qed.

Lemma find_absent (id : Z) (l : list NotificationRow) :
  ~ In id (map n_id l) -> find (fun n => n_id n =? id) l = None.
Proof.
  induction l as [|m l IH]; simpl; [reflexivity|].
  intros Hnot.
  destruct (Z.eqb_spec (n_id m) id) as [E|E]; [exfalso; auto|].
  apply IH. auto.
Qed.

Lemma unread_after_mark_one (userId id : Z) (l : list NotificationRow) :
  NoDup (map n_id l) ->
  Nat.add
    (List.length
       (filter (Notification.unread_of userId)
               (map (fun n => if n_id n =? id then Notification.mark_read n else n) l)))
    (match find (fun n => n_id n =? id) l with
     | Some n => if Notification.unread_of userId n then 1%nat else 0%nat
     | None => 0%nat
     end)
  = List.length (filter (Notification.unread_of userId) l).
Proof.
  induction l as [|m l IH]; simpl; [reflexivity|].
  intros Hnd. inversion Hnd as [|x xs Hnot Hnd']; subst.
  destruct (Z.eqb_spec (n_id m) id) as [E|E].
  - subst id. rewrite (map_mark_absent _ _ Hnot).
    assert (Hread : Notification.unread_of userId (Notification.mark_read m) = false).
    { unfold Notification.unread_of. simpl. apply andb_false_r. }
    rewrite Hread.
    destruct (Notification.unread_of userId m); simpl; lia.
  - specialize (IH Hnd').
    destruct (Notification.unread_of userId m); simpl; lia.
Qed.

(** X3.  With unique notification ids, marking one's own notification as read
    lowers one's unread count by exactly one if it was unread and leaves it
    unchanged if it was already read. *)
Theorem markAsRead_lowers_unread_count
        (user : Principal) (id : Z) (w : World) (n : NotificationRow) :
  healthy w ->
  NoDup (map n_id (notifications (db w))) ->
  find (fun n => n_id n =? id) (notifications (db w)) = Some n ->
  n_user_id n = p_id user ->
  exists before,
    fst (Notification.getUnreadCount (p_id user) w) = Ok before
    /\ fst (Notification.getUnreadCount (p_id user)
              (snd (NotificationController.markAsRead user id w)))
       = Ok (before - (if n_is_read n then 0 else 1)).
Proof.
  intros Hh Hnd Hfind Hown.
  unfold Notification.getUnreadCount.
  rewrite query_ok by apply Hh.
  cbn [Notification.count_unread fst]. eexists. split; [reflexivity|].
  assert (E : snd (NotificationController.markAsRead user id w)
              = set_db (with_notifications
                          (map (fun n => if n_id n =? id
                                         then Notification.mark_read n else n)
                               (notifications (db w))) (db w))
                       (tick (tick w))).
  { unfold NotificationController.markAsRead, handler, try_catch, bind.
    rewrite notification_findById_ok by exact Hh.
    rewrite Hfind, Hown, Z.eqb_refl. cbn [negb].
    unfold Notification.markAsRead, bind.
    rewrite query_ok by apply Hh. reflexivity. }
  rewrite E.
  rewrite query_ok by apply Hh.
  cbn [Notification.count_unread fst]. wsimpl.
  pose proof (unread_after_mark_one (p_id user) id _ Hnd) as Hcount.
  rewrite Hfind in Hcount.
  unfold Notification.unread_of at 2 in Hcount.
  rewrite Hown, Z.eqb_refl in Hcount. cbn [andb] in Hcount.
  f_equal. destruct (n_is_read n); cbn [negb] in Hcount; lia.
Qed.

Lemma markAsRead_lowers_unread_count_witness :
  healthy demo_world
  /\ NoDup (map n_id (notifications (db demo_world)))
  /\ fst (Notification.getUnreadCount 2 demo_world) = Ok 3
  /\ fst (Notification.getUnreadCount 2
            (snd (NotificationController.markAsRead sam 4 demo_world)))
     = Ok 2.
Proof.
  assert (Hh : healthy demo_world) by (intros n; reflexivity).
  assert (Hnd : NoDup (map n_id (notifications (db demo_world)))).
  { repeat constructor; simpl; intuition discriminate. }
  split; [exact Hh|]. split; [exact Hnd|].
  destruct (markAsRead_lowers_unread_count sam 4 demo_world
              (mkNotification 4 2 "t4" "m4" false "new_review" None 4)
              Hh Hnd eq_refl eq_refl) as [before [Hb Ha]].
  assert (E : before = 3) by (vm_compute in Hb; congruence).
  subst before. split; [exact Hb|exact Ha].
Defined.

Lemma map_mark_all_no_unread (userId : Z) (l : list NotificationRow) :
  filter (Notification.unread_of userId) l = [] ->
  map (fun n => if Notification.unread_of userId n
                then Notification.mark_read n else n) l = l.
Proof.
  induction l as [|m l IH]; simpl; [reflexivity|].
  destruct (Notification.unread_of userId m); [discriminate|].
  intros H. now rewrite IH.
Qed.

(** X4.  Mark-all-as-read is idempotent: called again right away it returns no
    ids and leaves the notifications exactly as the first call left them. *)
Theorem markAllAsRead_twice (userId : Z) (w : World) :
  healthy w ->
  exists ids w1 w2,
    Notification.markAllAsRead userId w = (Ok ids, w1)
    /\ Notification.markAllAsRead userId w1 = (Ok [], w2)
    /\ db w2 = db w1.
Proof.
  intros Hh.
  unfold Notification.markAllAsRead, bind.
  rewrite query_ok by apply Hh.
  cbn [Notification.update_all_read ret].
  do 3 eexists. split; [reflexivity|].
  rewrite query_ok by apply Hh.
  cbn [Notification.update_all_read ret]. wsimpl.
  rewrite unread_after_update_all.
  rewrite (map_mark_all_no_unread userId _ (unread_after_update_all userId _)).
  cbn [map]. split; [reflexivity|]. wsimpl. destruct (db w); reflexivity.
Qed.

Lemma markAllAsRead_twice_witness :
  healthy demo_world
  /\ exists ids w1 w2,
      Notification.markAllAsRead 2 demo_world = (Ok ids, w1)
      /\ Notification.markAllAsRead 2 w1 = (Ok [], w2)
      /\ db w2 = db w1.
Proof.
  assert (Hh : healthy demo_world) by (intros n; reflexivity).
  split; [exact Hh|]. exact (markAllAsRead_twice 2 demo_world Hh).
Defined.

(** ** Notifications: listing a page *)

Lemma insert_newest_perm (n : NotificationRow) (l : list NotificationRow) :
  Permutation (Notification.insert_newest n l) (n :: l).
Proof.
  induction l as [|m l IH]; simpl; [apply Permutation_refl|].
  destruct (n_created_at m <? n_created_at n); [apply Permutation_refl|].
  eapply Permutation_trans; [apply perm_skip; exact IH|apply perm_swap].
Qed.

Lemma newest_first_perm (l : list NotificationRow) :
  Permutation (Notification.newest_first l) l.
Proof.
  induction l as [|m l IH]; simpl; [constructor|].
  eapply Permutation_trans; [apply insert_newest_perm|].
  now apply perm_skip.
Qed.

Lemma insert_newest_sorted (n : NotificationRow) (l : list NotificationRow) :
  StronglySorted (fun a b => n_created_at b <= n_created_at a) l ->
  StronglySorted (fun a b => n_created_at b <= n_created_at a)
                 (Notification.insert_newest n l).
Proof.
  induction l as [|m l IH]; simpl; intros Hs.
  - repeat constructor.
  - inversion Hs as [|x xs Hs' Hall]; subst.
    destruct (Z.ltb_spec (n_created_at m) (n_created_at n)) as [Hlt|Hge].
    + constructor; [exact Hs|].
      constructor; [lia|].
      eapply Forall_impl; [|exact Hall]. cbn. intros; lia.
    + constructor; [now apply IH|].
      eapply Permutation_Forall;
        [apply Permutation_sym, insert_newest_perm|].
      constructor; [lia|exact Hall].
Qed.

Lemma newest_first_sorted (l : list NotificationRow) :
  StronglySorted (fun a b => n_created_at b <= n_created_at a)
                 (Notification.newest_first l).
Proof.
  induction l as [|m l IH]; simpl; [constructor|].
  now apply insert_newest_sorted.
Qed.

Lemma in_firstn {A} (k : nat) (l : list A) (x : A) :
  In x (firstn k l) -> In x l.
Proof.
  revert l. induction k as [|k IH]; intros [|y l]; simpl; try tauto.
  intros [H|H]; [now left|right; now apply IH].
Qed.

Lemma in_skipn {A} (k : nat) (l : list A) (x : A) :
  In x (skipn k l) -> In x l.
Proof.
  revert l. induction k as [|k IH]; intros [|y l]; simpl; try tauto.
  intros H. right. now apply IH.
Qed.

Lemma sorted_skipn {A} (R : A -> A -> Prop) (k : nat) (l : list A) :
  StronglySorted R l -> StronglySorted R (skipn k l).
Proof.
  revert l. induction k as [|k IH]; intros [|y l] Hs; simpl; try exact Hs.
  inversion Hs; subst. now apply IH.
Qed.

Lemma sorted_firstn {A} (R : A -> A -> Prop) (k : nat) (l : list A) :
  StronglySorted R l -> StronglySorted R (firstn k l).
Proof.
  revert l. induction k as [|k IH]; intros [|y l] Hs; simpl; try constructor.
  - inversion Hs; subst. now apply IH.
  - inversion Hs as [|x xs Hs' Hall]; subst.
    rewrite Forall_forall in *. intros z Hz. apply Hall.
    now apply in_firstn in Hz.
Qed.

Lemma ceil_ratio_bounds (total limit : Z) :
  0 < limit ->
  exists p, ceil_ratio total limit = Some p
            /\ (p - 1) * limit < total <= p * limit.
Proof.
  intros Hl. unfold ceil_ratio.
  destruct (Z.eqb_spec limit 0) as [E|_]; [lia|].
  eexists. split; [reflexivity|].
  pose proof (Z.div_mod (- total) limit ltac:(lia)) as Hdm.
  pose proof (Z.mod_pos_bound (- total) limit Hl) as Hb.
  nia.
Qed.

Lemma int8_refused_safe (v : Z) :
  Z.abs v <= MAX_SAFE_INTEGER -> int8_refused v = None.
Proof.
  unfold MAX_SAFE_INTEGER, int8_refused. intros H.
  destruct (Z.leb_spec 1000000000000000000000 (Z.abs v)); [lia|].
  destruct (Z.ltb_spec v (-9223372036854775808)); [lia|].
  destruct (Z.ltb_spec 9223372036854775807 v); [lia|].
  reflexivity.
Qed.

Lemma int8_refused_500 (v : Z) (sqlstate : string) :
  int8_refused v = Some sqlstate ->
  In sqlstate ["22P02"; "22003"; "2201X"; "2201W"]
  /\ errorHandler (PgError sqlstate) = 500.
Proof.
  unfold int8_refused.
  destruct (_ <=? _); [intros H; injection H as <-; cbn; auto|].
  destruct (_ || _)%bool; [intros H; injection H as <-; cbn; auto|discriminate].
Qed.

Lemma findByUser_run
        (userId : Z) (onlyUnread : bool) (page limit : Z) (w : World) :
  healthy w ->
  1 <= page ->
  0 <= limit ->
  page * limit <= MAX_SAFE_INTEGER ->
  exists w',
    Notification.findByUser userId onlyUnread page limit w
    = (Ok (firstn (Z.to_nat limit)
             (skipn (Z.to_nat ((page - 1) * limit))
                (Notification.newest_first
                   (filter (Notification.listed userId onlyUnread)
                           (notifications (db w))))),
           mkPagination
             (Z.of_nat (List.length (filter (Notification.listed userId onlyUnread)
                                            (notifications (db w)))))
             page limit
             (ceil_ratio
                (Z.of_nat (List.length (filter (Notification.listed userId onlyUnread)
                                               (notifications (db w)))))
                limit)),
       w')
    /\ db w' = db w.
Proof.
  intros Hh Hpage Hlimit Hsafe.
  unfold Notification.findByUser, bind.
  rewrite query_ok by apply Hh.
  unfold Notification.select_page.
  rewrite (int8_refused_safe limit) by nia.
  rewrite (int8_refused_safe ((page - 1) * limit)) by nia.
  destruct (Z.ltb_spec ((page - 1) * limit) 0) as [Hneg|_]; [nia|].
  destruct (Z.ltb_spec limit 0) as [Hneg|_]; [lia|].
  rewrite query_ok by apply Hh.
  cbn [Notification.count_listed ret]. wsimpl.
  eexists. split; [reflexivity|]. wsimpl.
  destruct (db w); reflexivity.
Qed.

(** X5.  A page of a user's notifications.  For a page number of at least
    1 and a limit of at least 0 whose product is a safe integer, the call
    succeeds without writing; it returns at most [limit] rows, each a
    stored notification of that user (unread, when only unread ones were
    asked for), newest first; [total] counts all the rows that qualify,
    [pages] is the least number of pages of [limit] rows that hold them,
    and the first page holds all of them when they fit.  The rows are those
    that follow the first [(page - 1) * limit] in a newest-first ordering
    of all the rows that qualify. *)
Theorem findByUser_page
        (userId : Z) (onlyUnread : bool) (page limit : Z) (w : World) :
  healthy w ->
  1 <= page ->
  0 <= limit ->
  page * limit <= MAX_SAFE_INTEGER ->
  exists rows meta w',
    Notification.findByUser userId onlyUnread page limit w = (Ok (rows, meta), w')
    /\ db w' = db w
    /\ (List.length rows <= Z.to_nat limit)%nat
    /\ (forall n, In n rows ->
          In n (notifications (db w))
          /\ n_user_id n = userId
          /\ (onlyUnread = true -> n_is_read n = false))
    /\ StronglySorted (fun a b => n_created_at b <= n_created_at a) rows
    /\ pg_total meta
       = Z.of_nat (List.length (filter (Notification.listed userId onlyUnread)
                                       (notifications (db w))))
    /\ pg_page meta = page
    /\ pg_limit meta = limit
    /\ (0 < limit ->
        exists p, pg_pages meta = Some p
                  /\ (p - 1) * limit < pg_total meta <= p * limit)
    /\ (page = 1 -> pg_total meta <= limit ->
        Permutation rows (filter (Notification.listed userId onlyUnread)
                                 (notifications (db w))))
    /\ (exists ordered,
          Permutation ordered (filter (Notification.listed userId onlyUnread)
                                      (notifications (db w)))
          /\ StronglySorted (fun a b => n_created_at b <= n_created_at a) ordered
          /\ rows = firstn (Z.to_nat limit)
                           (skipn (Z.to_nat ((page - 1) * limit)) ordered)).
Proof.
  intros Hh Hpage Hlimit Hsafe.
  destruct (findByUser_run userId onlyUnread page limit w Hh Hpage Hlimit Hsafe)
    as (w' & Hrun & Hdb).
  do 3 eexists. split; [exact Hrun|].
  split; [exact Hdb|].
  split; [apply firstn_le_length|].
  split.
  { intros n Hn. apply in_firstn, in_skipn in Hn.
    apply (Permutation_in _ (newest_first_perm _)) in Hn.
    apply filter_In in Hn as [Hin Hl]. split; [exact Hin|].
    unfold Notification.listed in Hl. apply andb_true_iff in Hl as [Hu Hr].
    split; [now apply Z.eqb_eq|].
    intros ->. now apply negb_true_iff in Hr. }
  split; [apply sorted_firstn, sorted_skipn, newest_first_sorted|].
  cbn [pg_total pg_page pg_limit pg_pages].
  split; [reflexivity|]. split; [reflexivity|]. split; [reflexivity|].
  split; [intros Hl; now apply ceil_ratio_bounds|].
  split.
  { intros -> Hfit. cbn [Z.sub Z.mul Z.to_nat skipn].
    replace ((1 - 1) * limit) with 0 by lia. cbn [Z.to_nat skipn].
    rewrite firstn_all2;
      [apply newest_first_perm|].
    rewrite (Permutation_length (newest_first_perm _)). lia. }
  eexists. split; [apply newest_first_perm|].
  split; [apply newest_first_sorted|reflexivity].
Qed.

Lemma findByUser_page_witness :
  healthy demo_world
  /\ 1 <= 1
  /\ 0 <= 2
  /\ 1 * 2 <= MAX_SAFE_INTEGER
  /\ exists w',
      Notification.findByUser 2 false 1 2 demo_world
      = (Ok ([ mkNotification 5 2 "t5" "m5" false "application_status" (Some 40) 5;
               mkNotification 4 2 "t4" "m4" false "new_review" None 4 ],
             mkPagination 4 1 2 (Some 2)),
         w').
Proof.
  assert (Hh : healthy demo_world) by (intros n; reflexivity).
  split; [exact Hh|]. split; [lia|]. split; [lia|].
  split; [unfold MAX_SAFE_INTEGER; lia|].
  destruct (findByUser_page 2 false 1 2 demo_world Hh ltac:(lia) ltac:(lia)
              ltac:(unfold MAX_SAFE_INTEGER; lia))
    as (rows & meta & w' & Hrun & _).
  exists w'. rewrite Hrun. vm_compute in Hrun.
  injection Hrun as <- <- _. reflexivity.
Defined.

(** X6.  The handler of GET /api/notifications replaces a missing,
    unparsable or zero page by 1 and such a limit by 10, so the limit it
    uses is never zero.  For a positive page and limit whose product is a
    safe integer it answers 200 with at most [limit] rows and a number of
    pages.  Neither number is checked before it is bound: a negative one
    reaches PostgreSQL, and so does a limit of 10^21 or more, which the
    driver sends in exponent notation (22P02); the error is passed on and
    answered 500. *)
Theorem getUserNotifications_defaults
        (user : Principal) (unread : option string) (page limit : option Z)
        (w : World) :
  healthy w ->
  let p := or_default page 1 in
  let l := or_default limit 10 in
  let r := fst (NotificationController.getUserNotifications user unread page limit w) in
  l <> 0
  /\ p <> 0
  /\ (l < 0 \/ p < 0 ->
      exists sqlstate,
        r = Ok (PageNext (PgError sqlstate))
        /\ In sqlstate ["22P02"; "22003"; "2201X"; "2201W"]
        /\ errorHandler (PgError sqlstate) = 500)
  /\ (1000000000000000000000 <= l ->
      r = Ok (PageNext (PgError "22P02"))
      /\ errorHandler (PgError "22P02") = 500)
  /\ (0 < l -> 0 < p -> p * l <= MAX_SAFE_INTEGER ->
      exists rows meta,
        r = Ok (PageSuccess 200 "Notifications retrieved successfully"
                  (map notification_row rows) meta)
        /\ (List.length rows <= Z.to_nat l)%nat
        /\ pg_page meta = p
        /\ pg_limit meta = l
        /\ exists pages, pg_pages meta = Some pages).
Proof.
  intros Hh p l r.
  assert (Hl : l <> 0).
  { subst l. unfold or_default. destruct limit as [n|]; [|lia].
    destruct (Z.eqb_spec n 0); lia. }
  assert (Hp : p <> 0).
  { subst p. unfold or_default. destruct page as [n|]; [|lia].
    destruct (Z.eqb_spec n 0); lia. }
  split; [exact Hl|]. split; [exact Hp|].
  subst r. unfold NotificationController.getUserNotifications, try_catch, bind.
  fold p l.
  split; [|split].
  - intros Hneg. unfold Notification.findByUser, bind.
    rewrite query_ok by apply Hh.
    unfold Notification.select_page.
    destruct (int8_refused l) as [st|] eqn:Hrl.
    { exists st. split; [reflexivity|]. exact (int8_refused_500 _ _ Hrl). }
    destruct (int8_refused ((p - 1) * l)) as [st|] eqn:Hro.
    { exists st. split; [reflexivity|]. exact (int8_refused_500 _ _ Hro). }
    destruct (Z.ltb_spec ((p - 1) * l) 0) as [_|Hoff].
    + exists "2201X". cbn. auto 10.
    + destruct (Z.ltb_spec l 0) as [_|Hge].
      * exists "2201W". cbn. auto 10.
      * exfalso. destruct Hneg as [Hneg|Hneg]; nia.
  - intros Hbig. unfold Notification.findByUser, bind.
    rewrite query_ok by apply Hh.
    unfold Notification.select_page, int8_refused.
    destruct (Z.leb_spec 1000000000000000000000 (Z.abs l)); [|lia].
    split; reflexivity.
  - intros Hlpos Hppos Hsafe.
    destruct (findByUser_run (p_id user)
                (match unread with Some s => String.eqb s "true" | None => false end)
                p l w Hh ltac:(lia) ltac:(lia) Hsafe)
      as (w' & Hrun & _).
    rewrite Hrun. cbn [ret fst snd].
    do 2 eexists. split; [reflexivity|]. split; [apply firstn_le_length|].
    split; [reflexivity|]. split; [reflexivity|].
    cbn [pg_pages].
    destruct (ceil_ratio_bounds
                (Z.of_nat (List.length
                   (filter (Notification.listed (p_id user)
                              (match unread with
                               | Some s => String.eqb s "true"
                               | None => false
                               end))
                           (notifications (db w))))) l Hlpos)
      as [pages [Hpages' _]].
    now exists pages.
Qed.

Lemma getUserNotifications_defaults_witness :
  healthy demo_world
  /\ fst (NotificationController.getUserNotifications
            sam None (Some (-1)) None demo_world)
     = Ok (PageNext (PgError "2201X"))
  /\ fst (NotificationController.getUserNotifications
            sam None None (Some 1000000000000000000000) demo_world)
     = Ok (PageNext (PgError "22P02"))
  /\ or_default (Some 0) 1 = 1.
Proof.
  assert (Hh : healthy demo_world) by (intros n; reflexivity).
  split; [exact Hh|].
  destruct (getUserNotifications_defaults sam None (Some (-1)) None demo_world Hh)
    as (_ & _ & Hneg & _).
  destruct (getUserNotifications_defaults sam None None
              (Some 1000000000000000000000) demo_world Hh)
    as (_ & _ & _ & Hbig & _).
  split; [|split; [|reflexivity]].
  - destruct Hneg as (st & Hr & _ & _); [right; reflexivity|].
    rewrite Hr. vm_compute in Hr. injection Hr as <-. reflexivity.
  - apply Hbig. cbn. lia.
Defined.

(** ** The admin route: status updates *)

Lemma admin_accept_cascades_witness :
  healthy demo_world
  /\ application_with_id 40 (db demo_world)
     = Some (mkApplication 40 30 10 None "pending" 5 5)
  /\ exists b',
      nth_error (job_applications
                   (db (snd (AdminApplicationController.updateApplicationStatus
                               40 "accepted" demo_world)))) 1 = Some b'
      /\ a_status b' = "rejected".
Proof.
  assert (Hh : healthy demo_world) by (intros n; reflexivity).
  split; [exact Hh|]. split; [reflexivity|].
  destruct (admin_accept_cascades 40 demo_world _ Hh eq_refl) as [Happs _].
  destruct (Happs 1%nat (mkApplication 41 30 11 (Some "hi") "pending" 6 6) eq_refl)
    as (b' & Hb' & _ & Hrej & _).
  exists b'. split; [exact Hb'|].
  apply Hrej; [discriminate|reflexivity|reflexivity].
Defined.

(** X8.  After an admin has accepted an application, no application of that job
    is pending any more: the accepted one is accepted and every other one
    that was pending has been rejected. *)
Theorem admin_accept_leaves_no_pending (id : Z) (w : World) (a : Application) :
  healthy w ->
  application_with_id id (db w) = Some a ->
  let w' := snd (AdminApplicationController.updateApplicationStatus
                   id "accepted" w) in
  forall b,
    In b (job_applications (db w')) ->
    a_job_id b = a_job_id a ->
    a_status b <> "pending".
Proof.
  intros Hh Hfind w' b Hb Hjob.
  destruct (admin_accept_run id w a Hh Hfind) as (_ & Happs & _).
  fold w' in Happs. rewrite Happs in Hb.
  apply in_map_iff in Hb as [y [Hy Hyin]].
  apply in_map_iff in Hyin as [x [Hx _]].
  subst b y.
  revert Hjob.
  unfold AdminApplicationController.reject_sibling, JobApplication.set_status.
  destruct (a_id x =? id) eqn:Eid; cbn [a_id a_job_id a_status].
  - rewrite Eid. cbn [negb]. rewrite andb_false_r. cbn. discriminate.
  - rewrite Eid. cbn [negb]. rewrite andb_true_r.
    destruct (a_job_id x =? a_job_id a) eqn:Ejob.
    + cbn [andb].
      destruct (String.eqb (a_status x) "pending") eqn:Est;
        cbn [a_status a_job_id].
      * discriminate.
      * intros _. now apply String.eqb_neq.
    + cbn [andb]. intros Hjob.
      apply Z.eqb_neq in Ejob. contradiction.
Qed.

Lemma admin_accept_leaves_no_pending_witness :
  healthy demo_world
  /\ application_with_id 40 (db demo_world)
     = Some (mkApplication 40 30 10 None "pending" 5 5)
  /\ forall b,
      In b (job_applications
              (db (snd (AdminApplicationController.updateApplicationStatus
                          40 "accepted" demo_world)))) ->
      a_job_id b = 30 ->
      a_status b <> "pending".
Proof.
  assert (Hh : healthy demo_world) by (intros n; reflexivity).
  split; [exact Hh|]. split; [reflexivity|].
  exact (admin_accept_leaves_no_pending 40 demo_world _ Hh eq_refl).
Defined.

(** X9.  On the admin route a status other than 'accepted' touches nothing but
    the target: the rows with the given id get the new status and [NOW()],
    every other application and every job stay as they were, and the reply
    is 200 with the id, job id and new status. *)
Theorem admin_update_without_accept
        (id : Z) (status : string) (w : World) (a : Application) :
  healthy w ->
  application_with_id id (db w) = Some a ->
  includes AdminApplicationController.validStatuses status = true ->
  status <> "accepted" ->
  let r := fst (AdminApplicationController.updateApplicationStatus id status w) in
  let w' := snd (AdminApplicationController.updateApplicationStatus id status w) in
  r = Ok (Success 200 ("Application status updated to " ++ status ++ " successfully")
            (JObj [ ("id", JNum (a_id a)); ("job_id", JNum (a_job_id a));
                    ("status", JStr status) ]))
  /\ jobs (db w') = jobs (db w)
  /\ notifications (db w') = notifications (db w)
  /\ forall i b,
      nth_error (job_applications (db w)) i = Some b ->
      exists b',
        nth_error (job_applications (db w')) i = Some b'
        /\ (a_id b <> id -> b' = b)
        /\ (a_id b = id ->
            b' = mkApplication (a_id b) (a_job_id b) (a_job_seeker_id b)
                               (a_cover_letter b) status (a_created_at b) (now w)).
Proof.
  intros Hh Hfind Hvalid Hne r w'. subst r w'.
  unfold AdminApplicationController.updateApplicationStatus, handler,
    try_catch, bind.
  rewrite Hvalid. cbn [negb].
  rewrite query_ok by apply Hh.
  unfold application_with_id in Hfind.
  destruct (find_filter_head _ _ _ Hfind) as [rest Hrest].
  unfold AdminApplicationController.select_id_job.
  rewrite (int4_param_stored _ _ (find_in_column a_id _ _ _ Hfind)), Hrest.
  cbn [map].
  rewrite query_ok by apply Hh.
  unfold AdminApplicationController.update_status_returning. wsimpl.
  apply String.eqb_neq in Hne. rewrite Hne.
  cbn [ret successResponse fst snd]. wsimpl.
  split; [|split; [reflexivity|split; [reflexivity|]]].
  - pose proof (hd_filter_find (fun a => a_id a =? id)
                  (map (JobApplication.set_status id status (now w))
                       (job_applications (db w)))) as Hhd.
    rewrite find_set_status, Hfind in Hhd. cbn [option_map] in Hhd.
    rewrite (set_status_of_target id status (now w) _ a Hfind) in Hhd.
    destruct (filter _ (map _ _)) as [|b bs]; [discriminate|].
    injection Hhd as ->. reflexivity.
  - intros i b Hb. rewrite nth_error_map, Hb. cbn [option_map].
    eexists. split; [reflexivity|]. split; intros Hid.
    + now apply set_status_other.
    + unfold JobApplication.set_status.
      now rewrite (proj2 (Z.eqb_eq _ _) Hid).
Qed.

Lemma admin_update_without_accept_witness :
  healthy demo_world
  /\ application_with_id 41 (db demo_world)
     = Some (mkApplication 41 30 11 (Some "hi") "pending" 6 6)
  /\ includes AdminApplicationController.validStatuses "withdrawn" = true
  /\ "withdrawn" <> "accepted"
  /\ map a_status
         (job_applications
            (db (snd (AdminApplicationController.updateApplicationStatus
                        41 "withdrawn" demo_world))))
     = ["pending"; "withdrawn"; "rejected"; "withdrawn"]
  /\ jobs (db (snd (AdminApplicationController.updateApplicationStatus
                      41 "withdrawn" demo_world)))
     = jobs (db demo_world).
Proof.
  assert (Hh : healthy demo_world) by (intros n; reflexivity).
  assert (Hne : "withdrawn" <> "accepted") by discriminate.
  split; [exact Hh|]. split; [reflexivity|]. split; [reflexivity|].
  split; [exact Hne|].
  destruct (admin_update_without_accept 41 "withdrawn" demo_world _
              Hh eq_refl eq_refl Hne) as (_ & Hjobs & _ & _).
  split; [reflexivity|exact Hjobs].
Defined.

(** ** The admin route: jobs *)

Lemma select_job_id_found (jobId : Z) (d : DB) (t : Z) (j : Job) :
  find (fun j => j_id j =? jobId) (jobs d) = Some j ->
  exists rest, AdminJobController.select_job_id jobId d t = Rows (j_id j :: rest) d.
Proof.
  intros H. destruct (find_filter_head _ _ _ H) as [rest Hrest].
  unfold AdminJobController.select_job_id.
  rewrite (int4_param_stored _ _ (find_in_column j_id _ _ _ H)), Hrest.
  eexists. reflexivity.
Qed.

Lemma select_job_id_missing (jobId : Z) (d : DB) (t : Z) :
  find (fun j => j_id j =? jobId) (jobs d) = None ->
  AdminJobController.select_job_id jobId d t
  = if int4 jobId then Rows [] d else SqlError "22003".
Proof.
  intros H. unfold AdminJobController.select_job_id.
  rewrite (int4_param_absent _ _ (find_none_column j_id _ _ H)).
  now rewrite (find_none_filter _ _ H).
Qed.

(** X10.  Setting a job's status as admin.  The jobs with the given id get the
    new status, every other job stays as it was.  When the new status is
    'filled' or 'expired', every pending application of that job is
    rejected and no application of the job is pending afterwards;
    applications that were not pending, and those of other jobs, are not
    touched.  For 'active' and 'draft' no application is written at all. *)
Theorem updateJobStatus_cascade
        (jobId : Z) (status : string) (w : World) (j : Job) :
  healthy w ->
  find (fun j => j_id j =? jobId) (jobs (db w)) = Some j ->
  includes AdminJobController.validStatuses status = true ->
  let r := fst (AdminJobController.updateJobStatus jobId status w) in
  let w' := snd (AdminJobController.updateJobStatus jobId status w) in
  r = Ok (Success 200 ("Job status updated to " ++ status ++ " successfully")
            (JObj [ ("id", JNum (j_id j)); ("title", JStr (j_title j));
                    ("status", JStr status) ]))
  /\ (forall i x,
         nth_error (jobs (db w)) i = Some x ->
         exists x',
           nth_error (jobs (db w')) i = Some x'
           /\ (j_id x = jobId -> j_status x' = status /\ j_title x' = j_title x)
           /\ (j_id x <> jobId -> x' = x))
  /\ (status = "filled" \/ status = "expired" ->
      (forall i b,
          nth_error (job_applications (db w)) i = Some b ->
          exists b',
            nth_error (job_applications (db w')) i = Some b'
            /\ a_id b' = a_id b
            /\ (a_job_id b = jobId -> a_status b = "pending" ->
                a_status b' = "rejected")
            /\ (a_status b <> "pending" -> b' = b)
            /\ (a_job_id b <> jobId -> b' = b))
      /\ (forall b, In b (job_applications (db w')) ->
                    a_job_id b = jobId -> a_status b <> "pending"))
  /\ (status <> "filled" -> status <> "expired" ->
      job_applications (db w') = job_applications (db w)).
Proof.
  intros Hh Hfind Hvalid r w'. subst r w'.
  unfold AdminJobController.updateJobStatus, handler, try_catch, bind.
  rewrite Hvalid. cbn [negb].
  rewrite query_ok by apply Hh.
  destruct (select_job_id_found jobId (db w) (now w) j Hfind) as [rest Hrows].
  rewrite Hrows.
  rewrite query_ok by apply Hh.
  unfold AdminJobController.update_status_returning. wsimpl.
  assert (Hhd : hd JUndefined
                   (map (fun j0 => JObj [ ("id", JNum (j_id j0));
                                          ("title", JStr (j_title j0));
                                          ("status", JStr (j_status j0)) ])
                        (filter (fun j0 => j_id j0 =? jobId)
                                (map (AdminApplicationController.set_job_status
                                        status jobId (now w)) (jobs (db w)))))
                = JObj [ ("id", JNum (j_id j)); ("title", JStr (j_title j));
                         ("status", JStr status) ]).
  { clear -Hfind. induction (jobs (db w)) as [|x l IH]; [discriminate|].
    cbn [find] in Hfind. cbn [map].
    unfold AdminApplicationController.set_job_status at 1.
    destruct (j_id x =? jobId) eqn:E.
    - injection Hfind as ->. cbn [filter j_id]. rewrite E. reflexivity.
    - cbn [filter]. rewrite E. now apply IH. }
  assert (Hjobs : forall i x,
             nth_error (jobs (db w)) i = Some x ->
             exists x',
               nth_error (map (AdminApplicationController.set_job_status
                                 status jobId (now w)) (jobs (db w))) i = Some x'
               /\ (j_id x = jobId -> j_status x' = status /\ j_title x' = j_title x)
               /\ (j_id x <> jobId -> x' = x)).
  { intros i x Hx. rewrite nth_error_map, Hx. cbn [option_map].
    eexists. split; [reflexivity|].
    unfold AdminApplicationController.set_job_status. split; intros Hid.
    - rewrite (proj2 (Z.eqb_eq _ _) Hid). split; reflexivity.
    - now rewrite (proj2 (Z.eqb_neq _ _) Hid). }
  destruct (String.eqb status "filled" || String.eqb status "expired")%bool eqn:Ecasc.
  - rewrite query_ok by apply Hh.
    unfold AdminJobController.reject_pending.
    cbn [ret successResponse fst snd]. wsimpl.
    rewrite Hhd. split; [reflexivity|]. split; [exact Hjobs|]. split.
    + intros _. split.
      * intros i b Hb. rewrite nth_error_map, Hb. cbn [option_map].
        eexists. split; [reflexivity|].
        unfold AdminJobController.reject_if_pending.
        split; [destruct (_ && _)%bool; reflexivity|].
        split; [|split].
        -- intros Hjob Hst. now rewrite Hjob, Z.eqb_refl, Hst.
        -- intros Hst. apply String.eqb_neq in Hst.
           now rewrite Hst, andb_false_r.
        -- intros Hjob. now rewrite (proj2 (Z.eqb_neq _ _) Hjob).
      * intros b Hb Hjob.
        apply in_map_iff in Hb as [x [Hx _]]. subst b. revert Hjob.
        unfold AdminJobController.reject_if_pending.
        destruct (a_job_id x =? jobId) eqn:Ej; cbn [andb].
        -- destruct (String.eqb (a_status x) "pending") eqn:Est;
             cbn [a_status]; intros _; [discriminate|].
           now apply String.eqb_neq.
        -- intros Hjob. apply Z.eqb_neq in Ej. contradiction.
    + intros Hf He. apply String.eqb_neq in Hf. apply String.eqb_neq in He.
      rewrite Hf, He in Ecasc. discriminate.
  - cbn [ret successResponse fst snd bind]. wsimpl.
    rewrite Hhd. split; [reflexivity|]. split; [exact Hjobs|]. split.
    + intros [E|E]; subst status; discriminate.
    + intros _ _. reflexivity.
Qed.

Lemma updateJobStatus_cascade_witness :
  healthy demo_world
  /\ find (fun j => j_id j =? 30) (jobs (db demo_world)) = Some (demo_job "active")
  /\ includes AdminJobController.validStatuses "expired" = true
  /\ map a_status
         (job_applications
            (db (snd (AdminJobController.updateJobStatus 30 "expired" demo_world))))
     = ["rejected"; "rejected"; "rejected"; "withdrawn"]
  /\ forall b,
      In b (job_applications
              (db (snd (AdminJobController.updateJobStatus 30 "expired" demo_world)))) ->
      a_job_id b = 30 -> a_status b <> "pending".
Proof.
  assert (Hh : healthy demo_world) by (intros n; reflexivity).
  split; [exact Hh|]. split; [reflexivity|]. split; [reflexivity|].
  split; [reflexivity|].
  destruct (updateJobStatus_cascade 30 "expired" demo_world _ Hh eq_refl eq_refl)
    as (_ & _ & Hcasc & _).
  exact (proj2 (Hcasc (or_intror eq_refl))).
Defined.

Lemma forallb_filter_weaken {A} (p q : A -> bool) (l : list A) :
  forallb q l = true -> forallb q (filter p l) = true.
Proof.
  rewrite !forallb_forall. intros H x Hx.
  apply filter_In in Hx as [Hx _]. now apply H.
Qed.

(** X11.  Deleting a job as admin.  An id that no job has is answered 404
    when it is within the range of the INTEGER column and with the error of
    PostgreSQL (22003, answered 500) when it is not; nothing is written.
    Otherwise the reply is 200, the jobs with that id are gone together
    with all their applications, every other job and application stays,
    users, profiles and notifications are not written, and foreign keys
    that resolved before still resolve. *)
Theorem deleteJob_cascade (jobId : Z) (w : World) :
  healthy w ->
  let r := fst (AdminJobController.deleteJob jobId w) in
  let w' := snd (AdminJobController.deleteJob jobId w) in
  match find (fun j => j_id j =? jobId) (jobs (db w)) with
  | None =>
      r = Ok (Next (if int4 jobId then ApiError 404 "Job not found"
                    else PgError "22003"))
      /\ db w' = db w
  | Some _ =>
      r = Ok (Success 200 "Job deleted successfully" JNull)
      /\ (forall j, In j (jobs (db w')) <-> In j (jobs (db w)) /\ j_id j <> jobId)
      /\ (forall a, In a (job_applications (db w'))
                    <-> In a (job_applications (db w)) /\ a_job_id a <> jobId)
      /\ users (db w') = users (db w)
      /\ job_seeker_profiles (db w') = job_seeker_profiles (db w)
      /\ employer_profiles (db w') = employer_profiles (db w)
      /\ notifications (db w') = notifications (db w)
      /\ (foreign_keys_ok (db w) = true -> foreign_keys_ok (db w') = true)
  end.
Proof.
  intros Hh r w'. subst r w'.
  unfold AdminJobController.deleteJob, handler, try_catch, bind.
  rewrite query_ok by apply Hh.
  destruct (find _ (jobs (db w))) as [j|] eqn:Hfind.
  - destruct (select_job_id_found jobId (db w) (now w) j Hfind) as [rest Hrows].
    rewrite Hrows.
    rewrite query_ok by apply Hh.
    cbn [AdminJobController.delete_job ret successResponse fst snd]. wsimpl.
    split; [reflexivity|].
    assert (Hj : forall x, In x (filter (fun j0 => negb (j_id j0 =? jobId)) (jobs (db w)))
                           <-> In x (jobs (db w)) /\ j_id x <> jobId).
    { intros x. rewrite filter_In, negb_true_iff, Z.eqb_neq. tauto. }
    assert (Ha : forall x, In x (filter (fun a => negb (a_job_id a =? jobId))
                                        (job_applications (db w)))
                           <-> In x (job_applications (db w)) /\ a_job_id x <> jobId).
    { intros x. rewrite filter_In, negb_true_iff, Z.eqb_neq. tauto. }
    split; [exact Hj|]. split; [exact Ha|].
    repeat (split; [reflexivity|]).
    unfold foreign_keys_ok. wsimpl. intros Hfk.
    apply andb_true_iff in Hfk as [Hfk Hp].
    apply andb_true_iff in Hfk as [Hfk He].
    apply andb_true_iff in Hfk as [Happ Hjobs].
    rewrite Hp, He, !andb_true_r.
    apply andb_true_iff. split; [|now apply forallb_filter_weaken].
    apply forallb_forall. intros a Hain.
    apply Ha in Hain as [Hain Hne].
    rewrite forallb_forall in Happ. specialize (Happ a Hain).
    apply andb_true_iff in Happ as [Hjob Hprof]. rewrite Hprof, andb_true_r.
    apply existsb_exists in Hjob as [x [Hx Hxid]].
    apply existsb_exists. exists x. split; [|exact Hxid].
    apply Hj. split; [exact Hx|]. apply Z.eqb_eq in Hxid. congruence.
  - rewrite (select_job_id_missing jobId (db w) (now w) Hfind).
    destruct (int4 jobId); cbn; split; reflexivity.
Qed.

Lemma deleteJob_cascade_witness :
  healthy demo_world
  /\ fst (AdminJobController.deleteJob 30 demo_world)
     = Ok (Success 200 "Job deleted successfully" JNull)
  /\ job_applications (db (snd (AdminJobController.deleteJob 30 demo_world))) = []
  /\ foreign_keys_ok (db (snd (AdminJobController.deleteJob 30 demo_world))) = true
  /\ fst (AdminJobController.deleteJob 31 demo_world)
     = Ok (Next (ApiError 404 "Job not found"))
  /\ fst (AdminJobController.deleteJob 2147483648 demo_world)
     = Ok (Next (PgError "22003")).
Proof.
  assert (Hh : healthy demo_world) by (intros n; reflexivity).
  split; [exact Hh|].
  pose proof (deleteJob_cascade 30 demo_world Hh) as H30.
  pose proof (deleteJob_cascade 31 demo_world Hh) as [H31 _].
  pose proof (deleteJob_cascade 2147483648 demo_world Hh) as [Hbig _].
  cbv zeta in H30. cbn [find] in H30.
  destruct H30 as (Hr & _ & _ & _ & _ & _ & _ & Hfk).
  split; [exact Hr|]. split; [reflexivity|]. split; [exact (Hfk eq_refl)|].
  split; [exact H31|exact Hbig].
Defined.

(** ** The status engine: who may update *)

Lemma role_cases (role : string) :
  role = "employer" \/ role = "job_seeker"
  \/ (String.eqb role "employer" = false /\ String.eqb role "job_seeker" = false).
Proof.
  destruct (String.eqb_spec role "employer"); [now left|].
  destruct (String.eqb_spec role "job_seeker"); [now right; left|].
  right; right. split; reflexivity.
Qed.

(** X12.  An actor whom the role policy does not allow the requested, otherwise
    permitted, transition is answered 403 and nothing is written: an
    employer who does not own the job, a job seeker who is not the
    applicant, and any role other than employer, job seeker and admin. *)
Theorem status_update_forbidden
        (user : Principal) (id : Z) (status : string) (w : World)
        (a : Application) :
  healthy w ->
  application_with_id id (db w) = Some a ->
  includes ApplicationController.validStatusValues status = true ->
  transition_refused (p_role user) status = false ->
  may_update (db w) user a status = false ->
  let r := fst (ApplicationController.updateApplicationStatus user id status w) in
  let w' := snd (ApplicationController.updateApplicationStatus user id status w) in
  r = Ok (Next (ApiError 403 "You are not authorized to update this application"))
  /\ db w' = db w.
Proof.
  intros Hh Hfind Hvalid Hpol Hmay r w'. subst r w'.
  unfold ApplicationController.updateApplicationStatus, handler, try_catch,
    JobApplication.findById, bind.
  rewrite Hvalid. cbn [negb].
  rewrite query_ok by apply Hh.
  destruct (select_by_id_found id (db w) (now w) a Hfind) as [rest Hrows].
  rewrite Hrows. cbn [ret hd_error v_application].
  unfold transition_refused in Hpol. unfold may_update in Hmay.
  apply orb_false_iff in Hmay as [Hmay Hadmin].
  apply orb_false_iff in Hmay as [Hemp Hseek].
  apply orb_false_iff in Hpol as [Hpe Hps].
  rewrite Hadmin.
  destruct (role_cases (p_role user)) as [E|[E|[E1 E2]]].
  - rewrite E in *. cbn [String.eqb Ascii.eqb Bool.eqb andb] in *.
    apply negb_false_iff in Hpe. rewrite Hpe in *. cbn [negb andb] in *.
    rewrite query_ok by apply Hh. wsimpl.
    destruct (own_job_rows (p_id user) (a_job_id a) (db w) (now w))
      as (rows & Hq & Hlen).
    rewrite Hq, Hlen. cbn [ret]. wsimpl.
    unfold is_job_owner in Hemp. rewrite E in Hemp.
    cbn [String.eqb Ascii.eqb Bool.eqb andb] in Hemp. rewrite Hemp.
    cbn. split; [reflexivity|destruct (db w); reflexivity].
  - rewrite E in *. cbn [String.eqb Ascii.eqb Bool.eqb andb] in *.
    apply negb_false_iff in Hps. rewrite Hps in *. cbn [negb andb] in *.
    rewrite query_ok by apply Hh. wsimpl.
    destruct (own_profile_rows (p_id user) (a_job_seeker_id a) (db w) (now w))
      as (rows & Hq & Hlen).
    rewrite Hq, Hlen. cbn [ret]. wsimpl.
    unfold is_applicant in Hseek. rewrite E in Hseek.
    cbn [String.eqb Ascii.eqb Bool.eqb andb] in Hseek. rewrite Hseek.
    cbn. split; [reflexivity|destruct (db w); reflexivity].
  - rewrite E1, E2. cbn. split; [reflexivity|destruct (db w); reflexivity].
Qed.

Lemma status_update_forbidden_witness :
  healthy demo_world
  /\ application_with_id 40 (db demo_world)
     = Some (mkApplication 40 30 10 None "pending" 5 5)
  /\ includes ApplicationController.validStatusValues "accepted" = true
  /\ transition_refused (p_role oto) "accepted" = false
  /\ may_update (db demo_world) oto
       (mkApplication 40 30 10 None "pending" 5 5) "accepted" = false
  /\ fst (ApplicationController.updateApplicationStatus oto 40 "accepted" demo_world)
     = Ok (Next (ApiError 403 "You are not authorized to update this application"))
  /\ db (snd (ApplicationController.updateApplicationStatus
                oto 40 "accepted" demo_world)) = db demo_world.
Proof.
  assert (Hh : healthy demo_world) by (intros n; reflexivity).
  split; [exact Hh|]. do 4 (split; [reflexivity|]).
  exact (status_update_forbidden oto 40 "accepted" demo_world _
           Hh eq_refl eq_refl eq_refl eq_refl).
Defined.

(** ** The status engine: effect of a permitted update *)

Lemma flat_map_head {A B} (f : A -> list B) (x : A) (xs : list A) (y : B)
      (ys : list B) :
  f x = y :: ys -> exists rest, flat_map f (x :: xs) = y :: rest.
Proof. intros H. cbn [flat_map]. rewrite H. eexists. reflexivity. Qed.

Lemma status_details_head (id : Z) (d : DB) (t : Z) (a : Application) (j : Job)
      (p : JobSeekerProfile) (e : EmployerProfile) :
  application_with_id id d = Some a ->
  find (fun j => j_id j =? a_job_id a) (jobs d) = Some j ->
  find (fun p => jsp_id p =? a_job_seeker_id a) (job_seeker_profiles d) = Some p ->
  find (fun e => ep_id e =? j_employer_id j) (employer_profiles d) = Some e ->
  exists rest,
    ApplicationController.select_status_details id d t
    = Rows (mkStatusDetails a (j_title j) (jsp_user_id p) (ep_user_id e) :: rest) d.
Proof.
  intros Ha Hj Hp He. unfold application_with_id in Ha.
  destruct (find_filter_head _ _ _ Ha) as [ra Hra].
  destruct (find_filter_head _ _ _ Hj) as [rj Hrj].
  destruct (find_filter_head _ _ _ Hp) as [rp Hrp].
  destruct (find_filter_head _ _ _ He) as [re Hre].
  unfold ApplicationController.select_status_details.
  rewrite Hra. cbn [flat_map]. rewrite Hrj. cbn [flat_map]. rewrite Hrp.
  cbn [flat_map]. rewrite Hre. cbn [map app].
  eexists. reflexivity.
Qed.

Lemma status_text_of_code (status jobTitle : string) :
  (if String.eqb status "accepted" then
     ("Application Accepted",
      "Your application for " ++ jobTitle ++ " has been accepted!")
   else if String.eqb status "rejected" then
     ("Application Rejected",
      "Your application for " ++ jobTitle ++ " was not accepted.")
   else if String.eqb status "withdrawn" then
     ("Application Withdrawn",
      "An application for " ++ jobTitle ++ " has been withdrawn.")
   else
     ("Application Status Updated",
      "Your application status has been updated to " ++ status ++ "."))
  = status_notification_text status jobTitle.
Proof. reflexivity. Qed.

(** What the notification block leaves behind in a healthy world. *)
Lemma notify_status_change_effect
      (user : Principal) (id : Z) (status : string) (w : World)
      (a : Application) (j : Job) (p : JobSeekerProfile) (e : EmployerProfile) :
  healthy w ->
  application_with_id id (db w) = Some a ->
  find (fun j => j_id j =? a_job_id a) (jobs (db w)) = Some j ->
  find (fun p => jsp_id p =? a_job_seeker_id a) (job_seeker_profiles (db w)) = Some p ->
  find (fun e => ep_id e =? j_employer_id j) (employer_profiles (db w)) = Some e ->
  transition_refused (p_role user) status = false ->
  let run := try_catch (ApplicationController.notifyStatusChange user id status)
                       (fun _ => ret tt) w in
  fst run = Ok tt
  /\ with_notifications (notifications (db w)) (db (snd run)) = db w
  /\ notifications (db (snd run))
     = (notifications (db w)
          ++ match status_notification_target (p_role user) (jsp_user_id p)
                                              (ep_user_id e) with
             | Some target =>
                 if (negb (target =? 0)
                     && existsb (fun u => u_id u =? target) (users (db w)))%bool
                 then [mkNotification
                         (next_id (map n_id (notifications (db w)))) target
                         (fst (status_notification_text status (j_title j)))
                         (snd (status_notification_text status (j_title j)))
                         false "application_status" (Some (a_id a)) (now w)]
                 else []
             | None => []
             end)%list.
Proof.
  intros Hh Ha Hj Hp He Hpol run. subst run.
  unfold try_catch, ApplicationController.notifyStatusChange, bind.
  rewrite query_ok by apply Hh.
  destruct (status_details_head id (db w) (now w) a j p e Ha Hj Hp He)
    as [rest Hrows].
  rewrite Hrows.
  cbn [sd_job_seeker_user_id sd_employer_user_id].
  unfold status_notification_target. unfold transition_refused in Hpol.
  apply orb_false_iff in Hpol as [Hpe Hps].
  assert (Hdb : with_notifications (notifications (db w)) (db w) = db w)
    by (destruct (db w); reflexivity).
  assert (Hnil : forall l : list NotificationRow, (l ++ [])%list = l)
    by (intros; apply app_nil_r).
  destruct (role_cases (p_role user)) as [E|[E|[E1 E2]]].
  - rewrite E in *. cbn [String.eqb Ascii.eqb Bool.eqb andb] in *.
    apply negb_false_iff in Hpe. rewrite Hpe. cbn [andb].
    unfold truthy_id.
    destruct (jsp_user_id p =? 0) eqn:Ez; cbn [negb andb].
    + cbn [ret fst snd]. wsimpl. rewrite Hnil. auto.
    + unfold Notification.createApplicationStatusNotification,
        Notification.create, bind.
      rewrite status_text_of_code.
      destruct (status_notification_text status
                  (template (get "job_title"
                     (status_details_row
                        (mkStatusDetails a (j_title j) (jsp_user_id p)
                                         (ep_user_id e)))))) as [title message] eqn:Et.
      cbn in Et.
      rewrite query_ok by apply Hh. wsimpl.
      unfold Notification.insert_notification.
      destruct (existsb _ (users (db w))) eqn:Ex.
      * cbn [ret fst snd]. wsimpl. rewrite Et. cbn [fst snd].
        split; [reflexivity|]. split; [exact Hdb|reflexivity].
      * cbn [ret fst snd]. wsimpl. rewrite Hnil. auto.
  - rewrite E in *. cbn [String.eqb Ascii.eqb Bool.eqb andb] in *.
    apply negb_false_iff in Hps. rewrite Hps. cbn [andb].
    unfold truthy_id.
    destruct (ep_user_id e =? 0) eqn:Ez; cbn [negb andb].
    + cbn [ret fst snd]. wsimpl. rewrite Hnil. auto.
    + unfold Notification.createApplicationStatusNotification,
        Notification.create, bind.
      rewrite status_text_of_code.
      destruct (status_notification_text status
                  (template (get "job_title"
                     (status_details_row
                        (mkStatusDetails a (j_title j) (jsp_user_id p)
                                         (ep_user_id e)))))) as [title message] eqn:Et.
      cbn in Et.
      rewrite query_ok by apply Hh. wsimpl.
      unfold Notification.insert_notification.
      destruct (existsb _ (users (db w))) eqn:Ex.
      * cbn [ret fst snd]. wsimpl. rewrite Et. cbn [fst snd].
        split; [reflexivity|]. split; [exact Hdb|reflexivity].
      * cbn [ret fst snd]. wsimpl. rewrite Hnil. auto.
  - rewrite E1, E2. cbn [andb ret fst snd]. wsimpl. rewrite Hnil. auto.
Qed.

(** X13.  A permitted status update.  The actor passes the role policy, and
    the job, the applicant's profile and the employer's profile of the
    application are on file.  Then the reply is 200 with the updated row,
    the application rows with that id carry the new status, and exactly one
    unread notification is stored, under an id that no notification had:
    for the applicant's user when an employer accepted or rejected, for the
    employer's user when the applicant withdrew, with the title and message
    of that status and the job title.  An admin's update through this route
    notifies nobody, and nobody is notified when the addressee's user id is
    0 or not on file. *)
Theorem status_update_authorized
        (user : Principal) (id : Z) (status : string) (w : World)
        (a : Application) (j : Job) (p : JobSeekerProfile) (e : EmployerProfile) :
  healthy w ->
  application_with_id id (db w) = Some a ->
  includes ApplicationController.validStatusValues status = true ->
  transition_refused (p_role user) status = false ->
  may_update (db w) user a status = true ->
  find (fun j => j_id j =? a_job_id a) (jobs (db w)) = Some j ->
  find (fun p => jsp_id p =? a_job_seeker_id a) (job_seeker_profiles (db w)) = Some p ->
  find (fun e => ep_id e =? j_employer_id j) (employer_profiles (db w)) = Some e ->
  let r := fst (ApplicationController.updateApplicationStatus user id status w) in
  let w' := snd (ApplicationController.updateApplicationStatus user id status w) in
  let updated := mkApplication (a_id a) (a_job_id a) (a_job_seeker_id a)
                               (a_cover_letter a) status (a_created_at a) (now w) in
  r = Ok (Success 200 "Application status updated successfully"
            (application_row updated))
  /\ application_with_id id (db w') = Some updated
  /\ exists notificationId,
      ~ In notificationId (map n_id (notifications (db w)))
      /\ notifications (db w')
         = (notifications (db w)
              ++ match status_notification_target (p_role user) (jsp_user_id p)
                                                  (ep_user_id e) with
                 | Some target =>
                     if (negb (target =? 0)
                         && existsb (fun u => u_id u =? target)
                                    (users (db w)))%bool
                     then [mkNotification notificationId target
                             (fst (status_notification_text status (j_title j)))
                             (snd (status_notification_text status (j_title j)))
                             false "application_status" (Some (a_id a)) (now w)]
                     else []
                 | None => []
                 end)%list.
Proof.
  intros Hh Hfind Hvalid Hpol Hmay Hj Hp He r w' updated.
  assert (Hgate :
    exists w0,
      healthy w0 /\ db w0 = db w /\ now w0 = now w
      /\ ApplicationController.updateApplicationStatus user id status w
         = (let (r1, w1) :=
              (updatedApplication <- JobApplication.updateStatus id status ;;
               try_catch (ApplicationController.notifyStatusChange user id status)
                         (fun _ => ret tt) ;;;
               successResponse 200 "Application status updated successfully"
                 (match updatedApplication with
                  | Some x => application_row x
                  | None => JUndefined
                  end)) w0 in
            match r1 with
            | Ok x => (Ok x, w1)
            | Throw err => next err w1
            end)).
  { unfold ApplicationController.updateApplicationStatus, handler, try_catch at 1,
      JobApplication.findById.
    unfold bind at 1. rewrite Hvalid. cbn [negb].
    unfold bind at 1. unfold bind at 1.
    rewrite query_ok by apply Hh.
    destruct (select_by_id_found id (db w) (now w) a Hfind) as [rest Hrows].
    rewrite Hrows. cbn [ret hd_error v_application].
    unfold may_update in Hmay. unfold transition_refused in Hpol.
    apply orb_false_iff in Hpol as [Hpe Hps].
    destruct (role_cases (p_role user)) as [E|[E|[E1 E2]]].
    - rewrite E in *. cbn [String.eqb Ascii.eqb Bool.eqb andb orb] in *.
      apply negb_false_iff in Hpe. rewrite Hpe in *. cbn [negb andb] in *.
      rewrite !orb_false_r in Hmay.
      unfold bind at 1. unfold bind at 1.
      rewrite query_ok by apply Hh. wsimpl.
      destruct (own_job_rows (p_id user) (a_job_id a) (db w) (now w))
        as (rows & Hq & Hlen).
      rewrite Hq, Hlen. cbn [ret]. wsimpl.
      unfold is_job_owner in Hmay. rewrite E in Hmay.
      cbn [String.eqb Ascii.eqb Bool.eqb andb] in Hmay. rewrite Hmay.
      cbn [negb andb].
      exists (set_db (db w) (tick (set_db (db w) (tick w)))).
      split; [intros n; apply Hh|]. split; [reflexivity|]. split; reflexivity.
    - rewrite E in *. cbn [String.eqb Ascii.eqb Bool.eqb andb orb] in *.
      apply negb_false_iff in Hps. rewrite Hps in *. cbn [negb andb] in *.
      rewrite !orb_false_r in Hmay.
      unfold bind at 1. unfold bind at 1.
      rewrite query_ok by apply Hh. wsimpl.
      destruct (own_profile_rows (p_id user) (a_job_seeker_id a) (db w) (now w))
        as (rows & Hq & Hlen).
      rewrite Hq, Hlen. cbn [ret]. wsimpl.
      unfold is_applicant in Hmay. rewrite E in Hmay.
      cbn [String.eqb Ascii.eqb Bool.eqb andb] in Hmay. rewrite Hmay.
      cbn [negb andb].
      exists (set_db (db w) (tick (set_db (db w) (tick w)))).
      split; [intros n; apply Hh|]. split; [reflexivity|]. split; reflexivity.
    - rewrite E1, E2 in *. cbn [andb orb] in Hmay. rewrite Hmay.
      unfold bind at 1. cbn [ret negb andb].
      exists (set_db (db w) (tick w)).
      split; [intros n; apply Hh|]. split; [reflexivity|]. split; reflexivity. }
  destruct Hgate as (w0 & Hh0 & Hdb0 & Hnow0 & Hrun).
  set (w1 := set_db (with_job_applications
                       (map (JobApplication.set_status id status (now w))
                            (job_applications (db w))) (db w)) (tick w0)).
  assert (Hh1 : healthy w1) by (intros n; apply Hh0).
  assert (Hfind1 : application_with_id id (db w1) = Some updated).
  { unfold application_with_id, w1. wsimpl.
    unfold application_with_id in Hfind.
    rewrite find_set_status, Hfind. cbn [option_map].
    now rewrite (set_status_of_target id status (now w) _ a Hfind). }
  pose proof (notify_status_change_effect user id status w1 updated j p e
                Hh1 Hfind1 Hj Hp He Hpol) as Hn.
  cbv zeta in Hn.
  destruct (try_catch (ApplicationController.notifyStatusChange user id status)
                      (fun _ => ret tt) w1) as [rn wn] eqn:Ern.
  cbn [fst snd] in Hn. destruct Hn as (Hok & Hframe & Hnotes). subst rn.
  assert (Hfull : ApplicationController.updateApplicationStatus user id status w
                  = (Ok (Success 200 "Application status updated successfully"
                           (application_row updated)), wn)).
  { rewrite Hrun. unfold JobApplication.updateStatus.
    unfold bind at 1. unfold bind at 1.
    rewrite query_ok by apply Hh0.
    unfold JobApplication.update_status. rewrite Hdb0, Hnow0.
    rewrite (int4_param_stored _ _ (find_in_column a_id _ _ _ Hfind)).
    change (includes JobApplication.status_check status)
      with (includes ApplicationController.validStatusValues status).
    rewrite Hvalid. cbn [negb]. rewrite andb_false_r. cbn [ret].
    rewrite hd_filter_find, find_set_status.
    unfold application_with_id in Hfind. rewrite Hfind. cbn [option_map].
    rewrite (set_status_of_target id status (now w) _ a Hfind). fold updated.
    fold w1. unfold bind. rewrite Ern. reflexivity. }
  subst r w'. rewrite Hfull. cbn [fst snd].
  split; [reflexivity|]. split.
  - assert (Hja : job_applications (db wn) = job_applications (db w1)).
    { rewrite <- Hframe. reflexivity. }
    unfold application_with_id in *. rewrite Hja. exact Hfind1.
  - exists (next_id (map n_id (notifications (db w)))).
    split; [apply next_id_fresh|].
    rewrite Hnotes. unfold w1. wsimpl. rewrite Hnow0. reflexivity.
Qed.

Lemma status_update_authorized_witness :
  healthy demo_world
  /\ may_update (db demo_world) eve
       (mkApplication 40 30 10 None "pending" 5 5) "rejected" = true
  /\ exists notificationId,
      ~ In notificationId (map n_id demo_notifications)
      /\ notifications
           (db (snd (ApplicationController.updateApplicationStatus
                       eve 40 "rejected" demo_world)))
         = (demo_notifications
              ++ [mkNotification notificationId 2 "Application Rejected"
                    "Your application for Mover was not accepted." false
                    "application_status" (Some 40) 100])%list.
Proof.
  assert (Hh : healthy demo_world) by (intros n; reflexivity).
  split; [exact Hh|]. split; [reflexivity|].
  destruct (status_update_authorized eve 40 "rejected" demo_world
              (mkApplication 40 30 10 None "pending" 5 5)
              (demo_job "active") (mkJobSeekerProfile 10 2)
              (mkEmployerProfile 20 1 "Acme")
              Hh eq_refl eq_refl eq_refl eq_refl eq_refl eq_refl eq_refl)
    as (_ & _ & nid & Hfresh & Hnotes).
  exists nid. split; [exact Hfresh|].
  rewrite Hnotes. reflexivity.
Defined.

(** ** Creating an application: the successful path *)

Lemma find_existsb {A} (p : A -> bool) (l : list A) (x : A) :
  find p l = Some x -> existsb p l = true.
Proof.
  intros H. apply find_some in H as [Hin Hp].
  apply existsb_exists. now exists x.
Qed.

Lemma active_job_head (jobId : Z) (l : list Job) (j : Job) :
  find (fun x => j_id x =? jobId) l = Some j ->
  j_status j = "active" ->
  exists rest,
    filter (fun x => (j_id x =? jobId) && String.eqb (j_status x) "active")%bool l
    = j :: rest.
Proof.
  induction l as [|x l IH]; cbn [find filter]; [discriminate|].
  destruct (j_id x =? jobId) eqn:E; cbn [andb].
  - intros H Hst. injection H as ->. rewrite Hst. cbn. eexists. reflexivity.
  - intros H Hst. now apply IH.
Qed.

Lemma job_check_on_file (jobId : Z) (status : string) (d : DB) (t : Z) :
  existsb (fun j => j_id j =? jobId) (jobs d) = true ->
  ApplicationController.select_job_with_status jobId status d t
  = Rows (filter (fun j => (j_id j =? jobId) && String.eqb (j_status j) status)%bool
                 (jobs d)) d.
Proof.
  intros H. unfold ApplicationController.select_job_with_status.
  rewrite int4_param_stored; [reflexivity|].
  apply existsb_exists in H as [j [Hin Hid]]. apply Z.eqb_eq in Hid.
  subst jobId. now apply in_map.
Qed.

Lemma job_check_missing (jobId : Z) (status : string) (d : DB) (t : Z) :
  find (fun j => j_id j =? jobId) (jobs d) = None ->
  ApplicationController.select_job_with_status jobId status d t
  = if int4 jobId then Rows [] d else SqlError "22003".
Proof.
  intros H. unfold ApplicationController.select_job_with_status.
  rewrite (int4_param_absent _ _ (find_none_column j_id _ _ H)).
  destruct (int4 jobId); [|reflexivity].
  assert (E : filter (fun j => (j_id j =? jobId)
                               && String.eqb (j_status j) status)%bool (jobs d) = []).
  { induction (jobs d) as [|x l IH]; [reflexivity|].
    cbn [find filter] in *.
    destruct (j_id x =? jobId); [discriminate|]. cbn [andb]. now apply IH. }
  now rewrite E.
Qed.

Lemma active_job_on_file (jobId : Z) (d : DB) :
  job_is_active jobId d = true ->
  existsb (fun j => j_id j =? jobId) (jobs d) = true.
Proof.
  unfold job_is_active. intros H.
  apply existsb_exists in H as [j [Hin Hc]].
  apply andb_true_iff in Hc as [Hc _].
  apply existsb_exists. now exists j.
Qed.

Lemma pair_absent (jobId jobSeekerId : Z) (d : DB) :
  ~ In (jobId, jobSeekerId) (application_pairs d) ->
  Nat.ltb 0 (List.length
               (filter (fun a => (a_job_seeker_id a =? jobSeekerId)
                                 && (a_job_id a =? jobId))%bool
                       (job_applications d))) = false.
Proof.
  intros Hnot. rewrite ltb_length_filter.
  destruct (existsb _ _) eqn:E; [|reflexivity].
  exfalso. apply Hnot.
  apply existsb_exists in E as [a [Hin Ha]].
  apply andb_true_iff in Ha as [Hs Hj].
  apply Z.eqb_eq in Hs. apply Z.eqb_eq in Hj.
  unfold application_pairs. apply in_map_iff. exists a.
  split; [now rewrite Hs, Hj|exact Hin].
Qed.

Lemma profile_of_user_exists (userId jobSeekerId : Z) (d : DB) :
  profile_of_user userId d = Some jobSeekerId ->
  existsb (fun p => jsp_id p =? jobSeekerId) (job_seeker_profiles d) = true
  /\ exists rest,
      map jsp_id (filter (fun p => jsp_user_id p =? userId) (job_seeker_profiles d))
      = jobSeekerId :: rest.
Proof.
  unfold profile_of_user. intros H.
  destruct (map jsp_id _) as [|z l] eqn:E; [discriminate|].
  injection H as ->. split; [|eexists; reflexivity].
  assert (Hin : In jobSeekerId
                   (map jsp_id (filter (fun p => jsp_user_id p =? userId)
                                       (job_seeker_profiles d))))
    by (rewrite E; now left).
  apply in_map_iff in Hin as [p [Hp Hin]].
  apply filter_In in Hin as [Hin _].
  apply existsb_exists. exists p. split; [exact Hin|now apply Z.eqb_eq].
Qed.

Lemma employer_head (jobId : Z) (d : DB) (t : Z) (j : Job) (e : EmployerProfile)
      (u : User) :
  find (fun x => j_id x =? jobId) (jobs d) = Some j ->
  find (fun x => ep_id x =? j_employer_id j) (employer_profiles d) = Some e ->
  find (fun x => u_id x =? ep_user_id e) (users d) = Some u ->
  exists rest,
    ApplicationController.select_employer_of_job jobId d t
    = Rows ((u_id u, j_title j) :: rest) d.
Proof.
  intros Hj He Hu.
  destruct (find_filter_head _ _ _ Hj) as [rj Hrj].
  destruct (find_filter_head _ _ _ He) as [re Hre].
  destruct (find_filter_head _ _ _ Hu) as [ru Hru].
  unfold ApplicationController.select_employer_of_job.
  rewrite Hrj. cbn [flat_map]. rewrite Hre. cbn [flat_map]. rewrite Hru.
  cbn [map app]. eexists. reflexivity.
Qed.

(** X14.  A first application.  The actor has a job seeker profile, the job
    is active and has no application from that profile yet, and its
    employer is on file.  Then the reply is 201 with the new row and the
    job's title, urgency and pay; exactly one row is appended to the
    applications, pending, for that job and profile, with the cover letter
    and an id that no application had; and exactly one unread notification
    is stored for the employer's user, under an id that no notification
    had.  Its message names the applicant as "undefined undefined", because
    the handler hands the notification the row that carries only the
    profile id; jobs, users and profiles are not written. *)
Theorem applyForJob_success
        (user : Principal) (jobId : Z) (coverLetter : option string) (w : World)
        (jobSeekerId : Z) (j : Job) (e : EmployerProfile) (u : User) :
  healthy w ->
  profile_of_user (p_id user) (db w) = Some jobSeekerId ->
  find (fun x => j_id x =? jobId) (jobs (db w)) = Some j ->
  j_status j = "active" ->
  ~ In (jobId, jobSeekerId) (application_pairs (db w)) ->
  find (fun x => ep_id x =? j_employer_id j) (employer_profiles (db w)) = Some e ->
  find (fun x => u_id x =? ep_user_id e) (users (db w)) = Some u ->
  let r := fst (ApplicationController.applyForJob user jobId coverLetter w) in
  let w' := snd (ApplicationController.applyForJob user jobId coverLetter w) in
  exists applicationId notificationId,
    ~ In applicationId (map a_id (job_applications (db w)))
    /\ ~ In notificationId (map n_id (notifications (db w)))
    /\ r = Ok (Success 201 "Application submitted successfully"
                 (spread_with
                    (application_row
                       (mkApplication applicationId jobId jobSeekerId coverLetter
                                      "pending" (now w) (now w)))
                    "job"
                    (JObj [ ("title", JStr (j_title j));
                            ("urgency", nullable (j_urgency j));
                            ("payAmount", nullable (j_pay_amount j));
                            ("payType", nullable (j_pay_type j)) ])))
    /\ job_applications (db w')
       = (job_applications (db w)
            ++ [mkApplication applicationId jobId jobSeekerId coverLetter
                              "pending" (now w) (now w)])%list
    /\ notifications (db w')
       = (notifications (db w)
            ++ [mkNotification notificationId
                  (u_id u) "New Job Application"
                  ("undefined undefined has applied for your job: " ++ j_title j)
                  false "new_application" (Some applicationId) (now w)])%list
    /\ jobs (db w') = jobs (db w)
    /\ users (db w') = users (db w)
    /\ job_seeker_profiles (db w') = job_seeker_profiles (db w)
    /\ employer_profiles (db w') = employer_profiles (db w).
Proof.
  intros Hh Hprof Hj Hact Hnew He Hu r w'.
  set (created :=
         mkApplication (next_id (map a_id (job_applications (db w))))
                       jobId jobSeekerId coverLetter "pending" (now w) (now w)).
  assert (Hfull :
    ApplicationController.applyForJob user jobId coverLetter w
    = (Ok (Success 201 "Application submitted successfully"
             (spread_with (application_row created) "job"
                (JObj [ ("title", JStr (j_title j));
                        ("urgency", nullable (j_urgency j));
                        ("payAmount", nullable (j_pay_amount j));
                        ("payType", nullable (j_pay_type j)) ]))),
       set_db (with_notifications
                 (notifications (db w)
                    ++ [mkNotification (next_id (map n_id (notifications (db w))))
                          (u_id u) "New Job Application"
                          ("undefined undefined has applied for your job: "
                             ++ j_title j)
                          false "new_application" (Some (a_id created)) (now w)])
                 (with_job_applications
                    (job_applications (db w) ++ [created]) (db w)))
              (tick (tick (tick (tick (tick (tick (tick w))))))))).
  { unfold ApplicationController.applyForJob, handler, try_catch, bind.
    rewrite query_ok by apply Hh.
    destruct (profile_of_user_exists _ _ _ Hprof) as [Hpex [rp Hrp]].
    cbn [ApplicationController.select_profile_of_user]. rewrite Hrp.
    rewrite query_ok by apply Hh. wsimpl.
    destruct (active_job_head jobId _ j Hj Hact) as [rj Hrj].
    rewrite (job_check_on_file jobId "active" (db w) (now w)
               (find_existsb _ _ _ Hj)).
    rewrite Hrj.
    unfold JobApplication.hasApplied, bind.
    rewrite query_ok by apply Hh. wsimpl.
    cbn [JobApplication.select_by_pair ret].
    rewrite (pair_absent jobId jobSeekerId (db w) Hnew).
    unfold JobApplication.create.
    rewrite query_ok by apply Hh. wsimpl.
    unfold JobApplication.insert_application.
    rewrite (find_existsb _ _ _ Hj), Hpex. cbn [andb]. fold created.
    rewrite query_ok by apply Hh. wsimpl.
    destruct (employer_head jobId
                (with_job_applications (job_applications (db w) ++ [created]) (db w))
                (now w) j e u Hj He Hu) as [re Hre].
    rewrite Hre.
    rewrite query_ok by apply Hh. wsimpl.
    cbn [ApplicationController.select_seeker_names List.length Nat.ltb Nat.leb andb].
    unfold Notification.createNewApplicationNotification, Notification.create.
    rewrite query_ok by apply Hh. wsimpl.
    unfold Notification.insert_notification. wsimpl.
    assert (Hex : existsb (fun x => u_id x =? u_id u) (users (db w)) = true).
    { apply existsb_exists. exists u. split; [|apply Z.eqb_refl].
      apply find_some in Hu. tauto. }
    rewrite Hex.
    cbn [ret successResponse]. wsimpl.
    cbn [get assoc String.eqb Ascii.eqb Bool.eqb template as_num application_row a_id].
    reflexivity. }
  exists (next_id (map a_id (job_applications (db w)))),
         (next_id (map n_id (notifications (db w)))).
  split; [apply next_id_fresh|]. split; [apply next_id_fresh|].
  subst r w'. rewrite Hfull. cbn [fst snd]. wsimpl.
  repeat split; reflexivity.
Qed.

Lemma applyForJob_success_witness :
  healthy (heal notification_insert_fails)
  /\ profile_of_user (p_id sue) (db (heal notification_insert_fails)) = Some 11
  /\ ~ In (30, 11) (application_pairs (db (heal notification_insert_fails)))
  /\ exists applicationId notificationId,
      ~ In notificationId (map n_id demo_notifications)
      /\ job_applications
           (db (snd (ApplicationController.applyForJob sue 30 (Some "hello")
                       (heal notification_insert_fails))))
         = [mkApplication applicationId 30 11 (Some "hello") "pending" 100 100]
      /\ notifications
           (db (snd (ApplicationController.applyForJob sue 30 (Some "hello")
                       (heal notification_insert_fails))))
         = (demo_notifications
              ++ [mkNotification notificationId 1 "New Job Application"
                    "undefined undefined has applied for your job: Mover" false
                    "new_application" (Some applicationId) 100])%list.
Proof.
  assert (Hh : healthy (heal notification_insert_fails)) by (intros n; reflexivity).
  assert (Hnew : ~ In (30, 11)
                     (application_pairs (db (heal notification_insert_fails))))
    by (intros []).
  split; [exact Hh|]. split; [reflexivity|]. split; [exact Hnew|].
  destruct (applyForJob_success sue 30 (Some "hello")
              (heal notification_insert_fails) 11 (demo_job "active")
              (mkEmployerProfile 20 1 "Acme")
              (mkUser 1 "eve@acme.test" "x" "Eve" "Employer" None None "employer"
                      1 1)
              Hh eq_refl eq_refl eq_refl Hnew eq_refl eq_refl)
    as (aid & nid & _ & Hfresh & _ & Happs & Hnotes & _).
  exists aid, nid. split; [exact Hfresh|]. split; [exact Happs|exact Hnotes].
Defined.

Lemma select_employer_rows (jobId : Z) (d : DB) (t : Z) :
  exists rows, ApplicationController.select_employer_of_job jobId d t = Rows rows d.
Proof. eexists. reflexivity. Qed.

(** What a first application leaves in storage, whether or not the
    employer can be found and notified. *)
Lemma applyForJob_first_tables
      (user : Principal) (jobId : Z) (coverLetter : option string) (w : World)
      (jobSeekerId : Z) :
  healthy w ->
  profile_of_user (p_id user) (db w) = Some jobSeekerId ->
  job_is_active jobId (db w) = true ->
  ~ In (jobId, jobSeekerId) (application_pairs (db w)) ->
  let w' := snd (ApplicationController.applyForJob user jobId coverLetter w) in
  healthy w'
  /\ job_applications (db w')
     = (job_applications (db w)
          ++ [mkApplication (next_id (map a_id (job_applications (db w))))
                            jobId jobSeekerId coverLetter "pending"
                            (now w) (now w)])%list
  /\ jobs (db w') = jobs (db w)
  /\ job_seeker_profiles (db w') = job_seeker_profiles (db w).
Proof.
  intros Hh Hprof Hact Hnew.
  unfold ApplicationController.applyForJob, handler, try_catch, bind.
  rewrite query_ok by apply Hh.
  destruct (profile_of_user_exists _ _ _ Hprof) as [Hpex [rp Hrp]].
  cbn [ApplicationController.select_profile_of_user]. rewrite Hrp.
  rewrite query_ok by apply Hh. wsimpl.
  rewrite (job_check_on_file jobId "active" (db w) (now w)
             (active_job_on_file _ _ Hact)).
  unfold job_is_active in Hact. rewrite <- ltb_length_filter in Hact.
  destruct (filter _ (jobs (db w))) as [|j rj] eqn:Ej; [discriminate|].
  assert (Hjob : existsb (fun x => j_id x =? jobId) (jobs (db w)) = true).
  { assert (Hin : In j (filter (fun x => (j_id x =? jobId)
                                          && String.eqb (j_status x) "active")%bool
                               (jobs (db w)))) by (rewrite Ej; now left).
    apply filter_In in Hin as [Hin Hc]. apply andb_true_iff in Hc as [Hc _].
    apply existsb_exists. now exists j. }
  unfold JobApplication.hasApplied, bind.
  rewrite query_ok by apply Hh. wsimpl.
  cbn [JobApplication.select_by_pair ret].
  rewrite (pair_absent jobId jobSeekerId (db w) Hnew).
  unfold JobApplication.create.
  rewrite query_ok by apply Hh. wsimpl.
  unfold JobApplication.insert_application.
  rewrite Hjob, Hpex. cbn [andb].
  rewrite query_ok by apply Hh. wsimpl.
  match goal with
  | |- context [ApplicationController.select_employer_of_job ?x ?d ?t] =>
      destruct (select_employer_rows x d t) as [rows Hrows]; rewrite Hrows
  end.
  destruct rows as [|[employerId title] re].
  - rewrite query_ok by apply Hh. wsimpl.
    cbn [ApplicationController.select_seeker_names List.length Nat.ltb Nat.leb
         andb ret successResponse snd]. wsimpl.
    split; [intros n; apply Hh|]. repeat split; reflexivity.
  - rewrite query_ok by apply Hh. wsimpl.
    cbn [ApplicationController.select_seeker_names List.length Nat.ltb Nat.leb andb].
    unfold Notification.createNewApplicationNotification, Notification.create.
    rewrite query_ok by apply Hh. wsimpl.
    unfold Notification.insert_notification. wsimpl.
    destruct (existsb _ (users (db w))).
    + cbn [ret successResponse snd]. wsimpl.
      split; [intros n; apply Hh|]. repeat split; reflexivity.
    + cbn [ret next snd]. wsimpl.
      split; [intros n; apply Hh|]. repeat split; reflexivity.
Qed.

(** X15.  Applying again right after a first application is refused: whatever the
    cover letter, the second request is answered 400 "already applied" and
    writes nothing. *)
Theorem applyForJob_twice_refused
        (user : Principal) (jobId : Z) (first second : option string)
        (w : World) (jobSeekerId : Z) :
  healthy w ->
  profile_of_user (p_id user) (db w) = Some jobSeekerId ->
  job_is_active jobId (db w) = true ->
  ~ In (jobId, jobSeekerId) (application_pairs (db w)) ->
  let w1 := snd (ApplicationController.applyForJob user jobId first w) in
  fst (ApplicationController.applyForJob user jobId second w1)
  = Ok (Next (ApiError 400 "You have already applied for this job"))
  /\ db (snd (ApplicationController.applyForJob user jobId second w1)) = db w1.
Proof.
  intros Hh Hprof Hact Hnew w1.
  destruct (applyForJob_first_tables user jobId first w jobSeekerId
              Hh Hprof Hact Hnew) as (Hh1 & Happs & Hjobs & Hjsp).
  fold w1 in Hh1, Happs, Hjobs, Hjsp.
  assert (Hprof1 : profile_of_user (p_id user) (db w1) = Some jobSeekerId)
    by (unfold profile_of_user in *; now rewrite Hjsp).
  assert (Hact1 : job_is_active jobId (db w1) = true)
    by (unfold job_is_active in *; now rewrite Hjobs).
  assert (Hin1 : In (jobId, jobSeekerId) (application_pairs (db w1))).
  { unfold application_pairs. rewrite Happs, map_app.
    apply in_or_app. right. now left. }
  clearbody w1.
  assert (Hfull :
    ApplicationController.applyForJob user jobId second w1
    = (Ok (Next (ApiError 400 "You have already applied for this job")),
       set_db (db w1) (tick (set_db (db w1) (tick (set_db (db w1) (tick w1))))))).
  { unfold ApplicationController.applyForJob, handler, try_catch, bind.
    rewrite query_ok by apply Hh1.
    destruct (profile_of_user_exists _ _ _ Hprof1) as [_ [rp Hrp]].
    cbn [ApplicationController.select_profile_of_user]. rewrite Hrp.
    rewrite query_ok by apply Hh1. wsimpl.
    rewrite (job_check_on_file jobId "active" (db w1) (now w1)
               (active_job_on_file _ _ Hact1)).
    unfold job_is_active in Hact1. rewrite <- ltb_length_filter in Hact1.
    wsimpl.
    destruct (filter _ (jobs (db w1))) as [|j rj]; [discriminate|].
    unfold JobApplication.hasApplied, bind.
    rewrite query_ok by apply Hh1.
    cbn [JobApplication.select_by_pair ret]. wsimpl.
    rewrite (pair_present jobId jobSeekerId (db w1) Hin1).
    reflexivity. }
  rewrite Hfull. split; reflexivity.
Qed.

Lemma applyForJob_twice_refused_witness :
  healthy (heal notification_insert_fails)
  /\ profile_of_user (p_id sue) (db (heal notification_insert_fails)) = Some 11
  /\ job_is_active 30 (db (heal notification_insert_fails)) = true
  /\ ~ In (30, 11) (application_pairs (db (heal notification_insert_fails)))
  /\ fst (ApplicationController.applyForJob sue 30 (Some "again")
            (snd (ApplicationController.applyForJob sue 30 None
                    (heal notification_insert_fails))))
     = Ok (Next (ApiError 400 "You have already applied for this job")).
Proof.
  assert (Hh : healthy (heal notification_insert_fails)) by (intros n; reflexivity).
  assert (Hnew : ~ In (30, 11)
                     (application_pairs (db (heal notification_insert_fails))))
    by (intros []).
  split; [exact Hh|]. split; [reflexivity|]. split; [reflexivity|].
  split; [exact Hnew|].
  exact (proj1 (applyForJob_twice_refused sue 30 None (Some "again")
                  (heal notification_insert_fails) 11 Hh eq_refl eq_refl Hnew)).
Defined.

(** X16.  An application that cannot be placed is refused and nothing is
    written.  Without a job seeker profile the answer is 404.  With one,
    a job that is on file but not active is answered 404, and so is an id
    that no job has, provided it is within the range of the INTEGER column;
    an id outside it is answered with the error of PostgreSQL (22003,
    status 500). *)
Theorem applyForJob_not_found
        (user : Principal) (jobId : Z) (coverLetter : option string) (w : World) :
  healthy w ->
  profile_of_user (p_id user) (db w) = None
  \/ job_is_active jobId (db w) = false ->
  let r := fst (ApplicationController.applyForJob user jobId coverLetter w) in
  let w' := snd (ApplicationController.applyForJob user jobId coverLetter w) in
  r = Ok (Next
            (match profile_of_user (p_id user) (db w) with
             | None => ApiError 404 "Job seeker profile not found"
             | Some _ =>
                 match find (fun j => j_id j =? jobId) (jobs (db w)) with
                 | Some _ => ApiError 404 "Job not found or not active"
                 | None => if int4 jobId
                           then ApiError 404 "Job not found or not active"
                           else PgError "22003"
                 end
             end))
  /\ db w' = db w.
Proof.
  intros Hh Hcase r w'. subst r w'.
  unfold ApplicationController.applyForJob, handler, try_catch, bind.
  rewrite query_ok by apply Hh.
  cbn [ApplicationController.select_profile_of_user].
  unfold profile_of_user in *.
  destruct (map jsp_id _) as [|z l].
  - cbn. split; [reflexivity|destruct (db w); reflexivity].
  - destruct Hcase as [Hcase|Hcase]; [discriminate|].
    rewrite query_ok by apply Hh. wsimpl. cbn [hd_error].
    destruct (find (fun j => j_id j =? jobId) (jobs (db w))) as [j|] eqn:Hj.
    + rewrite (job_check_on_file jobId "active" (db w) (now w)
                 (find_existsb _ _ _ Hj)).
      unfold job_is_active in Hcase. rewrite <- ltb_length_filter in Hcase.
      destruct (filter _ (jobs (db w))) as [|j' rj]; [|discriminate].
      cbn. split; [reflexivity|destruct (db w); reflexivity].
    + rewrite (job_check_missing jobId "active" (db w) (now w) Hj).
      destruct (int4 jobId); cbn;
        (split; [reflexivity|destruct (db w); reflexivity]).
Qed.

Lemma applyForJob_not_found_witness :
  healthy filled_world
  /\ job_is_active 30 (db filled_world) = false
  /\ fst (ApplicationController.applyForJob sam 30 None filled_world)
     = Ok (Next (ApiError 404 "Job not found or not active"))
  /\ fst (ApplicationController.applyForJob eve 30 None demo_world)
     = Ok (Next (ApiError 404 "Job seeker profile not found"))
  /\ fst (ApplicationController.applyForJob sam 31 None demo_world)
     = Ok (Next (ApiError 404 "Job not found or not active"))
  /\ fst (ApplicationController.applyForJob sam 2147483648 None demo_world)
     = Ok (Next (PgError "22003")).
Proof.
  assert (Hh : healthy filled_world) by (intros n; reflexivity).
  assert (Hd : healthy demo_world) by (intros n; reflexivity).
  split; [exact Hh|]. split; [reflexivity|]. split; [|split; [|split]].
  - exact (proj1 (applyForJob_not_found sam 30 None filled_world Hh
                    (or_intror eq_refl))).
  - exact (proj1 (applyForJob_not_found eve 30 None demo_world Hd
                    (or_introl eq_refl))).
  - exact (proj1 (applyForJob_not_found sam 31 None demo_world Hd
                    (or_intror eq_refl))).
  - exact (proj1 (applyForJob_not_found sam 2147483648 None demo_world Hd
                    (or_intror eq_refl))).
Defined.

(** ** Creating an application: what is preserved *)

Lemma nodup_snoc_fresh (l : list Z) : NoDup l -> NoDup (l ++ [next_id l])%list.
Proof.
  intros H.
  pose proof (Add_app (next_id l) l []) as Hadd. rewrite app_nil_r in Hadd.
  apply (NoDup_Add Hadd). split; [exact H|apply next_id_fresh].
Qed.

(** X17.  Whatever happens during an application, including storage failures at
    any point, the store stays consistent: foreign keys that resolved still
    resolve, application ids and notification ids stay unique, and jobs,
    users and profiles are not written. *)
Theorem applyForJob_keeps_store_consistent
        (user : Principal) (jobId : Z) (coverLetter : option string) (w : World) :
  foreign_keys_ok (db w) = true ->
  NoDup (map a_id (job_applications (db w))) ->
  NoDup (map n_id (notifications (db w))) ->
  let w' := snd (ApplicationController.applyForJob user jobId coverLetter w) in
  foreign_keys_ok (db w') = true
  /\ NoDup (map a_id (job_applications (db w')))
  /\ NoDup (map n_id (notifications (db w')))
  /\ jobs (db w') = jobs (db w)
  /\ users (db w') = users (db w)
  /\ job_seeker_profiles (db w') = job_seeker_profiles (db w)
  /\ employer_profiles (db w') = employer_profiles (db w).
Proof.
  intros Hfk Hna Hnn.
  unfold foreign_keys_ok in *.
  apply andb_true_iff in Hfk as [Hfk Hp].
  apply andb_true_iff in Hfk as [Hfk He].
  apply andb_true_iff in Hfk as [Happ Hjobs].
  unfold_apply.
  run.
  all: rewrite ?map_app, ?forallb_app; cbn [map forallb a_id n_id a_job_id a_job_seeker_id].
  all: rewrite ?Happ, ?Hjobs, ?He, ?Hp.
  all: repeat match goal with
              | H : (_ && _)%bool = true |- _ => rewrite H
              end.
  all: cbn [andb].
  all: repeat split; try reflexivity; try assumption.
  all: try (apply nodup_snoc_fresh; assumption).
Qed.

Lemma applyForJob_keeps_store_consistent_witness :
  foreign_keys_ok (db notification_insert_fails) = true
  /\ NoDup (map a_id (job_applications (db notification_insert_fails)))
  /\ NoDup (map n_id (notifications (db notification_insert_fails)))
  /\ foreign_keys_ok
       (db (snd (ApplicationController.applyForJob sue 30 None
                   notification_insert_fails))) = true
  /\ job_applications
       (db (snd (ApplicationController.applyForJob sue 30 None
                   notification_insert_fails)))
     = [mkApplication 1 30 11 None "pending" 100 100].
Proof.
  assert (Hna : NoDup (map a_id (job_applications (db notification_insert_fails))))
    by constructor.
  assert (Hnn : NoDup (map n_id (notifications (db notification_insert_fails)))).
  { repeat constructor; simpl; intuition discriminate. }
  split; [reflexivity|]. split; [exact Hna|]. split; [exact Hnn|].
  split; [|reflexivity].
  exact (proj1 (applyForJob_keeps_store_consistent sue 30 None
                  notification_insert_fails eq_refl Hna Hnn)).
Defined.

(** ** Sessions: login *)

Section SessionProperties.

Variable bcrypt_hash : string -> string.
Variable bcrypt_compare : string -> string -> bool.
Variable generateToken : Z -> string -> string.

Lemma login_rows_head (email : string) (d : DB) (t : Z) :
  exists rows,
    AuthController.select_login_rows email d t = Rows rows d
    /\ match find (fun u => String.eqb (u_email u) email) (users d) with
       | None => rows = []
       | Some u => exists company rest, rows = (u, company) :: rest
       end.
Proof.
  unfold AuthController.select_login_rows. eexists. split; [reflexivity|].
  destruct (find _ (users d)) as [u|] eqn:Hfind.
  - destruct (find_filter_head _ _ _ Hfind) as [rest Hrest]. rewrite Hrest.
    cbn [flat_map].
    destruct (filter _ (employer_profiles d)) as [|e es].
    + do 2 eexists. reflexivity.
    + cbn [map app]. do 2 eexists. reflexivity.
  - now rewrite (find_none_filter _ _ Hfind).
Qed.

(** X18.  A failed login tells nothing about the account: an unknown email and a
    wrong password are answered with the same 401 "Invalid credentials",
    and nothing is written. *)
Theorem login_failures_alike (email password : string) (w : World) :
  healthy w ->
  match find (fun u => String.eqb (u_email u) email) (users (db w)) with
  | None => True
  | Some u => bcrypt_compare password (u_password u) = false
  end ->
  AuthController.login bcrypt_compare generateToken email password w
  = (Ok (Next (ApiError 401 "Invalid credentials")), set_db (db w) (tick w)).
Proof.
  intros Hh Hcase.
  unfold AuthController.login, handler, try_catch, bind.
  rewrite query_ok by apply Hh.
  destruct (login_rows_head email (db w) (now w)) as (rows & Hrows & Hhead).
  rewrite Hrows.
  destruct (find _ (users (db w))) as [u|].
  - destruct Hhead as (company & rest & ->).
    cbn [fst]. rewrite Hcase. reflexivity.
  - subst rows. reflexivity.
Qed.

Lemma login_accepts
        (email password : string) (w : World) (u : User) :
  healthy w ->
  find (fun u => String.eqb (u_email u) email) (users (db w)) = Some u ->
  bcrypt_compare password (u_password u) = true ->
  exists company,
    AuthController.login bcrypt_compare generateToken email password w
    = (Ok (Success 200 "Login successful"
             (JObj [ ("user", JObj (obj_delete "password"
                                      (AuthController.login_row (u, company))));
                     ("token", JStr (generateToken (u_id u) (u_role u))) ])),
       set_db (db w) (tick w)).
Proof.
  intros Hh Hfind Hmatch.
  unfold AuthController.login, handler, try_catch, bind.
  rewrite query_ok by apply Hh.
  destruct (login_rows_head email (db w) (now w)) as (rows & Hrows & Hhead).
  rewrite Hrows, Hfind in *.
  destruct Hhead as (company & rest & ->).
  cbn [fst]. rewrite Hmatch. cbn [negb successResponse ret].
  exists company. reflexivity.
Qed.

(** X19.  A successful login answers 200 with the first user of that email and a
    token for its id and role; the user object carries id, email, names,
    role and company name, and no password; nothing is written. *)
Theorem login_success_hides_password
        (email password : string) (w : World) (u : User) :
  healthy w ->
  find (fun u => String.eqb (u_email u) email) (users (db w)) = Some u ->
  bcrypt_compare password (u_password u) = true ->
  exists userObject,
    AuthController.login bcrypt_compare generateToken email password w
    = (Ok (Success 200 "Login successful"
             (JObj [ ("user", userObject);
                     ("token", JStr (generateToken (u_id u) (u_role u))) ])),
       set_db (db w) (tick w))
    /\ has_field "password" userObject = false
    /\ get "id" userObject = JNum (u_id u)
    /\ get "email" userObject = JStr (u_email u)
    /\ get "role" userObject = JStr (u_role u)
    /\ get "first_name" userObject = JStr (u_first_name u)
    /\ get "last_name" userObject = JStr (u_last_name u)
    /\ has_field "company_name" userObject = true.
Proof.
  intros Hh Hfind Hmatch.
  destruct (login_accepts email password w u Hh Hfind Hmatch) as [company Hrun].
  exists (JObj (obj_delete "password" (AuthController.login_row (u, company)))).
  split; [exact Hrun|].
  unfold AuthController.login_row.
  cbn [obj_delete String.eqb Ascii.eqb Bool.eqb fst snd].
  cbn. repeat split; reflexivity.
Qed.

(** ** Sessions: changing the password *)

Lemma select_password_head (userId : Z) (d : DB) (t : Z) :
  exists rows,
    AuthController.select_password userId d t = Rows rows d
    /\ hd_error rows
       = option_map u_password (find (fun u => u_id u =? userId) (users d)).
Proof.
  unfold AuthController.select_password. eexists. split; [reflexivity|].
  now rewrite hd_error_map, hd_filter_find.
Qed.

(** X20.  Changing one's password.  An unknown user id is answered 404 and
    a wrong current password 401, both without writing.  Otherwise the
    reply is 200 and the users with that id carry the hash of the new
    password and [NOW()] as [updated_at]; their other columns, every other
    user and every other table stay as they were. *)
Theorem updatePassword_effect
        (user : Principal) (currentPassword newPassword : string) (w : World) :
  healthy w ->
  let r := fst (AuthController.updatePassword bcrypt_hash bcrypt_compare
                  user currentPassword newPassword w) in
  let w' := snd (AuthController.updatePassword bcrypt_hash bcrypt_compare
                   user currentPassword newPassword w) in
  match find (fun u => u_id u =? p_id user) (users (db w)) with
  | None => r = Ok (Next (ApiError 404 "User not found")) /\ db w' = db w
  | Some u =>
      if bcrypt_compare currentPassword (u_password u)
      then
        r = Ok (Success 200 "Password updated successfully" JNull)
        /\ (forall i x,
               nth_error (users (db w)) i = Some x ->
               exists x',
                 nth_error (users (db w')) i = Some x'
                 /\ (u_id x <> p_id user -> x' = x)
                 /\ (u_id x = p_id user ->
                     x' = mkUser (u_id x) (u_email x) (bcrypt_hash newPassword)
                                 (u_first_name x) (u_last_name x) (u_phone x)
                                 (u_profile_picture x) (u_role x)
                                 (u_created_at x) (now w)))
        /\ with_users (users (db w)) (db w') = db w
      else
        r = Ok (Next (ApiError 401 "Current password is incorrect"))
        /\ db w' = db w
  end.
Proof.
  intros Hh r w'. subst r w'.
  unfold AuthController.updatePassword, handler, try_catch, bind.
  rewrite query_ok by apply Hh.
  destruct (select_password_head (p_id user) (db w) (now w))
    as (rows & Hrows & Hhead).
  rewrite Hrows.
  destruct (find _ (users (db w))) as [u|].
  - destruct rows as [|stored rest]; [discriminate|].
    cbn [hd_error option_map] in Hhead. injection Hhead as ->.
    destruct (bcrypt_compare currentPassword (u_password u)); cbn [negb].
    + rewrite query_ok by apply Hh.
      cbn [AuthController.update_password ret successResponse fst snd]. wsimpl.
      split; [reflexivity|]. split.
      * intros i x Hx. rewrite nth_error_map, Hx. cbn [option_map].
        eexists. split; [reflexivity|].
        unfold AuthController.set_password. split; intros Hid.
        -- now rewrite (proj2 (Z.eqb_neq _ _) Hid).
        -- now rewrite (proj2 (Z.eqb_eq _ _) Hid).
      * destruct (db w); reflexivity.
    + cbn. split; [reflexivity|destruct (db w); reflexivity].
  - destruct rows as [|stored rest]; [|discriminate].
    cbn. split; [reflexivity|destruct (db w); reflexivity].
Qed.

Lemma find_email_set_password (email hashed : string) (userId t : Z)
      (l : list User) :
  find (fun u => String.eqb (u_email u) email)
       (map (AuthController.set_password hashed userId t) l)
  = option_map (AuthController.set_password hashed userId t)
               (find (fun u => String.eqb (u_email u) email) l).
Proof.
  induction l as [|x l IH]; cbn [map find option_map]; [reflexivity|].
  assert (E : u_email (AuthController.set_password hashed userId t x) = u_email x).
  { unfold AuthController.set_password. destruct (u_id x =? userId); reflexivity. }
  rewrite E. destruct (String.eqb (u_email x) email); [reflexivity|exact IH].
Qed.

(** X21.  After a password change the new password logs in.  The user is the
    first one on file with its id and with its email, the current password
    matches, and bcrypt accepts the new password against its own hash. *)
Theorem updatePassword_then_login
        (user : Principal) (currentPassword newPassword : string) (w : World)
        (u : User) :
  healthy w ->
  find (fun x => u_id x =? p_id user) (users (db w)) = Some u ->
  find (fun x => String.eqb (u_email x) (u_email u)) (users (db w)) = Some u ->
  bcrypt_compare currentPassword (u_password u) = true ->
  bcrypt_compare newPassword (bcrypt_hash newPassword) = true ->
  let w1 := snd (AuthController.updatePassword bcrypt_hash bcrypt_compare
                   user currentPassword newPassword w) in
  exists data,
    fst (AuthController.login bcrypt_compare generateToken
           (u_email u) newPassword w1)
    = Ok (Success 200 "Login successful" data)
    /\ get "token" data = JStr (generateToken (u_id u) (u_role u)).
Proof.
  intros Hh Hid Hemail Hcur Hnew w1.
  assert (Hw1 : w1 = set_db (with_users
                               (map (AuthController.set_password
                                       (bcrypt_hash newPassword) (p_id user)
                                       (now w))
                                    (users (db w))) (db w))
                            (tick (set_db (db w) (tick w)))).
  { subst w1.
    unfold AuthController.updatePassword, handler, try_catch, bind.
    rewrite query_ok by apply Hh.
    destruct (select_password_head (p_id user) (db w) (now w))
      as (rows & Hrows & Hhead).
    rewrite Hrows, Hid in *.
    destruct rows as [|stored rest]; [discriminate|].
    cbn [hd_error option_map] in Hhead. injection Hhead as ->.
    rewrite Hcur. cbn [negb].
    rewrite query_ok by apply Hh. reflexivity. }
  clearbody w1. subst w1.
  set (w1 := set_db _ _).
  assert (Hh1 : healthy w1) by (intros n; apply Hh).
  set (u' := AuthController.set_password (bcrypt_hash newPassword) (p_id user)
                                         (now w) u).
  assert (Hfind1 : find (fun x => String.eqb (u_email x) (u_email u)) (users (db w1))
                   = Some u').
  { unfold w1. wsimpl. rewrite find_email_set_password, Hemail. reflexivity. }
  assert (Hu' : u' = mkUser (u_id u) (u_email u) (bcrypt_hash newPassword)
                            (u_first_name u) (u_last_name u) (u_phone u)
                            (u_profile_picture u) (u_role u)
                            (u_created_at u) (now w)).
  { unfold u', AuthController.set_password.
    apply find_some in Hid as [_ Hid]. now rewrite Hid. }
  destruct (login_accepts (u_email u) newPassword w1 u' Hh1 Hfind1)
    as (company & Hlogin).
  { rewrite Hu'. exact Hnew. }
  rewrite Hlogin. cbn [fst]. eexists. split; [reflexivity|].
  rewrite Hu'. reflexivity.
Qed.

End SessionProperties.

Lemma login_failures_alike_witness :
  AuthController.login String.eqb (fun _ role => role)
                       "sam@mail.test" "wrong" demo_world
  = AuthController.login String.eqb (fun _ role => role)
                         "nobody@mail.test" "x" demo_world.
Proof.
  rewrite (login_failures_alike String.eqb (fun _ role => role)
             "sam@mail.test" "wrong" demo_world);
    [|intros n; reflexivity|reflexivity].
  rewrite (login_failures_alike String.eqb (fun _ role => role)
             "nobody@mail.test" "x" demo_world);
    [reflexivity|intros n; reflexivity|exact I].
Defined.

Lemma login_success_hides_password_witness :
  exists userObject,
    AuthController.login String.eqb (fun _ role => role)
                         "eve@acme.test" "x" demo_world
    = (Ok (Success 200 "Login successful"
             (JObj [("user", userObject); ("token", JStr "employer")])),
       set_db (db demo_world) (tick demo_world))
    /\ has_field "password" userObject = false.
Proof.
  destruct (login_success_hides_password String.eqb (fun _ role => role)
              "eve@acme.test" "x" demo_world
              (mkUser 1 "eve@acme.test" "x" "Eve" "Employer" None None "employer" 1 1))
    as (obj & H & Hp & _).
  - intros n; reflexivity.
  - reflexivity.
  - reflexivity.
  - exists obj. split; [exact H|exact Hp].
Defined.

Lemma updatePassword_effect_witness :
  fst (AuthController.updatePassword (fun p => p) String.eqb sam "x" "y" demo_world)
  = Ok (Success 200 "Password updated successfully" JNull)
  /\ with_users (users (db demo_world))
       (db (snd (AuthController.updatePassword (fun p => p) String.eqb
                   sam "x" "y" demo_world)))
     = db demo_world.
Proof.
  pose proof (updatePassword_effect (fun p => p) String.eqb sam "x" "y" demo_world
                (fun n => eq_refl)) as H.
  cbv zeta in H.
  change (find (fun u => u_id u =? p_id sam) (users (db demo_world)))
    with (Some (mkUser 2 "sam@mail.test" "x" "Sam" "Seeker" None None "job_seeker" 1 1))
    in H.
  cbv iota beta in H.
  change (String.eqb "x" (u_password (mkUser 2 "sam@mail.test" "x" "Sam" "Seeker" None None "job_seeker" 1 1)))
    with true in H.
  cbv iota in H.
  destruct H as (Hr & _ & Hd). split; [exact Hr|exact Hd].
Defined.

Lemma updatePassword_then_login_witness :
  exists data,
    fst (AuthController.login String.eqb (fun _ role => role)
           "sam@mail.test" "y"
           (snd (AuthController.updatePassword (fun p => p) String.eqb
                   sam "x" "y" demo_world)))
    = Ok (Success 200 "Login successful" data)
    /\ get "token" data = JStr "job_seeker".
Proof.
  apply (updatePassword_then_login (fun p => p) String.eqb (fun _ role => role)
           sam "x" "y" demo_world
           (mkUser 2 "sam@mail.test" "x" "Sam" "Seeker" None None "job_seeker" 1 1));
    try reflexivity.
  intros n; reflexivity.
Defined.

(** ** The listing statements of the application model *)

Lemma dollar_count_app (a b : string) :
  dollar_count (a ++ b) = (dollar_count a + dollar_count b)%nat.
Proof.
  induction a as [|c a IH]; cbn [String.append dollar_count]; [reflexivity|].
  rewrite IH. now rewrite Nat.add_assoc.
Qed.

(** X22.  The statements that [findByJob] and [findByJobSeeker] send.  When the
    sort column holds no dollar sign, the text has one placeholder only, the
    [$1] of its WHERE clause, while three values are bound, or four with a
    status filter: the status comparison and the paging are written with the
    parameter counter itself, so the text ends in LIMIT 2 OFFSET 3, or in
    LIMIT 3 OFFSET 4 with a status filter, whatever page and limit are. *)
Theorem listing_statements_have_one_placeholder
        (id : Z) (filters : Filters) (page limit : Z) :
  dollar_count (match f_sortBy filters with Some s => s | None => "" end) = 0%nat ->
  let paging := if JobApplication.truthy_string (f_status filters)
                then " LIMIT 3 OFFSET 4" else " LIMIT 2 OFFSET 3" in
  let bound := if JobApplication.truthy_string (f_status filters) then 4%nat else 3%nat in
  (dollar_count (JobApplication.findByJob_queryText filters) = 1%nat
   /\ List.length (JobApplication.findByJob_queryParams id filters page limit)
      = bound
   /\ exists head, JobApplication.findByJob_queryText filters = head ++ paging)
  /\ (dollar_count (JobApplication.findByJobSeeker_queryText filters) = 1%nat
      /\ List.length (JobApplication.findByJobSeeker_queryParams
                        id filters page limit) = bound
      /\ exists head,
           JobApplication.findByJobSeeker_queryText filters = head ++ paging).
Proof.
  intros Hsort paging bound. subst paging bound.
  unfold JobApplication.findByJob_queryText,
    JobApplication.findByJobSeeker_queryText,
    JobApplication.findByJob_queryParams,
    JobApplication.findByJobSeeker_queryParams.
  destruct (JobApplication.truthy_string (f_status filters)).
  all: change (template (JNum 2)) with "2";
    change (template (JNum (2 + 1))) with "3";
    change (template (JNum (2 + 1 + 1))) with "4".
  all: assert (Hs : forall dflt, dollar_count dflt = 0%nat ->
                 dollar_count (if JobApplication.truthy_string (f_sortBy filters)
                               then match f_sortBy filters with
                                    | Some s => s | None => "" end
                               else dflt) = 0%nat)
    by (intros dflt Hd; destruct (JobApplication.truthy_string (f_sortBy filters)); assumption).
  all: assert (Ho : dollar_count (match f_sortOrder filters with
                                  | Some s => if String.eqb s "asc" then "ASC" else "DESC"
                                  | None => "DESC" end) = 0%nat)
    by (destruct (f_sortOrder filters) as [s|];
        [destruct (String.eqb s "asc")|]; reflexivity).
  all: repeat split.
  all: try (rewrite !dollar_count_app, Ho, Hs by reflexivity; reflexivity).
  all: match goal with
       | |- exists head, (?a ++ _)%string = _ => exists a; reflexivity
       end.
Qed.

Lemma listing_statements_have_one_placeholder_witness :
  dollar_count (JobApplication.findByJob_queryText
                  (mkFilters (Some "pending") (Some "status") (Some "asc")))
  = 1%nat
  /\ List.length (JobApplication.findByJob_queryParams 30
                    (mkFilters (Some "pending") (Some "status") (Some "asc")) 2 5)
     = 4%nat.
Proof.
  destruct (listing_statements_have_one_placeholder 30
              (mkFilters (Some "pending") (Some "status") (Some "asc")) 2 5
              eq_refl) as [(H1 & H2 & _) _].
  split; [exact H1|exact H2].
Defined.

(** ** Listing applications: who gets past the gate *)

Lemma owned_rows_empty (jobId userId : Z) (d : DB) :
  owns_job d userId jobId = false
  <-> flat_map (fun j =>
         map (fun _ => j)
             (filter (fun e => (ep_id e =? j_employer_id j)
                               && (ep_user_id e =? userId))%bool
                     (employer_profiles d)))
         (filter (fun j => j_id j =? jobId) (jobs d)) = [].
Proof.
  unfold owns_job.
  induction (jobs d) as [|j js IH]; cbn [filter existsb flat_map].
  - split; reflexivity.
  - destruct (j_id j =? jobId); cbn [andb orb flat_map]; [|exact IH].
    destruct (filter _ (employer_profiles d)) as [|e es] eqn:E.
    + assert (Hex : existsb (fun e => (ep_id e =? j_employer_id j)
                                      && (ep_user_id e =? userId))
                            (employer_profiles d) = false).
      { destruct (existsb _ (employer_profiles d)) eqn:X; [|reflexivity].
        apply existsb_exists in X as (e & Hin & He).
        assert (Hf : In e (filter (fun e => (ep_id e =? j_employer_id j)
                                            && (ep_user_id e =? userId))
                                  (employer_profiles d)))
          by (apply filter_In; split; assumption).
        rewrite E in Hf. destruct Hf. }
      rewrite Hex. cbn [map app orb]. exact IH.
    + assert (Hex : existsb (fun e => (ep_id e =? j_employer_id j)
                                      && (ep_user_id e =? userId))
                            (employer_profiles d) = true).
      { apply existsb_exists. exists e.
        assert (Hf : In e (filter (fun e => (ep_id e =? j_employer_id j)
                                            && (ep_user_id e =? userId))
                                  (employer_profiles d)))
          by (rewrite E; left; reflexivity).
        apply filter_In in Hf. exact Hf. }
      rewrite Hex. cbn [map app orb]. split; discriminate.
Qed.

Lemma owns_job_on_file (jobId userId : Z) (d : DB) :
  owns_job d userId jobId = true -> In jobId (map j_id (jobs d)).
Proof.
  unfold owns_job. intros H. apply existsb_exists in H as [j [Hin Hc]].
  apply andb_true_iff in Hc as [Hid _]. apply Z.eqb_eq in Hid.
  subst jobId. now apply in_map.
Qed.

(** What the ownership query of the job handlers returns: a row for the
    owner; for anyone else no row, or the refusal of an id that no job has
    and that is outside the range of the INTEGER column. *)
Lemma select_job_owned_by_cases (jobId userId : Z) (d : DB) (t : Z) :
  if owns_job d userId jobId
  then exists j rest,
      ApplicationController.select_job_owned_by jobId userId d t
      = Rows (j :: rest) d
  else ApplicationController.select_job_owned_by jobId userId d t
       = match find (fun j => j_id j =? jobId) (jobs d) with
         | Some _ => Rows [] d
         | None => if int4 jobId then Rows [] d else SqlError "22003"
         end.
Proof.
  unfold ApplicationController.select_job_owned_by.
  pose proof (owned_rows_empty jobId userId d) as Hiff.
  destruct (owns_job d userId jobId) eqn:Hown.
  - rewrite (int4_param_stored _ _ (owns_job_on_file _ _ _ Hown)). cbn [negb].
    destruct (flat_map _ _) as [|j rest].
    + destruct Hiff as [_ Hiff]. discriminate (Hiff eq_refl).
    + exists j, rest. reflexivity.
  - destruct Hiff as [Hiff _]. rewrite (Hiff eq_refl).
    destruct (find (fun j => j_id j =? jobId) (jobs d)) as [j|] eqn:Hj.
    + now rewrite (int4_param_stored _ _ (find_in_column j_id _ _ _ Hj)).
    + rewrite (int4_param_absent _ _ (find_none_column j_id _ _ Hj)).
      destruct (int4 jobId); reflexivity.
Qed.

(** X23.  Listing the applications of a job.  A user who does not own the
    job is turned away after the ownership query alone, whatever the
    model's [findByJob] would do: it is not called.  The answer is 404 when
    the job is another employer's, and when no job has the id and the id is
    within the range of the INTEGER column; an id outside it is answered
    with the error of PostgreSQL (22003, status 500).  For the owner the
    handler runs [findByJob] once, with page 1 and limit 10 where the query
    string gives none or 0, and passes on its rows and pagination, or its
    error. *)
Theorem getJobApplications_owner_gate
        (findByJob : Z -> Filters -> Z -> Z -> M (list jsval * Pagination))
        (user : Principal) (jobId : Z) (filters : Filters)
        (page limit : option Z) (w : World) :
  healthy w ->
  ApplicationController.getJobApplications findByJob user jobId filters page limit w
  = if owns_job (db w) (p_id user) jobId
    then
      match findByJob jobId filters (or_default page 1) (or_default limit 10)
                      (set_db (db w) (tick w)) with
      | (Ok result, w') =>
          (Ok (PageSuccess 200 "Job applications retrieved successfully"
                           (fst result) (snd result)), w')
      | (Throw e, w') => (Ok (PageNext e), w')
      end
    else
      (Ok (PageNext
             (match find (fun j => j_id j =? jobId) (jobs (db w)) with
              | Some _ =>
                  ApiError 404
                    "Job not found or you are not authorized to view its applications"
              | None =>
                  if int4 jobId
                  then ApiError 404
                    "Job not found or you are not authorized to view its applications"
                  else PgError "22003"
              end)),
       set_db (db w) (tick w)).
Proof.
  intros Hh.
  unfold ApplicationController.getJobApplications, try_catch, bind.
  rewrite query_ok by apply Hh.
  pose proof (select_job_owned_by_cases jobId (p_id user) (db w) (now w)) as Hq.
  destruct (owns_job (db w) (p_id user) jobId).
  - destruct Hq as (j & rest & ->).
    destruct (findByJob _ _ _ _ _) as [[result|e] w']; reflexivity.
  - rewrite Hq.
    destruct (find _ (jobs (db w))); [reflexivity|].
    destruct (int4 jobId); reflexivity.
Qed.

Lemma getJobApplications_owner_gate_witness :
  ApplicationController.getJobApplications
    (fun _ _ _ _ => throw (PgError "42601")) oto 30
    (mkFilters None None None) None None demo_world
  = (Ok (PageNext (ApiError 404
        "Job not found or you are not authorized to view its applications")),
     set_db (db demo_world) (tick demo_world))
  /\ fst (ApplicationController.getJobApplications
            (fun _ _ _ _ => throw (PgError "42601")) eve 30
            (mkFilters None None None) None None demo_world)
     = Ok (PageNext (PgError "42601"))
  /\ fst (ApplicationController.getJobApplications
            (fun _ _ _ _ => throw (PgError "42601")) eve 2147483648
            (mkFilters None None None) None None demo_world)
     = Ok (PageNext (PgError "22003")).
Proof.
  split; [|split].
  - rewrite (getJobApplications_owner_gate
               (fun _ _ _ _ => throw (PgError "42601")) oto 30
               (mkFilters None None None) None None demo_world
               (fun n => eq_refl)).
    reflexivity.
  - rewrite (getJobApplications_owner_gate
               (fun _ _ _ _ => throw (PgError "42601")) eve 30
               (mkFilters None None None) None None demo_world
               (fun n => eq_refl)).
    reflexivity.
  - rewrite (getJobApplications_owner_gate
               (fun _ _ _ _ => throw (PgError "42601")) eve 2147483648
               (mkFilters None None None) None None demo_world
               (fun n => eq_refl)).
    reflexivity.
Defined.

(** X24.  Listing one's own applications.  A user without a job seeker profile is
    answered 404 and [findByJobSeeker] is not called; otherwise it is called
    once for the first profile of the user, with page 1 and limit 10 where
    the query string gives none or 0. *)
Theorem getMyApplications_profile_gate
        (findByJobSeeker : Z -> Filters -> Z -> Z -> M (list jsval * Pagination))
        (user : Principal) (filters : Filters)
        (page limit : option Z) (w : World) :
  healthy w ->
  ApplicationController.getMyApplications findByJobSeeker user filters page limit w
  = match find (fun p => jsp_user_id p =? p_id user)
               (job_seeker_profiles (db w)) with
    | None =>
        (Ok (PageNext (ApiError 404 "Job seeker profile not found")),
         set_db (db w) (tick w))
    | Some profile =>
        match findByJobSeeker (jsp_id profile) filters
                (or_default page 1) (or_default limit 10)
                (set_db (db w) (tick w)) with
        | (Ok result, w') =>
            (Ok (PageSuccess 200 "Your applications retrieved successfully"
                             (fst result) (snd result)), w')
        | (Throw e, w') => (Ok (PageNext e), w')
        end
    end.
Proof.
  intros Hh.
  unfold ApplicationController.getMyApplications, try_catch, bind.
  rewrite query_ok by apply Hh.
  unfold ApplicationController.select_profile_of_user.
  pose proof (hd_filter_find (fun p => jsp_user_id p =? p_id user)
                             (job_seeker_profiles (db w))) as Hhd.
  destruct (find _ (job_seeker_profiles (db w))) as [profile|];
    destruct (filter _ (job_seeker_profiles (db w))) as [|p ps];
    try discriminate.
  - injection Hhd as ->. cbn [map].
    destruct (findByJobSeeker _ _ _ _ _) as [[result|e] w']; reflexivity.
  - reflexivity.
Qed.

Lemma getMyApplications_profile_gate_witness :
  fst (ApplicationController.getMyApplications
         (fun id _ page limit => ret ([JNum id; JNum page; JNum limit],
                                      mkPagination 0 page limit None))
         sam (mkFilters None None None) (Some 0) None demo_world)
  = Ok (PageSuccess 200 "Your applications retrieved successfully"
          [JNum 10; JNum 1; JNum 10] (mkPagination 0 1 10 None))
  /\ fst (ApplicationController.getMyApplications
            (fun id _ page limit => ret ([JNum id; JNum page; JNum limit],
                                         mkPagination 0 page limit None))
            eve (mkFilters None None None) None None demo_world)
     = Ok (PageNext (ApiError 404 "Job seeker profile not found")).
Proof.
  split.
  - rewrite (getMyApplications_profile_gate _ sam (mkFilters None None None)
               (Some 0) None demo_world (fun n => eq_refl)).
    reflexivity.
  - rewrite (getMyApplications_profile_gate _ eve (mkFilters None None None)
               None None demo_world (fun n => eq_refl)).
    reflexivity.
Defined.

(** ** The status engine at concrete requests *)

Lemma status_update_missing_application_witness :
  ApplicationController.updateApplicationStatus ada 99 "accepted" demo_world
  = (Ok (Next (ApiError 404 "Application not found")), tick demo_world)
  /\ ApplicationController.updateApplicationStatus
       ada 2147483648 "accepted" demo_world
     = (Ok (Next (PgError "22003")), tick demo_world).
Proof.
  split.
  - exact (status_update_missing_application ada 99 "accepted" demo_world
             (fun n => eq_refl) eq_refl eq_refl).
  - exact (status_update_missing_application ada 2147483648 "accepted"
             demo_world (fun n => eq_refl) eq_refl eq_refl).
Defined.

Lemma status_update_contains_notification_failure_witness :
  fst (ApplicationController.updateApplicationStatus
         eve 40 "accepted" connection_lost_world)
  = fst (ApplicationController.updateApplicationStatus
           eve 40 "accepted" (heal connection_lost_world)).
Proof.
  apply (status_update_contains_notification_failure
           eve 40 "accepted" connection_lost_world);
    reflexivity.
Defined.

(** ** Deleting a job as its employer *)

Lemma delete_job_rows (jobId : Z) (d : DB) (t : Z) :
  exists d',
    AdminJobController.delete_job jobId d t = Rows tt d'
    /\ (forall j, In j (jobs d') <-> In j (jobs d) /\ j_id j <> jobId)
    /\ (forall a, In a (job_applications d')
                  <-> In a (job_applications d) /\ a_job_id a <> jobId)
    /\ users d' = users d
    /\ job_seeker_profiles d' = job_seeker_profiles d
    /\ employer_profiles d' = employer_profiles d
    /\ notifications d' = notifications d.
Proof.
  unfold AdminJobController.delete_job. eexists. split; [reflexivity|]. wsimpl.
  split.
  { intros x. rewrite filter_In, negb_true_iff, Z.eqb_neq. tauto. }
  split.
  { intros x. rewrite filter_In, negb_true_iff, Z.eqb_neq. tauto. }
  repeat split; reflexivity.
Qed.

(** X25.  Deleting a job on the employers' route.  A user who owns no job
    with that id is turned away and nothing is written: with 404 when the
    job is another employer's, and when no job has the id and the id is
    within the range of the INTEGER column; with the error of PostgreSQL
    (22003, status 500) when the id is outside it.  For the owner the reply
    is 200, the jobs with that id are gone together with all their
    applications, and every other job and application, the users, the
    profiles and the notifications stay. *)
Theorem deleteJob_owner_only (user : Principal) (jobId : Z) (w : World) :
  healthy w ->
  let r := fst (JobController.deleteJob user jobId w) in
  let w' := snd (JobController.deleteJob user jobId w) in
  if owns_job (db w) (p_id user) jobId
  then
    r = Ok (Success 200 "Job deleted successfully" JNull)
    /\ (forall j, In j (jobs (db w')) <-> In j (jobs (db w)) /\ j_id j <> jobId)
    /\ (forall a, In a (job_applications (db w'))
                  <-> In a (job_applications (db w)) /\ a_job_id a <> jobId)
    /\ users (db w') = users (db w)
    /\ job_seeker_profiles (db w') = job_seeker_profiles (db w)
    /\ employer_profiles (db w') = employer_profiles (db w)
    /\ notifications (db w') = notifications (db w)
  else
    r = Ok (Next
              (match find (fun j => j_id j =? jobId) (jobs (db w)) with
               | Some _ =>
                   ApiError 404
                     "Job not found or you are not authorized to delete it"
               | None =>
                   if int4 jobId
                   then ApiError 404
                          "Job not found or you are not authorized to delete it"
                   else PgError "22003"
               end))
    /\ db w' = db w.
Proof.
  intros Hh r w'. subst r w'.
  unfold JobController.deleteJob, JobModel.delete, handler, try_catch, bind.
  rewrite query_ok by apply Hh.
  pose proof (select_job_owned_by_cases jobId (p_id user) (db w) (now w)) as Hq.
  destruct (owns_job (db w) (p_id user) jobId).
  - destruct Hq as (j & rest & ->).
    rewrite query_ok by apply Hh. wsimpl.
    destruct (delete_job_rows jobId (db w) (now w)) as (d' & Hd & Hrest).
    rewrite Hd. cbn [ret successResponse fst snd]. wsimpl.
    split; [reflexivity|exact Hrest].
  - rewrite Hq.
    destruct (find _ (jobs (db w)));
      [cbn; split; [reflexivity|destruct (db w); reflexivity]|].
    destruct (int4 jobId); cbn;
      (split; [reflexivity|destruct (db w); reflexivity]).
Qed.

Lemma deleteJob_owner_only_witness :
  fst (JobController.deleteJob oto 30 demo_world)
  = Ok (Next (ApiError 404
                "Job not found or you are not authorized to delete it"))
  /\ db (snd (JobController.deleteJob oto 30 demo_world)) = db demo_world
  /\ fst (JobController.deleteJob eve 30 demo_world)
     = Ok (Success 200 "Job deleted successfully" JNull)
  /\ fst (JobController.deleteJob eve 2147483648 demo_world)
     = Ok (Next (PgError "22003")).
Proof.
  pose proof (deleteJob_owner_only oto 30 demo_world (fun n => eq_refl)) as Ho.
  pose proof (deleteJob_owner_only eve 30 demo_world (fun n => eq_refl)) as He.
  pose proof (deleteJob_owner_only eve 2147483648 demo_world (fun n => eq_refl))
    as Hr.
  cbv zeta in Ho, He, Hr.
  change (owns_job (db demo_world) (p_id oto) 30) with false in Ho.
  change (owns_job (db demo_world) (p_id eve) 30) with true in He.
  change (owns_job (db demo_world) (p_id eve) 2147483648) with false in Hr.
  cbv iota in Ho, He, Hr.
  destruct Ho as [Ho1 Ho2]. destruct He as [He1 _]. destruct Hr as [Hr1 _].
  split; [exact Ho1|]. split; [exact Ho2|]. split; [exact He1|exact Hr1].
Defined.
